(** * DocuMind-AI browser client: the conversational query session

    A shallow embedding of the stateful core of the React client:
    - [queryService.queryDocuments]  (frontend/src/services/api.js),
    - the [Chat] component: [handleSubmit], [loadDocuments], the document
      dropdown, [getConfidenceText] and the rendering of a source line,
    - the [DocumentSummaryModal] component: [generateSummary] and its two
      effects.

    JavaScript values are modelled as the code has them: strings are
    sequences of UTF-16 code units, numbers are IEEE 754 binary64 floats
    (the kernel's primitive floats), [undefined] and [null] are explicit.
    An [async] handler is split at its [await]: the part that runs when
    the event fires, and the continuations that run when the promise
    settles.  React state is a record, every setter an update of it; a
    handler reads the state of the render it closes over and writes
    through the setters. *)

From Stdlib Require Import ZArith NArith List Bool Lia Floats String Ascii.
From Stdlib Require Import Sorted DecimalN.
Import ListNotations.

Set Warnings "-inexact-float".

(* ===================================================================== *)
(** ** JavaScript values                                                  *)
(* ===================================================================== *)

Module JS.

(** A string is a sequence of UTF-16 code units. *)
Abbreviation char := N.
Abbreviation str := (list N).

(** An ASCII literal of the source as a JavaScript string. *)
Definition lit (s : string) : str := map N_of_ascii (list_ascii_of_string s).

(** ECMAScript [WhiteSpace] and [LineTerminator]: what
    [String.prototype.trim] strips.  All of them are single code units. *)
Definition is_white (c : char) : bool :=
  ((9 <=? c) && (c <=? 13)          (* TAB LF VT FF CR *)
   || (c =? 32)                     (* SPACE *)
   || (c =? 160)                    (* NO-BREAK SPACE *)
   || (c =? 5760)                   (* U+1680 *)
   || ((8192 <=? c) && (c <=? 8202))(* U+2000 .. U+200A *)
   || (c =? 8232) || (c =? 8233)    (* U+2028 U+2029 *)
   || (c =? 8239)                   (* U+202F *)
   || (c =? 8287)                   (* U+205F *)
   || (c =? 12288)                  (* U+3000 *)
   || (c =? 65279))%N.              (* U+FEFF *)

Fixpoint trimStart (s : str) : str :=
  match s with
  | [] => []
  | c :: r => if is_white c then trimStart r else s
  end.

Definition trimEnd (s : str) : str := rev (trimStart (rev s)).

Definition trim (s : str) : str := trimEnd (trimStart s).

(** The values a document scope can take on its way to the request. *)
Inductive value :=
| undefined
| null
| String (s : str).

(** [ToBoolean]: [undefined], [null] and the empty string are falsy. *)
Definition truthy (v : value) : bool :=
  match v with
  | String (_ :: _) => true
  | _ => false
  end.

(** [a || b]. *)
Definition or (a b : value) : value := if truthy a then a else b.

(** A parameter with a default: the default replaces [undefined] only. *)
Definition param (v d : value) : value :=
  match v with
  | undefined => d
  | _ => v
  end.

(** Numbers.  A field that may be missing reads as [undefined];
    [ToNumber undefined] is [NaN]. *)
Definition ToNumber (v : option float) : float :=
  match v with
  | Some x => x
  | None => nan
  end.

(** [a >= b] on numbers: false as soon as one side is [NaN]. *)
Definition ge (a b : float) : bool := (b <=? a)%float.

(** *** [Number.prototype.toFixed] *)

Definition is_digit (c : char) : bool := ((48 <=? c) && (c <=? 57))%N.

Fixpoint digits_of_uint (d : Decimal.uint) : str :=
  match d with
  | Decimal.Nil => []
  | Decimal.D0 r => 48%N :: digits_of_uint r
  | Decimal.D1 r => 49%N :: digits_of_uint r
  | Decimal.D2 r => 50%N :: digits_of_uint r
  | Decimal.D3 r => 51%N :: digits_of_uint r
  | Decimal.D4 r => 52%N :: digits_of_uint r
  | Decimal.D5 r => 53%N :: digits_of_uint r
  | Decimal.D6 r => 54%N :: digits_of_uint r
  | Decimal.D7 r => 55%N :: digits_of_uint r
  | Decimal.D8 r => 56%N :: digits_of_uint r
  | Decimal.D9 r => 57%N :: digits_of_uint r
  end.

(** The digits of the decimal representation of [n] ("0" for zero). *)
Definition digits (n : N) : str := digits_of_uint (N.to_uint n).

(** The mathematical value of a finite float is [m * 2^e].  [toFixed]
    switches to [Number::toString] when it reaches 10^21. *)
Definition reaches_1e21 (m : positive) (e : Z) : bool :=
  match e with
  | Z0 => (10 ^ 21 <=? Npos m)%N
  | Zpos p => (10 ^ 21 <=? Npos m * 2 ^ Npos p)%N
  | Zneg p => (10 ^ 21 * 2 ^ Npos p <=? Npos m)%N
  end.

(** "Let n be an integer for which n / 10^f - x is as close to zero as
    possible.  If there are two such n, pick the larger n." *)
Definition nearest_scaled (f : nat) (m : positive) (e : Z) : N :=
  let scaled := (Npos m * 10 ^ N.of_nat f)%N in
  match e with
  | Z0 => scaled
  | Zpos p => (scaled * 2 ^ Npos p)%N
  | Zneg p => ((2 * scaled + 2 ^ Npos p) / 2 ^ (Npos p + 1))%N
  end.

(** The digits of [n] with the decimal point [f] places from the right,
    padded with zeros on the left up to [f + 1] digits. *)
Definition fixed_digits (f : nat) (n : N) : str :=
  let m := digits n in
  if Nat.eqb f 0 then m
  else
    let m := if Nat.leb (List.length m) f
             then repeat 48%N (f + 1 - List.length m) ++ m
             else m in
    let k := List.length m in
    firstn (k - f) m ++ [46%N] ++ skipn (k - f) m.

Section ToFixed.

(** [Number::toString], which [toFixed] falls back on from 10^21 on, is
    the platform's; it is a parameter here. *)
Variable NumberToString : float -> str.

Definition toFixed (x : float) (fractionDigits : nat) : str :=
  match Prim2SF x with
  | S754_nan => lit "NaN"
  | S754_infinity s => if s then lit "-Infinity" else lit "Infinity"
  | S754_zero _ => fixed_digits fractionDigits 0
  | S754_finite s m e =>
      if reaches_1e21 m e then NumberToString x
      else (if s then lit "-" else [])
             ++ fixed_digits fractionDigits (nearest_scaled fractionDigits m e)
  end.

End ToFixed.

(** The natural number a string of decimal digits denotes. *)
Definition decimal_value (s : str) : N :=
  fold_left (fun acc c => (10 * acc + (c - 48))%N) s 0%N.

(** The magnitude of a finite float with mantissa [m] and exponent [e]
    is the number [m * 2^e]; here as a fraction [(a, b)], for [a / b],
    with [b] a power of two. *)
Definition magnitude (x : float) : option (N * N) :=
  match Prim2SF x with
  | S754_zero _ => Some (0, 1)%N
  | S754_finite _ m Z0 => Some (Npos m, 1%N)
  | S754_finite _ m (Zpos p) => Some (Npos m * 2 ^ Npos p, 1)%N
  | S754_finite _ m (Zneg p) => Some (Npos m, 2 ^ Npos p)%N
  | _ => None
  end.

(** [n / 10^f] is the decimal of [f] places nearest to [|x|], and the
    larger one when two are equally near:
    [-1/2 < n - |x| * 10^f <= 1/2], multiplied out. *)
Definition nearest_decimal (f : nat) (x : float) (n : N) : Prop :=
  match magnitude x with
  | Some (a, b) =>
      (2 * a * 10 ^ N.of_nat f < 2 * n * b + b
       /\ 2 * n * b <= 2 * a * 10 ^ N.of_nat f + b)%N
  | None => False
  end.

(** The numbers [toFixed] formats itself: finite and below 10^21. *)
Definition fixed_range (x : float) : bool :=
  match Prim2SF x with
  | S754_zero _ => true
  | S754_finite _ m e => negb (reaches_1e21 m e)
  | _ => false
  end.

End JS.

(* ===================================================================== *)
(** ** The wire contract: [queryService.queryDocuments]                   *)
(* ===================================================================== *)

Inductive Role := role_user | role_assistant.

(** One element of [conversation_history]. *)
Module Turn.
Record t := { role : Role; content : JS.str }.
End Turn.

(** One element of [response.sources]. *)
Module Source.
Record t := { filename : JS.str; similarity_score : float }.
End Source.

(** The body of [POST /query].  [document_id] is [None] when the object
    has no such property. *)
Module Request.
Record t := {
  query : JS.str;
  conversation_history : list Turn.t;
  document_id : option JS.value
}.
End Request.

(** [response.data] of [POST /query].  A missing [sources] or
    [confidence] reads as [undefined] ([None]). *)
Module Response.
Record t := {
  answer : JS.str;
  sources : option (list Source.t);
  confidence : option float
}.
End Response.

Module queryService.

(** [queryDocuments(query, conversationHistory = [], documentId = null)]
    up to its [await]: the object handed to [api.post('/query', _)].
    An omitted [conversationHistory] is [None]. *)
Definition queryDocuments (query : JS.str)
    (conversationHistory : option (list Turn.t))
    (documentId : JS.value) : Request.t :=
  let conversationHistory :=
    match conversationHistory with Some h => h | None => [] end in
  let documentId := JS.param documentId JS.null in
  let requestData :=
    {| Request.query := query;
       Request.conversation_history := conversationHistory;
       Request.document_id := None |} in
  if JS.truthy documentId
  then {| Request.query := Request.query requestData;
          Request.conversation_history :=
            Request.conversation_history requestData;
          Request.document_id := Some documentId |}
  else requestData.

End queryService.

(* ===================================================================== *)
(** ** The [Chat] component                                               *)
(* ===================================================================== *)

Module Chat.

Inductive MsgType := user | bot.

(** An element of [messages].  A user message is created without
    [sources] and [confidence]: both read as [undefined] ([None]).
    [id] and [timestamp] are clock readings in milliseconds; the ISO
    string of [timestamp] is determined by its instant. *)
Module Message.
Record t := {
  id : Z;
  type : MsgType;
  content : JS.str;
  sources : option (list Source.t);
  confidence : option float;
  timestamp : Z
}.
End Message.

(** An element of [documents]; the component reads these two fields. *)
Module Document.
Record t := { document_id : JS.str; filename : JS.str }.
End Document.

(** The [useState] cells of the component that the session logic reads
    or writes. *)
Record State := {
  messages : list Message.t;
  input : JS.str;
  loading : bool;
  selectedDocument : JS.str;
  documents : list Document.t;
  showDocumentDropdown : bool
}.

Definition initial : State :=
  {| messages := []; input := []; loading := false;
     selectedDocument := []; documents := [];
     showDocumentDropdown := false |}.

Definition setMessages (f : list Message.t -> list Message.t) (s : State) :=
  {| messages := f (messages s); input := input s; loading := loading s;
     selectedDocument := selectedDocument s; documents := documents s;
     showDocumentDropdown := showDocumentDropdown s |}.

Definition setInput (v : JS.str) (s : State) :=
  {| messages := messages s; input := v; loading := loading s;
     selectedDocument := selectedDocument s; documents := documents s;
     showDocumentDropdown := showDocumentDropdown s |}.

Definition setLoading (v : bool) (s : State) :=
  {| messages := messages s; input := input s; loading := v;
     selectedDocument := selectedDocument s; documents := documents s;
     showDocumentDropdown := showDocumentDropdown s |}.

Definition setSelectedDocument (v : JS.str) (s : State) :=
  {| messages := messages s; input := input s; loading := loading s;
     selectedDocument := v; documents := documents s;
     showDocumentDropdown := showDocumentDropdown s |}.

Definition setDocuments (v : list Document.t) (s : State) :=
  {| messages := messages s; input := input s; loading := loading s;
     selectedDocument := selectedDocument s; documents := v;
     showDocumentDropdown := showDocumentDropdown s |}.

Definition setShowDocumentDropdown (v : bool) (s : State) :=
  {| messages := messages s; input := input s; loading := loading s;
     selectedDocument := selectedDocument s; documents := documents s;
     showDocumentDropdown := v |}.

(** What a handler does to the outside world. *)
Inductive Effect :=
| get_documents                      (* documentService.getDocuments() *)
| post_query (body : Request.t)      (* api.post('/query', body) *)
| toast_error (text : JS.str)
| console_error (text : JS.str).

(** *** [loadDocuments] *)

(** [loadDocuments] up to its [await]. *)
Definition loadDocuments : list Effect := [get_documents].

(** [setDocuments(response.documents || [])]. *)
Definition loadDocuments_fulfilled (response_documents : option (list Document.t))
    (s : State) : State * list Effect :=
  (setDocuments
     (match response_documents with Some d => d | None => [] end) s,
   []).

Definition loadDocuments_rejected (s : State) : State * list Effect :=
  (s, [console_error (JS.lit "Error loading documents:")]).

(** *** The document dropdown *)

Definition toggleDropdown (s : State) : State :=
  setShowDocumentDropdown (negb (showDocumentDropdown s)) s.

(** The "All documents" entry. *)
Definition pickAllDocuments (s : State) : State :=
  setShowDocumentDropdown false (setSelectedDocument [] s).

(** The entry of [doc]. *)
Definition pickDocument (doc : Document.t) (s : State) : State :=
  setShowDocumentDropdown false
    (setSelectedDocument (Document.document_id doc) s).

(** *** [handleSubmit] *)

(** The callback of [messages.map] that builds [conversationHistory]. *)
Definition conversationTurn (msg : Message.t) : Turn.t :=
  {| Turn.role := match Message.type msg with
                  | user => role_user
                  | bot => role_assistant
                  end;
     Turn.content := Message.content msg |}.

Definition errorText : JS.str :=
  JS.lit "I apologize, but I encountered an error while processing your request. Please try again.".

Definition errorToast : JS.str :=
  JS.lit "Failed to get response. Please try again.".

(** The three message literals of the handler.  [now] is [Date.now()],
    [date] the instant of [new Date()]. *)
Definition userMessage (now date : Z) (input : JS.str) : Message.t :=
  {| Message.id := now;
     Message.type := user;
     Message.content := JS.trim input;
     Message.sources := None;
     Message.confidence := None;
     Message.timestamp := date |}.

(** [sources: response.sources || []]. *)
Definition botMessage (now date : Z) (response : Response.t) : Message.t :=
  {| Message.id := now + 1;
     Message.type := bot;
     Message.content := Response.answer response;
     Message.sources :=
       Some (match Response.sources response with
             | Some l => l
             | None => []
             end);
     Message.confidence := Response.confidence response;
     Message.timestamp := date |}.

Definition errorMessage (now date : Z) : Message.t :=
  {| Message.id := now + 1;
     Message.type := bot;
     Message.content := errorText;
     Message.sources := Some [];
     Message.confidence := Some 0%float;
     Message.timestamp := date |}.

(** From the event to the [await].  [s] is the state of the render the
    handler closes over: [messages] and [input] below are its values,
    whatever the setters have queued. *)
Definition handleSubmit (now date : Z) (s : State) : State * list Effect :=
  if negb (JS.truthy (JS.String (JS.trim (input s)))) || loading s
  then (s, [])
  else
    let s1 := setMessages (fun prev => prev ++ [userMessage now date (input s)]) s in
    let s2 := setInput [] s1 in
    let s3 := setLoading true s2 in
    let conversationHistory := map conversationTurn (messages s) in
    (s3,
     [post_query
        (queryService.queryDocuments
           (JS.trim (input s))
           (Some conversationHistory)
           (JS.or (JS.String (selectedDocument s)) JS.undefined))]).

(** The [try] block after the [await], then [finally].  [s] is the
    current state: the setters use the functional form. *)
Definition handleSubmit_fulfilled (now date : Z) (response : Response.t)
    (s : State) : State * list Effect :=
  (setLoading false
     (setMessages (fun prev => prev ++ [botMessage now date response]) s),
   []).

(** The [catch] block, then [finally]. *)
Definition handleSubmit_rejected (now date : Z) (s : State)
    : State * list Effect :=
  (setLoading false
     (setMessages (fun prev => prev ++ [errorMessage now date]) s),
   [console_error (JS.lit "Error querying documents:");
    toast_error errorToast]).

(** *** Rendering *)

Definition getConfidenceText (confidence : option float) : JS.str :=
  if JS.ge (JS.ToNumber confidence) 0.8 then JS.lit "High"
  else if JS.ge (JS.ToNumber confidence) 0.6 then JS.lit "Medium"
  else JS.lit "Low".

(** The confidence badge: rendered under
    [message.type === 'bot' && message.confidence !== undefined]. *)
Definition confidenceBadge (message : Message.t) : option JS.str :=
  match Message.type message, Message.confidence message with
  | bot, Some c => Some (getConfidenceText (Some c))
  | _, _ => None
  end.

Section Render.

Variable NumberToString : float -> JS.str.

(** The text of the [span] of one source:
    [{source.filename} (similarity: {(source.similarity_score * 100).toFixed(1)}%)]. *)
Definition formatSource (source : Source.t) : JS.str :=
  Source.filename source
    ++ JS.lit " (similarity: "
    ++ JS.toFixed NumberToString (Source.similarity_score source * 100)%float 1
    ++ JS.lit "%)".

End Render.

(** *** The component as a transition system

    Events are handled one at a time, each on the state the previous one
    left (the handlers of a render see that render's state, and React
    re-renders between discrete events).  [in_flight] holds the query
    requests whose promise has not settled; [listing] tells whether the
    document list has been asked for and the call has not settled;
    [emitted] collects the effects, oldest first. *)

Record World := {
  state : State;
  in_flight : list Request.t;
  emitted : list Effect;
  listing : bool
}.

(** After the first render: the effect "Load available documents on
    component mount" has called [loadDocuments], its only caller. *)
Definition mounted : World :=
  {| state := initial; in_flight := []; emitted := loadDocuments;
     listing := true |}.

Inductive Event :=
| Change (value : JS.str)               (* typing, or a quick action *)
| Submit (now date : Z)
| QueryFulfilled (now date : Z) (response : Response.t)
| QueryRejected (now date : Z)
| ToggleDropdown
| PickAll
| Pick (index : nat)                    (* the index-th document entry *)
| DocumentsFulfilled (response_documents : option (list Document.t))
| DocumentsRejected.

Definition requests (effects : list Effect) : list Request.t :=
  flat_map (fun e => match e with post_query b => [b] | _ => [] end) effects.

Definition commit (w : World) (pending : list Request.t)
    (r : State * list Effect) : World :=
  {| state := fst r;
     in_flight := pending ++ requests (snd r);
     emitted := emitted w ++ snd r;
     listing := listing w |}.

(** The call of [loadDocuments] has settled. *)
Definition listed (w : World) : World :=
  {| state := state w; in_flight := in_flight w; emitted := emitted w;
     listing := false |}.

(** [None]: the event cannot happen in this world (no request to
    settle, the dropdown is closed, it has no such entry).  The document
    list is asked for once, when the component mounts, so it arrives, or
    fails to, once.  [Change] is possible at any time: the text input is
    disabled while [loading], the quick actions are not. *)
Definition step (w : World) (ev : Event) : option World :=
  match ev with
  | Change v => Some (commit w (in_flight w) (setInput v (state w), []))
  | Submit now date =>
      Some (commit w (in_flight w) (handleSubmit now date (state w)))
  | QueryFulfilled now date response =>
      match in_flight w with
      | [] => None
      | _ :: rest =>
          Some (commit w rest (handleSubmit_fulfilled now date response (state w)))
      end
  | QueryRejected now date =>
      match in_flight w with
      | [] => None
      | _ :: rest =>
          Some (commit w rest (handleSubmit_rejected now date (state w)))
      end
  | ToggleDropdown =>
      Some (commit w (in_flight w) (toggleDropdown (state w), []))
  | PickAll =>
      if showDocumentDropdown (state w)
      then Some (commit w (in_flight w) (pickAllDocuments (state w), []))
      else None
  | Pick index =>
      if showDocumentDropdown (state w)
      then match nth_error (documents (state w)) index with
           | Some doc =>
               Some (commit w (in_flight w) (pickDocument doc (state w), []))
           | None => None
           end
      else None
  | DocumentsFulfilled d =>
      if listing w
      then Some (listed (commit w (in_flight w)
                           (loadDocuments_fulfilled d (state w))))
      else None
  | DocumentsRejected =>
      if listing w
      then Some (listed (commit w (in_flight w)
                           (loadDocuments_rejected (state w))))
      else None
  end.

Fixpoint run (w : World) (evs : list Event) : option World :=
  match evs with
  | [] => Some w
  | ev :: rest =>
      match step w ev with
      | Some w' => run w' rest
      | None => None
      end
  end.

(** One question and what became of it: the text typed, the clock at
    the submit, the outcome of the query ([None]: the call failed), the
    clock when it settled. *)
Record Exchange := {
  question : JS.str;
  asked : Z * Z;
  outcome : option Response.t;
  settled : Z * Z
}.

Definition exchange (x : Exchange) : list Event :=
  [ Change (question x);
    Submit (fst (asked x)) (snd (asked x));
    match outcome x with
    | Some response => QueryFulfilled (fst (settled x)) (snd (settled x)) response
    | None => QueryRejected (fst (settled x)) (snd (settled x))
    end ].

(** The two messages an exchange adds to the log. *)
Definition transcript (x : Exchange) : list Message.t :=
  [ userMessage (fst (asked x)) (snd (asked x)) (question x);
    match outcome x with
    | Some response => botMessage (fst (settled x)) (snd (settled x)) response
    | None => errorMessage (fst (settled x)) (snd (settled x))
    end ].

(** The clock does not run backwards during an exchange, and every
    submit reads a clock above [floor]; the next floor is the id of the
    reply. *)
Fixpoint paced (floor : Z) (xs : list Exchange) : Prop :=
  match xs with
  | [] => True
  | x :: rest =>
      (floor < fst (asked x) /\ fst (asked x) <= fst (settled x))%Z
      /\ paced (fst (settled x) + 1) rest
  end.

(** Either one query is in flight and [loading] is set, or none is and
    [loading] is clear. *)
Definition idle_or_waiting (w : World) : Prop :=
  (loading (state w) = true /\ exists body, in_flight w = [body])
  \/ (loading (state w) = false /\ in_flight w = []).



End Chat.

(* ===================================================================== *)
(** ** The [DocumentSummaryModal] component                               *)
(* ===================================================================== *)

Module DocumentSummaryModal.

(** [response.summary] of [POST /documents/{id}/summarize]. *)
Module Statistics.
Record t := { word_count : Z; line_count : Z; email_count : Z; phone_count : Z }.
End Statistics.

Module ContentAnalysis.
Record t := {
  document_type : option JS.str;
  content_categories : option (list JS.str);
  data_types : option (list JS.str)
}.
End ContentAnalysis.

Module Summary.
Record t := {
  executive_summary : option JS.str;
  key_points : option (list JS.str);
  statistics : option Statistics.t;
  content_analysis : option ContentAnalysis.t;
  quick_overview : option JS.str
}.
End Summary.

(** The props the parent passes down. [document] is [null] ([None])
    while no document is chosen. *)
Record Props := {
  document : option Chat.Document.t;
  isOpen : bool
}.

Record State := {
  loading : bool;
  summaryData : option Summary.t;
  error : option JS.str
}.

Definition initial : State :=
  {| loading := false; summaryData := None; error := None |}.

Definition setLoading (v : bool) (s : State) :=
  {| loading := v; summaryData := summaryData s; error := error s |}.

Definition setSummaryData (v : option Summary.t) (s : State) :=
  {| loading := loading s; summaryData := v; error := error s |}.

Definition setError (v : option JS.str) (s : State) :=
  {| loading := loading s; summaryData := summaryData s; error := v |}.

Inductive Effect :=
| post_summarize (document_id : JS.str)   (* documentService.summarizeDocument *)
| toast_success (text : JS.str)
| toast_error (text : JS.str)
| console_error (text : JS.str).

Definition errorText : JS.str :=
  JS.lit "Failed to generate document summary. Please try again.".

(** [generateSummary] up to its [await]. *)
Definition generateSummary (p : Props) (s : State) : State * list Effect :=
  match document p with
  | None => (s, [])
  | Some doc =>
      (setError None (setLoading true s),
       [post_summarize (Chat.Document.document_id doc)])
  end.

(** The rest of the [try] block, then [finally].  [summary] is
    [response.summary] ([None] when the response has none). *)
Definition generateSummary_fulfilled (summary : option Summary.t) (s : State)
    : State * list Effect :=
  (setLoading false (setSummaryData summary s),
   [toast_success (JS.lit "Document summary generated successfully!")]).

(** The [catch] block, then [finally]. *)
Definition generateSummary_rejected (s : State) : State * list Effect :=
  (setLoading false (setError (Some errorText) s),
   [toast_error (JS.lit "Failed to generate document summary");
    console_error (JS.lit "Error generating summary:")]).

(** "Auto-generate summary when modal opens": the effect on
    [[isOpen, document]]. *)
Definition autoGenerate (p : Props) (s : State) : State * list Effect :=
  match isOpen p, document p, summaryData s, loading s with
  | true, Some _, None, false => generateSummary p s
  | _, _, _, _ => (s, [])
  end.

(** "Reset state when modal closes": the effect on [[isOpen]]. *)
Definition resetOnClose (p : Props) (s : State) : State :=
  if isOpen p then s
  else setLoading false (setError None (setSummaryData None s)).

(** The buttons whose [onClick] is [generateSummary]. *)
Inductive Button := TryAgain | Generate | Regenerate.

(** Whether the render shows the button, enabled.  The body is
    [loading ? spinner : error ? TryAgain : !summaryData ? Generate : view];
    the footer shows [Regenerate] under [summaryData], with
    [disabled={loading}]. *)
Definition clickable (b : Button) (p : Props) (s : State) : bool :=
  match isOpen p, document p with
  | true, Some _ =>
      match b with
      | TryAgain =>
          negb (loading s) && match error s with Some _ => true | None => false end
      | Generate =>
          negb (loading s)
          && match error s with Some _ => false | None => true end
          && match summaryData s with Some _ => false | None => true end
      | Regenerate =>
          match summaryData s with Some _ => true | None => false end
          && negb (loading s)
      end
  | _, _ => false
  end.

(** The summary record of the specification, read off the state in the
    order the render tests it. *)
Inductive Record_ :=
| absent
| pending
| ready (payload : Summary.t)
| failed (message : JS.str).

Definition record (s : State) : Record_ :=
  if loading s then pending
  else match error s, summaryData s with
       | Some message, _ => failed message
       | None, Some payload => ready payload
       | None, None => absent
       end.

(** *** The component as a transition system *)

Record World := {
  props : Props;
  state : State;
  in_flight : list JS.str;     (* summarize calls not settled yet *)
  emitted : list Effect
}.

(** After the first render: both effects have run on closed props. *)
Definition mounted : World :=
  {| props := {| document := None; isOpen := false |};
     state := initial; in_flight := []; emitted := [] |}.

Inductive Event :=
| Open (doc : Chat.Document.t)     (* the parent shows the modal for doc:
                                      setSelectedDocumentForSummary(doc),
                                      setShowSummaryModal(true) *)
| Close                            (* onClose: the parent hides it *)
| Click (b : Button)
| Fulfilled (index : nat) (summary : option Summary.t)
| Rejected (index : nat).

Definition requests (effects : list Effect) : list JS.str :=
  flat_map (fun e => match e with post_summarize d => [d] | _ => [] end) effects.

Definition calls (w : World) : nat := List.length (requests (emitted w)).

Definition commit (w : World) (p : Props) (awaiting : list JS.str)
    (r : State * list Effect) : World :=
  {| props := p;
     state := fst r;
     in_flight := awaiting ++ requests (snd r);
     emitted := emitted w ++ snd r |}.

Fixpoint drop_nth {A} (n : nat) (l : list A) : list A :=
  match n, l with
  | _, [] => []
  | O, _ :: r => r
  | S n', a :: r => a :: drop_nth n' r
  end.

(** [Open doc]: the parent hands the modal the document object [doc]
    and [isOpen = true], while the modal is closed or, nothing in the
    parents preventing it, while it is open for another document object;
    the render that follows runs [autoGenerate], whose dependencies have
    changed, and [resetOnClose], which leaves an open modal alone.
    [Close] comes from the buttons of the open modal and runs the same
    two effects on the closed props.  A click on a button that is not
    there, or disabled, does nothing. *)
Definition step (w : World) (ev : Event) : option World :=
  match ev with
  | Open doc =>
      let p := {| document := Some doc; isOpen := true |} in
      let r := autoGenerate p (state w) in
      Some (commit w p (in_flight w) (resetOnClose p (fst r), snd r))
  | Close =>
      if isOpen (props w) then
        let p := {| document := None; isOpen := false |} in
        let r := autoGenerate p (state w) in
        Some (commit w p (in_flight w) (resetOnClose p (fst r), snd r))
      else None
  | Click b =>
      if clickable b (props w) (state w)
      then Some (commit w (props w) (in_flight w) (generateSummary (props w) (state w)))
      else Some w
  | Fulfilled index summary =>
      match nth_error (in_flight w) index with
      | Some _ =>
          Some (commit w (props w) (drop_nth index (in_flight w))
                  (generateSummary_fulfilled summary (state w)))
      | None => None
      end
  | Rejected index =>
      match nth_error (in_flight w) index with
      | Some _ =>
          Some (commit w (props w) (drop_nth index (in_flight w))
                  (generateSummary_rejected (state w)))
      | None => None
      end
  end.

Fixpoint run (w : World) (evs : list Event) : option World :=
  match evs with
  | [] => Some w
  | ev :: rest =>
      match step w ev with
      | Some w' => run w' rest
      | None => None
      end
  end.

(** No [Close] happens while a request is in flight. *)
Fixpoint undisturbed (w : World) (evs : list Event) : bool :=
  match evs with
  | [] => true
  | ev :: rest =>
      match ev, in_flight w with
      | Close, _ :: _ => false
      | _, _ =>
          match step w ev with
          | Some w' => undisturbed w' rest
          | None => true
          end
      end
  end.

(** Neither [Close] nor [Open] happens while a request is in flight:
    the modal is not dismissed, and not handed a document, before the
    request it has made settles. *)
Fixpoint steady (w : World) (evs : list Event) : bool :=
  match evs with
  | [] => true
  | ev :: rest =>
      match ev, in_flight w with
      | Close, _ :: _ => false
      | Open _, _ :: _ => false
      | _, _ =>
          match step w ev with
          | Some w' => steady w' rest
          | None => true
          end
      end
  end.

(** Either a single request is in flight and [loading] is set, or none
    is and [loading] is clear. *)
Definition settled_or_single (w : World) : Prop :=
  (loading (state w) = true /\ exists d, in_flight w = [d])
  \/ (loading (state w) = false /\ in_flight w = []).

End DocumentSummaryModal.

(* ===================================================================== *)
(** ** More of the JavaScript library                                     *)
(* ===================================================================== *)

Module JSLib.

(** [a === b] on strings. *)
Fixpoint str_eqb (a b : JS.str) : bool :=
  match a, b with
  | [], [] => true
  | x :: a', y :: b' => (x =? y)%N && str_eqb a' b'
  | _, _ => false
  end.

(** [hay.startsWith(needle)]. *)
Fixpoint startsWith (hay needle : JS.str) : bool :=
  match needle, hay with
  | [], _ => true
  | _ :: _, [] => false
  | x :: needle', y :: hay' => (x =? y)%N && startsWith hay' needle'
  end.

(** [hay.includes(needle)] on strings: [needle] occurs somewhere. *)
Fixpoint includes (hay needle : JS.str) : bool :=
  startsWith hay needle
  || match hay with
     | [] => false
     | _ :: hay' => includes hay' needle
     end.

(** [array.includes(x)] on an array of strings. *)
Definition array_includes (l : list JS.str) (x : JS.str) : bool :=
  existsb (str_eqb x) l.

(** A length inside a template literal. *)
Definition of_nat (n : nat) : JS.str := JS.digits (N.of_nat n).

(** [ToBoolean] on numbers: zero and [NaN] are falsy. *)
Definition truthy_number (x : float) : bool :=
  negb (PrimFloat.is_zero x || PrimFloat.is_nan x).

(** [x || 0] for a numeric field that may be missing. *)
Definition or_zero (x : option float) : float :=
  match x with
  | Some v => if truthy_number v then v else 0%float
  | None => 0%float
  end.

End JSLib.

(* ===================================================================== *)
(** ** The axios instance and its interceptors                            *)
(* ===================================================================== *)

Module Api.

(** The headers the client sets; [None]: the header is not there. *)
Record Headers := {
  Content_Type : option JS.str;
  Authorization : option JS.str
}.

Inductive Method := GET | POST | DELETE.

Inductive Data :=
| no_data
| json_query (body : Request.t)
| form_credentials (username password : JS.str)
| form_file (name : JS.str).

Record Config := {
  method : Method;
  url : JS.str;
  headers : Headers;
  data : Data
}.

(** What the interceptors read and write outside the program: the
    [token] entry of [localStorage] ([None]: [getItem] gives [null]) and
    [window.location.href]. *)
Record Browser := {
  token : option JS.str;
  href : JS.str
}.

(** The config axios builds for a call: the instance's default
    [Content-Type], overridden by the headers the call passes. *)
Definition request (m : Method) (u : JS.str) (d : Data) (own : Headers) : Config :=
  {| method := m;
     url := u;
     headers :=
       {| Content_Type :=
            match Content_Type own with
            | Some c => Some c
            | None => Some (JS.lit "application/json")
            end;
          Authorization := Authorization own |};
     data := d |}.

Definition no_headers : Headers :=
  {| Content_Type := None; Authorization := None |}.

Definition multipart : Headers :=
  {| Content_Type := Some (JS.lit "multipart/form-data"); Authorization := None |}.

(** "Add token to requests". *)
Definition requestInterceptor (b : Browser) (config : Config) : Config :=
  match token b with
  | Some t =>
      if JS.truthy (JS.String t)
      then {| method := method config;
              url := url config;
              headers :=
                {| Content_Type := Content_Type (headers config);
                   Authorization := Some (JS.lit "Bearer " ++ t) |};
              data := data config |}
      else config
  | None => config
  end.

(** A rejected call: [response] is the status of [error.response], when
    there is a response. *)
Record Error := { response : option Z }.

(** "Handle token expiration": the new browser state; the promise is
    rejected with the same error in every case. *)
Definition responseErrorInterceptor (b : Browser) (error : Error)
    : Browser * Error :=
  (match response error with
   | Some 401%Z => {| token := None; href := JS.lit "/login" |}
   | _ => b
   end,
   error).

(** The calls of the services, as the configs they hand to axios. *)
Definition login (username password : JS.str) : Config :=
  request POST (JS.lit "/auth/login") (form_credentials username password) multipart.

Definition register (username password : JS.str) : Config :=
  request POST (JS.lit "/auth/register") (form_credentials username password) multipart.

Definition verifyToken (t : JS.str) : Config :=
  request GET (JS.lit "/auth/verify") no_data
    {| Content_Type := None; Authorization := Some (JS.lit "Bearer " ++ t) |}.

Definition uploadDocument (name : JS.str) : Config :=
  request POST (JS.lit "/documents/upload") (form_file name) multipart.

Definition getDocuments : Config :=
  request GET (JS.lit "/documents") no_data no_headers.

Definition deleteDocument (documentId : JS.str) : Config :=
  request DELETE (JS.lit "/documents/" ++ documentId) no_data no_headers.

Definition getDocumentContent (documentId : JS.str) : Config :=
  request GET (JS.lit "/documents/" ++ documentId ++ JS.lit "/content")
    no_data no_headers.

Definition summarizeDocument (documentId : JS.str) : Config :=
  request POST (JS.lit "/documents/" ++ documentId ++ JS.lit "/summarize")
    no_data no_headers.

Definition getAnalytics : Config :=
  request GET (JS.lit "/analytics") no_data no_headers.

Definition queryDocuments (query : JS.str)
    (conversationHistory : option (list Turn.t)) (documentId : JS.value) : Config :=
  request POST (JS.lit "/query")
    (json_query (queryService.queryDocuments query conversationHistory documentId))
    no_headers.

(** The calls that pass no [Authorization] of their own: all but
    [verifyToken]. *)
Definition plain (config : Config) : Prop :=
  Authorization (headers config) = None.

End Api.

(* ===================================================================== *)
(** ** More of the [Chat] view                                            *)
(* ===================================================================== *)

Module ChatView.

Definition getConfidenceColor (confidence : option float) : JS.str :=
  if JS.ge (JS.ToNumber confidence) 0.8 then JS.lit "text-green-600 bg-green-50"
  else if JS.ge (JS.ToNumber confidence) 0.6 then JS.lit "text-yellow-600 bg-yellow-50"
  else JS.lit "text-red-600 bg-red-50".

(** [documents.find(doc => doc.document_id === selectedDocument)]. *)
Definition findSelected (s : Chat.State) : option Chat.Document.t :=
  find (fun doc => JSLib.str_eqb (Chat.Document.document_id doc)
                     (Chat.selectedDocument s))
       (Chat.documents s).

(** The text on the dropdown button:
    [selectedDocument ? find(..)?.filename || 'Select document' : 'All documents']. *)
Definition scopeLabel (s : Chat.State) : JS.str :=
  if JS.truthy (JS.String (Chat.selectedDocument s))
  then match findSelected s with
       | Some doc =>
           if JS.truthy (JS.String (Chat.Document.filename doc))
           then Chat.Document.filename doc
           else JS.lit "Select document"
       | None => JS.lit "Select document"
       end
  else JS.lit "All documents".

(** The Summary button, rendered under [selectedDocument]: the document
    its click passes to the modal ([None]: no button, or the click finds
    no document and does nothing). *)
Definition summaryButton (s : Chat.State) : option Chat.Document.t :=
  if JS.truthy (JS.String (Chat.selectedDocument s))
  then findSelected s
  else None.

(** The lines of the sources block of a message, rendered under
    [type === 'bot' && sources && sources.length > 0]. *)
Definition sourcesBlock (NumberToString : float -> JS.str)
    (message : Chat.Message.t) : option (list JS.str) :=
  match Chat.Message.type message, Chat.Message.sources message with
  | Chat.bot, Some (source :: rest) =>
      Some (map (Chat.formatSource NumberToString) (source :: rest))
  | _, _ => None
  end.

End ChatView.

(** Invariants of the summary modal.  In runs that never dismiss it
    mid-request, a closed modal is back in its initial state with
    nothing in flight.  In runs that neither dismiss it nor hand it a
    document mid-request, what is in flight was asked for the document
    on display. *)
Module SummaryRuns.

Import DocumentSummaryModal.

Definition orderly (w : World) : Prop :=
  settled_or_single w
  /\ (isOpen (props w) = false -> state w = initial /\ in_flight w = []).

Definition for_displayed (w : World) : Prop :=
  Forall (fun d => isOpen (props w) = true
                   /\ exists doc, document (props w) = Some doc
                                  /\ Chat.Document.document_id doc = d)
         (in_flight w).

End SummaryRuns.

(** What holds of the chat log in every world the component reaches. *)
Module ChatLog.

Import Chat.

(** A user message carries a non-empty text and nothing else; an
    assistant message always carries a sources array. *)
Definition well_formed (m : Message.t) : Prop :=
  match Message.type m with
  | user =>
      Message.content m <> []
      /\ Message.sources m = None
      /\ Message.confidence m = None
  | bot => exists l, Message.sources m = Some l
  end.

(** [n] question/reply pairs, then the open question while [loading]. *)
Definition paired (n : nat) (s : State) : Prop :=
  map Message.type (messages s)
  = List.concat (repeat [user; bot] n) ++ (if loading s then [user] else []).

Definition orderly (w : World) : Prop :=
  idle_or_waiting w
  /\ Forall well_formed (messages (state w))
  /\ exists n, paired n (state w).

End ChatLog.

(* ===================================================================== *)
(** ** The [Documents] component                                          *)
(* ===================================================================== *)

Module Documents.

(** An element of [documents]; the logic reads these three fields. *)
Module Doc.
Record t := { document_id : JS.str; filename : JS.str; file_type : JS.str }.
End Doc.

Record State := {
  documents : list Doc.t;
  loading : bool;
  uploading : bool;
  searchTerm : JS.str;
  filterType : JS.str;
  selectedDocuments : list JS.str;
  showUploadModal : bool
}.

Definition initial : State :=
  {| documents := []; loading := true; uploading := false;
     searchTerm := []; filterType := JS.lit "all";
     selectedDocuments := []; showUploadModal := false |}.

Definition setDocuments (v : list Doc.t) (s : State) :=
  {| documents := v; loading := loading s; uploading := uploading s;
     searchTerm := searchTerm s; filterType := filterType s;
     selectedDocuments := selectedDocuments s;
     showUploadModal := showUploadModal s |}.

Definition setLoading (v : bool) (s : State) :=
  {| documents := documents s; loading := v; uploading := uploading s;
     searchTerm := searchTerm s; filterType := filterType s;
     selectedDocuments := selectedDocuments s;
     showUploadModal := showUploadModal s |}.

Definition setUploading (v : bool) (s : State) :=
  {| documents := documents s; loading := loading s; uploading := v;
     searchTerm := searchTerm s; filterType := filterType s;
     selectedDocuments := selectedDocuments s;
     showUploadModal := showUploadModal s |}.

Definition setSearchTerm (v : JS.str) (s : State) :=
  {| documents := documents s; loading := loading s; uploading := uploading s;
     searchTerm := v; filterType := filterType s;
     selectedDocuments := selectedDocuments s;
     showUploadModal := showUploadModal s |}.

Definition setFilterType (v : JS.str) (s : State) :=
  {| documents := documents s; loading := loading s; uploading := uploading s;
     searchTerm := searchTerm s; filterType := v;
     selectedDocuments := selectedDocuments s;
     showUploadModal := showUploadModal s |}.

Definition setSelectedDocuments (f : list JS.str -> list JS.str) (s : State) :=
  {| documents := documents s; loading := loading s; uploading := uploading s;
     searchTerm := searchTerm s; filterType := filterType s;
     selectedDocuments := f (selectedDocuments s);
     showUploadModal := showUploadModal s |}.

Definition setShowUploadModal (v : bool) (s : State) :=
  {| documents := documents s; loading := loading s; uploading := uploading s;
     searchTerm := searchTerm s; filterType := filterType s;
     selectedDocuments := selectedDocuments s;
     showUploadModal := v |}.

Inductive Effect :=
| get_documents                          (* documentService.getDocuments() *)
| delete_document (documentId : JS.str)  (* documentService.deleteDocument *)
| upload_document (name : JS.str)        (* documentService.uploadDocument *)
| toast_success (text : JS.str)
| toast_error (text : JS.str)
| console_error (text : JS.str).

(** *** [fetchDocuments] *)

Definition fetchDocuments (s : State) : State * list Effect :=
  (setLoading true s, [get_documents]).

(** [setDocuments(response.documents || [])], then [finally]. *)
Definition fetchDocuments_fulfilled (response_documents : option (list Doc.t))
    (s : State) : State * list Effect :=
  (setLoading false
     (setDocuments
        (match response_documents with Some d => d | None => [] end) s),
   []).

Definition fetchDocuments_rejected (s : State) : State * list Effect :=
  (setLoading false s,
   [toast_error (JS.lit "Failed to fetch documents");
    console_error (JS.lit "Error fetching documents:")]).

(** *** Selection *)

(** The updater of [handleSelectDocument]. *)
Definition toggle (documentId : JS.str) (prev : list JS.str) : list JS.str :=
  if JSLib.array_includes prev documentId
  then filter (fun id => negb (JSLib.str_eqb id documentId)) prev
  else prev ++ [documentId].

Definition handleSelectDocument (documentId : JS.str) (s : State) : State :=
  setSelectedDocuments (toggle documentId) s.

Section Filtering.

(** [String.prototype.toLowerCase] is the platform's (Unicode case
    mapping); it is a parameter. *)
Variable toLowerCase : JS.str -> JS.str.

Definition matches (s : State) (doc : Doc.t) : bool :=
  let matchesSearch :=
    JSLib.includes (toLowerCase (Doc.filename doc)) (toLowerCase (searchTerm s)) in
  let matchesFilter :=
    JSLib.str_eqb (filterType s) (JS.lit "all")
    || JSLib.str_eqb (Doc.file_type doc) (filterType s) in
  matchesSearch && matchesFilter.

Definition filteredDocuments (s : State) : list Doc.t :=
  filter (matches s) (documents s).

(** [handleSelectAll]: it reads [selectedDocuments] and
    [filteredDocuments] of the render. *)
Definition handleSelectAll (s : State) : State :=
  if Nat.eqb (List.length (selectedDocuments s))
             (List.length (filteredDocuments s))
  then setSelectedDocuments (fun _ => []) s
  else setSelectedDocuments
         (fun _ => map Doc.document_id (filteredDocuments s)) s.

(** The [checked] of the Select All box. *)
Definition allChecked (s : State) : bool :=
  Nat.eqb (List.length (selectedDocuments s))
          (List.length (filteredDocuments s))
  && Nat.ltb 0 (List.length (filteredDocuments s)).

End Filtering.

(** [[...new Set(l)]]: the first occurrence of each value, in order. *)
Fixpoint unique (seen l : list JS.str) : list JS.str :=
  match l with
  | [] => []
  | x :: rest =>
      if JSLib.array_includes seen x then unique seen rest
      else x :: unique (x :: seen) rest
  end.

(** The options of the type filter. *)
Definition fileTypes (s : State) : list JS.str :=
  unique [] (map Doc.file_type (documents s)).

(** *** Deleting *)

(** [handleDeleteDocument] up to its first [await]; [confirmed] is the
    answer to [window.confirm]. *)
Definition handleDeleteDocument (confirmed : bool) (documentId : JS.str)
    (s : State) : State * list Effect :=
  if confirmed then (s, [delete_document documentId]) else (s, []).

(** After the deletion: the toast, then [fetchDocuments()]. *)
Definition handleDeleteDocument_fulfilled (s : State) : State * list Effect :=
  let r := fetchDocuments s in
  (fst r, toast_success (JS.lit "Document deleted successfully") :: snd r).

Definition handleDeleteDocument_rejected (s : State) : State * list Effect :=
  (s, [toast_error (JS.lit "Failed to delete document");
       console_error (JS.lit "Error deleting document:")]).

(** [handleBulkDelete] up to [await Promise.all(deletePromises)]. *)
Definition handleBulkDelete (confirmed : bool) (s : State) : State * list Effect :=
  match selectedDocuments s with
  | [] => (s, [])
  | _ :: _ =>
      if confirmed
      then (s, map delete_document (selectedDocuments s))
      else (s, [])
  end.

(** Every deletion went through.  [selected] is the [selectedDocuments]
    of the render the handler was created in. *)
Definition handleBulkDelete_fulfilled (selected : list JS.str) (s : State)
    : State * list Effect :=
  let r := fetchDocuments (setSelectedDocuments (fun _ => []) s) in
  (fst r,
   toast_success
     (JSLib.of_nat (List.length selected)
        ++ JS.lit " document(s) deleted successfully") :: snd r).

(** One of the deletions failed. *)
Definition handleBulkDelete_rejected (s : State) : State * list Effect :=
  (s, [toast_error (JS.lit "Failed to delete documents");
       console_error (JS.lit "Error deleting documents:")]).

(** *** Uploading *)

(** [onDrop] up to [await Promise.all(uploadPromises)]; the files by
    name. *)
Definition onDrop (acceptedFiles : list JS.str) (s : State) : State * list Effect :=
  match acceptedFiles with
  | [] => (s, [])
  | _ :: _ => (setUploading true s, map upload_document acceptedFiles)
  end.

(** The uploads have settled; [results] holds [r.success] of each.  With
    a success the handler toasts and awaits [fetchDocuments()]. *)
Definition onDrop_settled (results : list bool) (s : State)
    : State * list Effect :=
  let successful := filter (fun r => r) results in
  if Nat.ltb 0 (List.length successful)
  then
    let r := fetchDocuments s in
    (fst r,
     toast_success
       (JSLib.of_nat (List.length successful)
          ++ JS.lit " document(s) uploaded successfully") :: snd r)
  else (s, []).

(** The rest of the handler, after the fetch if there was one. *)
Definition onDrop_finish (results : list bool) (s : State)
    : State * list Effect :=
  let failed := filter (fun r => negb r) results in
  (setShowUploadModal false (setUploading false s),
   if Nat.ltb 0 (List.length failed)
   then [toast_error
           (JSLib.of_nat (List.length failed)
              ++ JS.lit " document(s) failed to upload")]
   else []).

End Documents.

(* ===================================================================== *)
(** ** The [AdminDashboard] component                                     *)
(* ===================================================================== *)

Module AdminDashboard.

(** A row of [users].  A missing [role] behaves as the empty string in
    the two places that read it. *)
Module User.
Record t := { id : Z; username : JS.str; role : JS.str }.
End User.

(** An element of [documents]; [file_size] is [None] when the field is
    missing. *)
Module Doc.
Record t := { document_id : JS.str; filename : JS.str; file_size : option float }.
End Doc.

(** [response.analytics] of [GET /analytics]; a missing field is
    [None]. *)
Module Analytics.
Record t := {
  total_users : option float;
  total_documents : option float;
  total_queries : option float;
  average_response_time : option float
}.
End Analytics.

Record SystemStats := {
  totalUsers : float;
  totalDocuments : float;
  totalQueries : float;
  avgResponseTime : float;
  systemHealth : JS.str;
  lastBackup : option Z;
  storageUsed : JS.str
}.

Record State := {
  users : list User.t;
  documents : list Doc.t;
  analytics : option Analytics.t;
  loading : bool;
  systemStats : SystemStats
}.

Definition initial : State :=
  {| users := []; documents := []; analytics := None; loading := true;
     systemStats :=
       {| totalUsers := 0; totalDocuments := 0; totalQueries := 0;
          avgResponseTime := 0; systemHealth := JS.lit "healthy";
          lastBackup := None; storageUsed := JS.lit "0 MB" |} |}.

Definition setUsers (v : list User.t) (s : State) :=
  {| users := v; documents := documents s; analytics := analytics s;
     loading := loading s; systemStats := systemStats s |}.

Definition setDocuments (v : list Doc.t) (s : State) :=
  {| users := users s; documents := v; analytics := analytics s;
     loading := loading s; systemStats := systemStats s |}.

Definition setAnalytics (v : option Analytics.t) (s : State) :=
  {| users := users s; documents := documents s; analytics := v;
     loading := loading s; systemStats := systemStats s |}.

Definition setLoading (v : bool) (s : State) :=
  {| users := users s; documents := documents s; analytics := analytics s;
     loading := v; systemStats := systemStats s |}.

Definition setSystemStats (v : SystemStats) (s : State) :=
  {| users := users s; documents := documents s; analytics := analytics s;
     loading := loading s; systemStats := v |}.

Inductive Effect :=
| get_users                               (* documentService.getAllUsers() *)
| get_all_documents                       (* documentService.getAllDocuments() *)
| get_analytics                           (* analyticsService.getAnalytics() *)
| delete_user (userId : Z)
| delete_document (documentId : JS.str)
| console_error (text : JS.str).

Section Storage.

Variable NumberToString : float -> JS.str.

(** [docs.reduce((sum, doc) => sum + (doc.file_size || 0), 0)]. *)
Definition totalBytes (docs : list Doc.t) : float :=
  fold_left (fun sum doc => (sum + JSLib.or_zero (Doc.file_size doc))%float)
    docs 0%float.

Definition calculateStorageUsed (docs : list Doc.t) : JS.str :=
  let mb := (totalBytes docs / (1024 * 1024))%float in
  JS.toFixed NumberToString mb 2 ++ JS.lit " MB".

(** *** [loadAdminData]: three calls in a row *)

Definition loadAdminData (s : State) : State * list Effect :=
  (setLoading true s, [get_users]).

Definition loadAdminData_users (response_users : option (list User.t))
    (s : State) : State * list Effect :=
  (setUsers (match response_users with Some u => u | None => [] end) s,
   [get_all_documents]).

Definition loadAdminData_documents (response_documents : option (list Doc.t))
    (s : State) : State * list Effect :=
  (setDocuments (match response_documents with Some d => d | None => [] end) s,
   [get_analytics]).

Definition loadAdminData_analytics (response_analytics : option Analytics.t)
    (s : State) : State * list Effect :=
  (setLoading false (setAnalytics response_analytics s), []).

Definition loadAdminData_rejected (s : State) : State * list Effect :=
  (setLoading false s, [console_error (JS.lit "Error loading admin data:")]).

(** *** [loadSystemStats] *)

Definition loadSystemStats : list Effect := [get_analytics].

(** After the [await].  [documents] is the list of the render in which
    this [loadSystemStats] was created; [date] is the instant of
    [new Date()]. *)
Definition loadSystemStats_fulfilled (documents : list Doc.t) (date : Z)
    (stats_analytics : option Analytics.t) (s : State) : State * list Effect :=
  match stats_analytics with
  | Some a =>
      (setSystemStats
         {| totalUsers := JSLib.or_zero (Analytics.total_users a);
            totalDocuments := JSLib.or_zero (Analytics.total_documents a);
            totalQueries := JSLib.or_zero (Analytics.total_queries a);
            avgResponseTime := JSLib.or_zero (Analytics.average_response_time a);
            systemHealth := JS.lit "healthy";
            lastBackup := Some date;
            storageUsed := calculateStorageUsed documents |} s,
       [])
  | None => (s, [])
  end.

Definition loadSystemStats_rejected (s : State) : State * list Effect :=
  (s, [console_error (JS.lit "Error loading system stats:")]).

(** *** Deleting *)

Definition handleDeleteUser (confirmed : bool) (userId : Z)
    : list Effect :=
  if confirmed then [delete_user userId] else [].

(** After the deletion; [users] is the list of the render of the
    click.  Then [loadSystemStats()]. *)
Definition handleDeleteUser_fulfilled (users : list User.t) (userId : Z)
    (s : State) : State * list Effect :=
  (setUsers (filter (fun user => negb (User.id user =? userId)%Z) users) s,
   loadSystemStats).

Definition handleDeleteUser_rejected (s : State) : State * list Effect :=
  (s, [console_error (JS.lit "Error deleting user:")]).

Definition handleDeleteDocument (confirmed : bool) (documentId : JS.str)
    : list Effect :=
  if confirmed then [delete_document documentId] else [].

Definition handleDeleteDocument_fulfilled (documents : list Doc.t)
    (documentId : JS.str) (s : State) : State * list Effect :=
  (setDocuments
     (filter (fun doc => negb (JSLib.str_eqb (Doc.document_id doc) documentId))
        documents) s,
   loadSystemStats).

Definition handleDeleteDocument_rejected (s : State) : State * list Effect :=
  (s, [console_error (JS.lit "Error deleting document:")]).

(** *** The component as a transition system

    A pending call remembers which continuation awaits it and what
    that continuation closed over. *)

Inductive Pending :=
| await_users
| await_documents
| await_analytics
| await_stats (documents : list Doc.t)
| await_delete_user (users : list User.t) (documents : list Doc.t) (userId : Z)
| await_delete_document (documents : list Doc.t) (documentId : JS.str).

Inductive Reply :=
| rejected
| users_reply (response_users : option (list User.t))
| documents_reply (response_documents : option (list Doc.t))
| analytics_reply (response_analytics : option Analytics.t)
| deleted.

Record World := {
  state : State;
  pending : list Pending;
  emitted : list Effect
}.

(** After the first render and its effect: [loadAdminData()], then
    [loadSystemStats()], both created in the first render. *)
Definition mounted : World :=
  {| state := initial;
     pending := [await_users; await_stats []];
     emitted := [get_users; get_analytics] |}.

Inductive Event :=
| Settle (index : nat) (date : Z) (reply : Reply)
| ClickDeleteUser (confirmed : bool) (row : nat)
| ClickDeleteDocument (confirmed : bool) (row : nat).

Fixpoint drop_nth {A} (n : nat) (l : list A) : list A :=
  match n, l with
  | _, [] => []
  | O, _ :: r => r
  | S n', a :: r => a :: drop_nth n' r
  end.

Definition commit (w : World) (rest new : list Pending)
    (r : State * list Effect) : World :=
  {| state := fst r;
     pending := rest ++ new;
     emitted := emitted w ++ snd r |}.

(** What a settled call does, by the continuation that awaited it. *)
Definition settle (w : World) (rest : list Pending) (date : Z)
    (p : Pending) (reply : Reply) : option World :=
  match p, reply with
  | await_users, users_reply u =>
      Some (commit w rest [await_documents] (loadAdminData_users u (state w)))
  | await_documents, documents_reply d =>
      Some (commit w rest [await_analytics] (loadAdminData_documents d (state w)))
  | await_analytics, analytics_reply a =>
      Some (commit w rest [] (loadAdminData_analytics a (state w)))
  | await_users, rejected | await_documents, rejected
  | await_analytics, rejected =>
      Some (commit w rest [] (loadAdminData_rejected (state w)))
  | await_stats documents, analytics_reply a =>
      Some (commit w rest [] (loadSystemStats_fulfilled documents date a (state w)))
  | await_stats _, rejected =>
      Some (commit w rest [] (loadSystemStats_rejected (state w)))
  | await_delete_user users documents userId, deleted =>
      Some (commit w rest [await_stats documents]
              (handleDeleteUser_fulfilled users userId (state w)))
  | await_delete_user _ _ _, rejected =>
      Some (commit w rest [] (handleDeleteUser_rejected (state w)))
  | await_delete_document documents documentId, deleted =>
      Some (commit w rest [await_stats documents]
              (handleDeleteDocument_fulfilled documents documentId (state w)))
  | await_delete_document _ _, rejected =>
      Some (commit w rest [] (handleDeleteDocument_rejected (state w)))
  | _, _ => None
  end.

(** While [loading] the component renders the spinner only.  A user row
    has its delete button under [user.role !== 'admin']. *)
Definition step (w : World) (ev : Event) : option World :=
  match ev with
  | Settle index date reply =>
      match nth_error (pending w) index with
      | Some p => settle w (drop_nth index (pending w)) date p reply
      | None => None
      end
  | ClickDeleteUser confirmed row =>
      if loading (state w) then None
      else
        match nth_error (users (state w)) row with
        | Some user =>
            if JSLib.str_eqb (User.role user) (JS.lit "admin") then None
            else
              Some (commit w (pending w)
                      (if confirmed
                       then [await_delete_user (users (state w))
                               (documents (state w)) (User.id user)]
                       else [])
                      (state w, handleDeleteUser confirmed (User.id user)))
        | None => None
        end
  | ClickDeleteDocument confirmed row =>
      if loading (state w) then None
      else
        match nth_error (documents (state w)) row with
        | Some doc =>
            Some (commit w (pending w)
                    (if confirmed
                     then [await_delete_document (documents (state w))
                             (Doc.document_id doc)]
                     else [])
                    (state w, handleDeleteDocument confirmed (Doc.document_id doc)))
        | None => None
        end
  end.

Fixpoint run (w : World) (evs : list Event) : option World :=
  match evs with
  | [] => Some w
  | ev :: rest =>
      match step w ev with
      | Some w' => run w' rest
      | None => None
      end
  end.

End Storage.

(** Two numbers that differ at most in the sign of zero. *)
Definition same_but_zero_sign (a b : float) : Prop :=
  a = b
  \/ (exists sa sb, Prim2SF a = S754_zero sa /\ Prim2SF b = S754_zero sb).

(** The document has a size that counts: present, not zero, not [NaN]. *)
Definition sized (doc : Doc.t) : bool :=
  match Doc.file_size doc with
  | Some v => JSLib.truthy_number v
  | None => false
  end.

(** No pending [loadSystemStats] has seen a document, and the storage
    figure is the initial one or that of the empty list. *)
Definition storage_blind (w : World) : Prop :=
  Forall (fun p => match p with
                   | await_stats documents => documents = []
                   | await_delete_user _ _ _ | await_delete_document _ _ => False
                   | _ => True
                   end) (pending w)
  /\ (storageUsed (systemStats (state w)) = JS.lit "0 MB"
      \/ storageUsed (systemStats (state w)) = JS.lit "0.00 MB").

Definition is_click (ev : Event) : bool :=
  match ev with
  | Settle _ _ _ => false
  | _ => true
  end.

Section Accounts.

(** The ids of the administrator accounts. *)
Variable admins : Z -> Prop.

(** The row of an administrator says so. *)
Definition marked (user : User.t) : Prop :=
  admins (User.id user) -> User.role user = JS.lit "admin".

(** Every list of users the server sends marks the administrators. *)
Definition well_marked (evs : list Event) : Prop :=
  Forall (fun ev => match ev with
                    | Settle _ _ (users_reply (Some l)) => Forall marked l
                    | _ => True
                    end) evs.

Definition spares_admins (w : World) : Prop :=
  Forall marked (users (state w))
  /\ Forall (fun p => match p with
                      | await_delete_user l _ _ => Forall marked l
                      | _ => True
                      end) (pending w)
  /\ Forall (fun e => match e with
                      | delete_user userId => ~ admins userId
                      | _ => True
                      end) (emitted w).

End Accounts.

End AdminDashboard.

(* ===================================================================== *)
(** ** The routes of [AppContent]                                         *)
(* ===================================================================== *)

Module App.

(** The seven [Route]s, by their [path]; matching a URL to one of them
    is the router's. *)
Inductive Path :=
| login_path        (* "/login" *)
| dashboard_path    (* "/dashboard" *)
| chat_path         (* "/chat" *)
| documents_path    (* "/documents" *)
| analytics_path    (* "/analytics" *)
| admin_path        (* "/admin" *)
| root_path.        (* "/" *)

Inductive Page := Login | Dashboard | Chat | Documents | Analytics | AdminDashboard.

Inductive Element :=
| show (page : Page)
| Navigate (to : Path).

(** The [element] of each route. *)
Definition element (isAuthenticated : bool) (path : Path) : Element :=
  match path with
  | login_path => if isAuthenticated then Navigate dashboard_path else show Login
  | dashboard_path => if isAuthenticated then show Dashboard else Navigate login_path
  | chat_path => if isAuthenticated then show Chat else Navigate login_path
  | documents_path => if isAuthenticated then show Documents else Navigate login_path
  | analytics_path => if isAuthenticated then show Analytics else Navigate login_path
  | admin_path => if isAuthenticated then show AdminDashboard else Navigate login_path
  | root_path => Navigate (if isAuthenticated then dashboard_path else login_path)
  end.

(** Following [Navigate] for at most [fuel] routes: the page shown and
    the number of redirects taken. *)
Fixpoint land (fuel : nat) (isAuthenticated : bool) (path : Path)
    : option (Page * nat) :=
  match fuel with
  | O => None
  | S fuel' =>
      match element isAuthenticated path with
      | show page => Some (page, 0)
      | Navigate to =>
          match land fuel' isAuthenticated to with
          | Some (page, n) => Some (page, S n)
          | None => None
          end
      end
  end.

(** What [AppContent] renders: the spinner while the session is being
    restored, else the navigation bar (when authenticated) and the
    route's element. *)
Inductive View :=
| spinner
| routed (navbar : bool) (e : Element).

Definition AppContent (isAuthenticated loading : bool) (path : Path) : View :=
  if loading then spinner
  else routed isAuthenticated (element isAuthenticated path).

End App.

(* ===================================================================== *)
(** ** The [Analytics] component                                          *)
(* ===================================================================== *)

Module AnalyticsPage.

Section Format.

Variable NumberToString : float -> JS.str.

Definition formatTime (seconds : float) : JS.str :=
  JS.toFixed NumberToString seconds 2 ++ JS.lit "s".

End Format.

End AnalyticsPage.

(* ===================================================================== *)
(** ** Facts about the JavaScript layer                                   *)
(* ===================================================================== *)

Section FloatOrder.

Ltac compare_cases :=
  repeat match goal with
  | |- context [(?a ?= ?b)%Z] => destruct (Z.compare_spec a b)
  | H : context [(?a ?= ?b)%Z] |- _ => destruct (Z.compare_spec a b)
  | |- context [PosDef.Pos.compare_cont Eq ?a ?b] =>
      change (PosDef.Pos.compare_cont Eq a b) with (Pos.compare a b);
      destruct (Pos.compare_spec a b)
  | H : context [PosDef.Pos.compare_cont Eq ?a ?b] |- _ =>
      change (PosDef.Pos.compare_cont Eq a b) with (Pos.compare a b) in H;
      destruct (Pos.compare_spec a b)
  end.

Lemma SFltb_not_SFleb (x y : spec_float) :
  SFltb x y = true -> SFleb y x = false.
Proof.
  unfold SFltb, SFleb.
  destruct x as [[]|[]| |[] mx ex], y as [[]|[]| |[] my ey];
    simpl; try congruence;
    compare_cases; simpl; try congruence; try lia.
Qed.

Lemma SFltb_SFleb_trans (x y z : spec_float) :
  SFltb x y = true -> SFleb y z = true -> SFltb x z = true.
Proof.
  unfold SFltb, SFleb.
  destruct x as [[]|[]| |[] mx ex], y as [[]|[]| |[] my ey],
           z as [[]|[]| |[] mz ez];
    simpl; try congruence;
    compare_cases; simpl; try congruence; try lia.
Qed.

(** [x < y] excludes [y <= x], on floats. *)
Lemma ltb_not_leb (x y : float) :
  (x <? y)%float = true -> (y <=? x)%float = false.
Proof.
  rewrite ltb_spec, leb_spec. apply SFltb_not_SFleb.
Qed.

Lemma ltb_leb_trans (x y z : float) :
  (x <? y)%float = true -> (y <=? z)%float = true -> (x <? z)%float = true.
Proof.
  rewrite !ltb_spec, leb_spec. apply SFltb_SFleb_trans.
Qed.

End FloatOrder.

Section Digits.

Let digit (c : JS.char) : Prop := JS.is_digit c = true.

Lemma digits_of_uint_digits (d : Decimal.uint) :
  Forall digit (JS.digits_of_uint d).
Proof.
  induction d; simpl; constructor; auto; reflexivity.
Qed.

Lemma digits_all_digits (n : N) : Forall digit (JS.digits n).
Proof. apply digits_of_uint_digits. Qed.

Lemma digits_nonempty (n : N) : JS.digits n <> [].
Proof.
  unfold JS.digits.
  destruct (N.to_uint n) eqn:E; simpl; try discriminate.
  assert (Hn : n = 0%N).
  { rewrite <- (DecimalN.Unsigned.of_to n), E. reflexivity. }
  subst n. discriminate E.
Qed.

Lemma decimal_value_acc (d : Decimal.uint) (acc : positive) :
  fold_left (fun a c => (10 * a + (c - 48))%N) (JS.digits_of_uint d) (Npos acc)
  = Npos (Pos.of_uint_acc d acc).
Proof.
  revert acc. induction d; intros acc;
    cbn [JS.digits_of_uint fold_left Pos.of_uint_acc];
    [reflexivity | ..];
    match goal with
    | |- fold_left _ _ ?a = Npos (Pos.of_uint_acc _ ?b) =>
        replace a with (Npos b) by lia
    end; apply IHd.
Qed.

Lemma decimal_value_of_uint (d : Decimal.uint) :
  JS.decimal_value (JS.digits_of_uint d) = N.of_uint d.
Proof.
  unfold JS.decimal_value, N.of_uint.
  induction d; cbn [JS.digits_of_uint fold_left Pos.of_uint];
    [reflexivity | exact IHd | ..];
    match goal with
    | |- fold_left _ _ ?a = Npos (Pos.of_uint_acc _ ?b) =>
        replace a with (Npos b) by lia
    end; apply decimal_value_acc.
Qed.

(** The digits of [n] denote [n]. *)
Lemma decimal_value_digits (n : N) : JS.decimal_value (JS.digits n) = n.
Proof.
  unfold JS.digits. rewrite decimal_value_of_uint.
  apply DecimalN.Unsigned.of_to.
Qed.

Lemma decimal_value_zeros (k : nat) (s : JS.str) :
  JS.decimal_value (repeat 48%N k ++ s) = JS.decimal_value s.
Proof.
  unfold JS.decimal_value. induction k as [|k IH]; [reflexivity|].
  exact IH.
Qed.

Lemma nzhead_head (d : Decimal.uint) :
  match Decimal.nzhead d with Decimal.D0 _ => False | _ => True end.
Proof. induction d; simpl; auto. Qed.

(** The decimal representation has no leading zero, "0" apart. *)
Lemma digits_head (n : N) :
  JS.digits n = [48%N] \/ hd 48%N (JS.digits n) <> 48%N.
Proof.
  unfold JS.digits.
  assert (E : N.to_uint n = Decimal.unorm (N.to_uint n)).
  { rewrite <- (DecimalN.Unsigned.to_of (N.to_uint n)).
    now rewrite DecimalN.Unsigned.of_to. }
  rewrite E. unfold Decimal.unorm.
  pose proof (nzhead_head (N.to_uint n)) as H.
  destruct (Decimal.nzhead (N.to_uint n)); simpl;
    [now left | contradiction | ..]; right; discriminate.
Qed.

(** For [f > 0] the result is an integer part of at least one digit,
    without a leading zero unless it is "0", the point, and exactly [f]
    digits. *)
Lemma fixed_digits_shape (f : nat) (n : N) :
  f <> 0 ->
  exists ip fp,
    JS.fixed_digits f n = ip ++ [46%N] ++ fp
    /\ ip <> [] /\ List.length fp = f
    /\ Forall digit ip /\ Forall digit fp
    /\ JS.decimal_value (ip ++ fp) = n
    /\ (ip = [48%N] \/ hd 48%N ip <> 48%N).
Proof.
  intros Hf. unfold JS.fixed_digits.
  destruct (Nat.eqb_spec f 0) as [|_]; [contradiction|].
  set (m0 := JS.digits n).
  assert (D0 : Forall digit m0) by apply digits_all_digits.
  assert (L0 : List.length m0 <> 0).
  { intros H. apply length_zero_iff_nil in H. exact (digits_nonempty n H). }
  set (m := if Nat.leb (List.length m0) f
            then repeat 48%N (f + 1 - List.length m0) ++ m0 else m0).
  assert (D : Forall digit m).
  { unfold m. destruct (Nat.leb_spec (List.length m0) f); auto.
    apply Forall_app. split; auto.
    apply Forall_forall. intros c Hc. apply repeat_spec in Hc. subst c.
    reflexivity. }
  assert (L : f < List.length m).
  { unfold m. destruct (Nat.leb_spec (List.length m0) f); auto.
    rewrite length_app, repeat_length. lia. }
  assert (V : JS.decimal_value m = n).
  { unfold m. destruct (Nat.leb (List.length m0) f);
      [rewrite decimal_value_zeros|]; apply decimal_value_digits. }
  exists (firstn (List.length m - f) m), (skipn (List.length m - f) m).
  rewrite firstn_skipn.
  rewrite <- (firstn_skipn (List.length m - f) m) in D.
  apply Forall_app in D. destruct D as [D1 D2].
  repeat split; auto.
  - intros H. apply (f_equal (@List.length _)) in H.
    rewrite length_firstn in H. simpl in H. lia.
  - rewrite length_skipn. lia.
  - unfold m. destruct (Nat.leb_spec (List.length m0) f) as [Le|Gt].
    + left. rewrite length_app, repeat_length.
      replace (f + 1 - List.length m0 + List.length m0 - f) with 1 by lia.
      destruct (f + 1 - List.length m0) as [|k] eqn:K; [lia|reflexivity].
    + right. pose proof (digits_head n) as H. change (JS.digits n) with m0 in H.
      clearbody m0. destruct H as [Z|NZ].
      * subst m0. simpl in Gt. lia.
      * destruct m0 as [|c r]; [contradiction|]. cbv iota.
        destruct (List.length (c :: r) - f) as [|k] eqn:K; [lia|].
        exact NZ.
Qed.

(** [nearest_scaled f m e] is the integer nearest to [m * 2^e * 10^f],
    the larger one when two are equally near: with [d = 2^p] and
    [e = -p], twice the distance, scaled by [d], lies in [(-d, d]]. *)
Lemma nearest_scaled_nearest (f : nat) (m p : positive) :
  let n := JS.nearest_scaled f m (Zneg p) in
  let x := (Npos m * 10 ^ N.of_nat f)%N in
  let d := (2 ^ Npos p)%N in
  (2 * x < 2 * n * d + d /\ 2 * n * d <= 2 * x + d)%N.
Proof.
  intros n x d. unfold n, JS.nearest_scaled. fold x. fold d.
  assert (Hd : (0 < d)%N).
  { unfold d. apply N.neq_0_lt_0, N.pow_nonzero. discriminate. }
  replace (2 ^ (N.pos p + 1))%N with (2 * d)%N
    by (unfold d; rewrite N.pow_add_r; simpl; lia).
  clearbody x d. clear n.
  pose proof (N.div_mod (2 * x + d) (2 * d) ltac:(lia)) as E.
  pose proof (N.mod_lt (2 * x + d) (2 * d) ltac:(lia)) as B.
  generalize dependent ((2 * x + d) mod (2 * d))%N.
  generalize ((2 * x + d) / (2 * d))%N.
  intros q r E B. nia.
Qed.

(** On an integer-valued float the scaling is exact. *)
Lemma nearest_scaled_exact (f : nat) (m p : positive) :
  JS.nearest_scaled f m (Zpos p) = (Npos m * 2 ^ Npos p * 10 ^ N.of_nat f)%N
  /\ JS.nearest_scaled f m 0 = (Npos m * 10 ^ N.of_nat f)%N.
Proof. unfold JS.nearest_scaled. split; lia. Qed.

(** The fraction of [magnitude] has a positive denominator. *)
Lemma magnitude_positive (x : float) (a b : N) :
  JS.magnitude x = Some (a, b) -> (0 < b)%N.
Proof.
  unfold JS.magnitude.
  destruct (Prim2SF x) as [s|s| |s m [|p|p]]; intros H; inversion H; subst;
    lia.
Qed.

(** At most one integer is nearest in the sense of [nearest_decimal]. *)
Lemma nearest_decimal_unique (f : nat) (x : float) (n n' : N) :
  JS.nearest_decimal f x n -> JS.nearest_decimal f x n' -> n = n'.
Proof.
  unfold JS.nearest_decimal.
  destruct (JS.magnitude x) as [[a b]|] eqn:M; [|contradiction].
  pose proof (magnitude_positive x a b M) as B.
  generalize (2 * a * 10 ^ N.of_nat f)%N. intros X [L1 U1] [L2 U2].
  destruct (N.lt_trichotomy n n') as [H|[H|H]]; [|exact H|]; nia.
Qed.

(** What [toFixed] prints for a finite float below 10^21 is the nearest
    decimal. *)
Lemma nearest_scaled_is_nearest (f : nat) (x : float) (s : bool)
    (m : positive) (e : Z) :
  Prim2SF x = S754_finite s m e ->
  JS.nearest_decimal f x (JS.nearest_scaled f m e).
Proof.
  intros P. unfold JS.nearest_decimal, JS.magnitude. rewrite P.
  destruct e as [|p|p].
  - unfold JS.nearest_scaled. lia.
  - unfold JS.nearest_scaled. lia.
  - pose proof (nearest_scaled_nearest f m p) as H. cbv zeta in H. lia.
Qed.

Lemma Prim2SF_0 : Prim2SF 0%float = S754_zero false.
Proof. reflexivity. Qed.

(** [x < 0] is the sign bit of a finite float, and false on a zero. *)
Lemma negative_sign (x : float) :
  match Prim2SF x with
  | S754_finite s _ _ => (x <? 0)%float = s
  | S754_zero _ => (x <? 0)%float = false
  | _ => True
  end.
Proof.
  rewrite FloatAxioms.ltb_spec, Prim2SF_0.
  destruct (Prim2SF x) as [s|s| |s m e]; auto; now destruct s.
Qed.

(** Inside its numeric range [toFixed(f)], for [f > 0], yields a minus
    sign when the number is below zero, an integer part, the point and
    [f] digits; the digits denote the decimal nearest to the
    magnitude. *)
Lemma toFixed_shape (NumberToString : float -> JS.str) (x : float) (f : nat) :
  f <> 0 ->
  JS.fixed_range x = true ->
  exists ip fp,
    JS.toFixed NumberToString x f
    = (if (x <? 0)%float then JS.lit "-" else []) ++ ip ++ [46%N] ++ fp
    /\ ip <> [] /\ List.length fp = f
    /\ Forall digit ip /\ Forall digit fp
    /\ (ip = [48%N] \/ hd 48%N ip <> 48%N)
    /\ JS.nearest_decimal f x (JS.decimal_value (ip ++ fp)).
Proof.
  unfold JS.fixed_range, JS.toFixed. intros F R.
  pose proof (negative_sign x) as Sg.
  destruct (Prim2SF x) as [s|s| |s m e] eqn:P; try discriminate.
  - destruct (fixed_digits_shape f 0 F)
      as (ip & fp & E & N0 & L & D1 & D2 & V & Z).
    exists ip, fp. rewrite E, V, Sg.
    repeat split; auto.
    all: unfold JS.nearest_decimal, JS.magnitude; rewrite P; lia.
  - apply negb_true_iff in R. rewrite R.
    destruct (fixed_digits_shape f (JS.nearest_scaled f m e) F)
      as (ip & fp & E & N0 & L & D1 & D2 & V & Z).
    exists ip, fp. rewrite E, V, Sg.
    repeat split; auto.
    all: eapply nearest_scaled_is_nearest; exact P.
Qed.

End Digits.

(* ===================================================================== *)
(** ** The response renderer                                              *)
(* ===================================================================== *)

(** C6, as amended.  For a numeric confidence [c], [getConfidenceText]
    answers High when [c >= 0.8], Medium when [0.6 <= c < 0.8] and Low
    when [c < 0.6], each lower bound included: 0.8 is High, 0.6 and
    0.79999 are Medium, 0.59999 is Low.  The function has no fourth
    answer: on [undefined] it answers Low, and the badge that shows the
    answer is not rendered at all when the confidence is [undefined]. *)
Theorem getConfidenceText_buckets (c : float) :
  ((0.8 <=? c)%float = true ->
     Chat.getConfidenceText (Some c) = JS.lit "High")
  /\ ((0.6 <=? c)%float = true -> (c <? 0.8)%float = true ->
     Chat.getConfidenceText (Some c) = JS.lit "Medium")
  /\ ((c <? 0.6)%float = true ->
     Chat.getConfidenceText (Some c) = JS.lit "Low")
  /\ Chat.getConfidenceText None = JS.lit "Low"
  /\ (forall message, Chat.Message.confidence message = None ->
        Chat.confidenceBadge message = None)
  /\ Chat.getConfidenceText (Some 0.8%float) = JS.lit "High"
  /\ Chat.getConfidenceText (Some 0.79999%float) = JS.lit "Medium"
  /\ Chat.getConfidenceText (Some 0.6%float) = JS.lit "Medium"
  /\ Chat.getConfidenceText (Some 0.59999%float) = JS.lit "Low".
Proof.
  unfold Chat.getConfidenceText, JS.ge, JS.ToNumber.
  repeat split; try (vm_compute; reflexivity).
  - intros H. now rewrite H.
  - intros H6 H8. apply ltb_not_leb in H8. now rewrite H8, H6.
  - intros H.
    assert (H8 : (c <? 0.8)%float = true).
    { apply ltb_leb_trans with (y := 0.6%float); auto. }
    apply ltb_not_leb in H8. apply ltb_not_leb in H.
    now rewrite H8, H.
  - intros message H. unfold Chat.confidenceBadge. rewrite H.
    now destruct (Chat.Message.type message).
Qed.

Lemma getConfidenceText_buckets_witness :
  Chat.getConfidenceText (Some 0.7%float) = JS.lit "Medium".
Proof.
  apply (proj1 (proj2 (getConfidenceText_buckets 0.7%float)));
    vm_compute; reflexivity.
Defined.

(** C6, as stated, fails on [undefined]: the answer is Low, not
    Unknown. *)
Lemma getConfidenceText_undefined_is_Low :
  Chat.getConfidenceText None = JS.lit "Low"
  /\ Chat.getConfidenceText None <> JS.lit "Unknown".
Proof. split; vm_compute; [reflexivity | discriminate]. Qed.

(** C8.  For a source whose percentage [similarity_score * 100] is a
    finite number below 10^21, the line rendered is the filename, then
    " (similarity: ", then the percentage with exactly one digit after
    the point, then "%)".  The percentage printed is the product
    rounded to the nearest tenth (of two equally near, the larger in
    magnitude): a minus sign when it is below zero, an integer part
    without leading zeros, the point and one digit, and the digits
    denote the one number of tenths nearest to the magnitude.  The
    source report.pdf with score 0.867 renders as
    "report.pdf (similarity: 86.7%)". *)
Theorem formatSource_one_decimal (NumberToString : float -> JS.str)
    (source : Source.t) :
  JS.fixed_range (Source.similarity_score source * 100)%float = true ->
  (exists ip d,
      Chat.formatSource NumberToString source
      = Source.filename source ++ JS.lit " (similarity: "
          ++ ((if (Source.similarity_score source * 100 <? 0)%float
               then JS.lit "-" else [])
              ++ ip ++ [46%N; d])
          ++ JS.lit "%)"
      /\ ip <> [] /\ Forall (fun c => JS.is_digit c = true) ip
      /\ JS.is_digit d = true
      /\ (ip = [48%N] \/ hd 48%N ip <> 48%N)
      /\ JS.nearest_decimal 1 (Source.similarity_score source * 100)%float
           (JS.decimal_value (ip ++ [d]))
      /\ (forall n,
            JS.nearest_decimal 1 (Source.similarity_score source * 100)%float n ->
            n = JS.decimal_value (ip ++ [d])))
  /\ Chat.formatSource NumberToString
       {| Source.filename := JS.lit "report.pdf";
          Source.similarity_score := 0.867%float |}
     = JS.lit "report.pdf (similarity: 86.7%)".
Proof.
  intros R. split; [|vm_compute; reflexivity].
  destruct (toFixed_shape NumberToString _ 1 ltac:(discriminate) R)
    as (ip & fp & E & N0 & L & D1 & D2 & Z & V).
  destruct fp as [|d [|? ?]]; simpl in L; try discriminate.
  exists ip, d. unfold Chat.formatSource. rewrite E.
  split; [reflexivity|].
  split; [exact N0|]. split; [exact D1|].
  split; [now inversion D2|]. split; [exact Z|]. split; [exact V|].
  intros n H. exact (nearest_decimal_unique 1 _ _ _ H V).
Qed.

Lemma formatSource_one_decimal_witness :
  exists ip d,
    Chat.formatSource (fun _ => [])
      {| Source.filename := JS.lit "report.pdf";
         Source.similarity_score := 0.867%float |}
    = JS.lit "report.pdf" ++ JS.lit " (similarity: "
        ++ ((if (0.867 * 100 <? 0)%float then JS.lit "-" else [])
            ++ ip ++ [46%N; d])
        ++ JS.lit "%)"
    /\ ip <> [] /\ Forall (fun c => JS.is_digit c = true) ip
    /\ JS.is_digit d = true
    /\ (ip = [48%N] \/ hd 48%N ip <> 48%N)
    /\ JS.nearest_decimal 1 (0.867 * 100)%float (JS.decimal_value (ip ++ [d]))
    /\ (forall n,
          JS.nearest_decimal 1 (0.867 * 100)%float n ->
          n = JS.decimal_value (ip ++ [d])).
Proof.
  exact (proj1 (formatSource_one_decimal (fun _ => [])
                  {| Source.filename := JS.lit "report.pdf";
                     Source.similarity_score := 0.867%float |}
                  eq_refl)).
Defined.

(* ===================================================================== *)
(** ** The query gateway                                                  *)
(* ===================================================================== *)

(** C10.  The body of [POST /query] has a [document_id] exactly when the
    scope is truthy, and then it is that scope; [undefined], [null] and
    the empty string all give the same body, without the field.  In
    [handleSubmit] the field is absent when [selectedDocument] is the
    empty string ("All documents") and is the selected id otherwise. *)
Theorem document_id_iff_scope (query : JS.str)
    (history : option (list Turn.t)) (documentId : JS.value) :
  Request.document_id (queryService.queryDocuments query history documentId)
  = (if JS.truthy documentId then Some documentId else None)
  /\ JS.truthy JS.undefined = false
  /\ JS.truthy JS.null = false
  /\ JS.truthy (JS.String []) = false
  /\ (forall c s, JS.truthy (JS.String (c :: s)) = true)
  /\ queryService.queryDocuments query history (JS.String [])
     = queryService.queryDocuments query history JS.undefined
  /\ queryService.queryDocuments query history JS.null
     = queryService.queryDocuments query history JS.undefined
  /\ (forall now date s,
        Forall (fun body =>
                  Request.document_id body
                  = match Chat.selectedDocument s with
                    | [] => None
                    | id => Some (JS.String id)
                    end)
               (Chat.requests (snd (Chat.handleSubmit now date s)))).
Proof.
  repeat split.
  - unfold queryService.queryDocuments.
    destruct documentId as [| |[|c s]]; reflexivity.
  - intros now date s. unfold Chat.handleSubmit.
    destruct (negb _ || _); simpl; constructor; [|constructor].
    destruct (Chat.selectedDocument s); reflexivity.
Qed.

(* ===================================================================== *)
(** ** The chat session                                                   *)
(* ===================================================================== *)

Section ChatSession.

Import Chat.

Lemma truthy_String (s : JS.str) :
  JS.truthy (JS.String s) = true <-> s <> [].
Proof. destruct s; simpl; split; congruence. Qed.

(** The guard of [handleSubmit], read as a condition on the state. *)
Lemma handleSubmit_guard (s : State) :
  negb (JS.truthy (JS.String (JS.trim (input s)))) || loading s = false
  <-> JS.trim (input s) <> [] /\ loading s = false.
Proof.
  rewrite orb_false_iff, negb_false_iff, truthy_String. tauto.
Qed.

Lemma run_app (w : World) (evs1 evs2 : list Event) :
  run w (evs1 ++ evs2)
  = match run w evs1 with
    | Some w' => run w' evs2
    | None => None
    end.
Proof.
  revert w. induction evs1 as [|ev evs1 IH]; intros w; simpl; auto.
  destruct (step w ev); auto.
Qed.

(** One exchange, run from a world at rest. *)
Lemma exchange_runs (x : Exchange) (w : World) :
  loading (state w) = false ->
  in_flight w = [] ->
  JS.trim (question x) <> [] ->
  exists w',
    run w (exchange x) = Some w'
    /\ messages (state w') = messages (state w) ++ transcript x
    /\ loading (state w') = false
    /\ in_flight w' = []
    /\ selectedDocument (state w') = selectedDocument (state w)
    /\ documents (state w') = documents (state w)
    /\ emitted w'
       = emitted w
         ++ post_query
              (queryService.queryDocuments (JS.trim (question x))
                 (Some (map conversationTurn (messages (state w))))
                 (JS.or (JS.String (selectedDocument (state w))) JS.undefined))
         :: match outcome x with
            | Some _ => []
            | None => [console_error (JS.lit "Error querying documents:");
                       toast_error errorToast]
            end.
Proof.
  intros L F Q.
  destruct w as [[ms inp ld sel docs dd] fl em]. simpl in L, F. subst ld fl.
  unfold exchange, run, step, commit. cbn [state in_flight emitted fst snd].
  unfold handleSubmit. cbn [input loading setInput].
  apply truthy_String in Q. rewrite Q. cbn [negb orb fst snd requests flat_map app].
  destruct (outcome x) as [response|] eqn:O;
    unfold transcript; rewrite O;
    eexists; (split; [reflexivity|]); cbn;
    rewrite <- !app_assoc; cbn; repeat split; reflexivity.
Qed.

(** Exchanges in a row: the log grows by their transcripts, in order. *)
Lemma exchanges_run (xs : list Exchange) (w : World) :
  loading (state w) = false ->
  in_flight w = [] ->
  Forall (fun x => JS.trim (question x) <> []) xs ->
  exists w',
    run w (flat_map exchange xs) = Some w'
    /\ messages (state w') = messages (state w) ++ flat_map transcript xs
    /\ loading (state w') = false
    /\ in_flight w' = [].
Proof.
  revert w. induction xs as [|x xs IH]; intros w L F Q.
  - exists w. simpl. rewrite app_nil_r. auto.
  - inversion Q as [|? ? Qx Qxs]; subst.
    destruct (exchange_runs x w L F Qx) as (w1 & R1 & M1 & L1 & F1 & _).
    destruct (IH w1 L1 F1 Qxs) as (w2 & R2 & M2 & L2 & F2).
    exists w2. cbn [flat_map]. rewrite run_app, R1, R2, M2, M1, <- app_assoc.
    auto.
Qed.

(** C1.  A submit that passes the guard sends one request.  Its
    [conversation_history] is the role/content projection of the log as
    it stood before the submit, message by message in log order; the new
    user message is appended to the log after them and is not part of
    the history: its text travels in [query] only. *)
Theorem history_is_prior_log (w : World) (now date : Z) :
  JS.trim (input (state w)) <> [] ->
  loading (state w) = false ->
  exists w' body,
    step w (Submit now date) = Some w'
    /\ emitted w' = emitted w ++ [post_query body]
    /\ in_flight w' = in_flight w ++ [body]
    /\ messages (state w')
       = messages (state w) ++ [userMessage now date (input (state w))]
    /\ Request.query body = JS.trim (input (state w))
    /\ Request.conversation_history body
       = map conversationTurn (messages (state w))
    /\ map Turn.content (Request.conversation_history body)
       = map Message.content (messages (state w))
    /\ map Turn.role (Request.conversation_history body)
       = map (fun m => match Message.type m with
                       | user => role_user
                       | bot => role_assistant
                       end) (messages (state w))
    /\ Request.conversation_history body
       = map conversationTurn (removelast (messages (state w')))
    /\ List.length (Request.conversation_history body)
       < List.length (messages (state w')).
Proof.
  intros Q L.
  destruct (handleSubmit_guard (state w)) as [_ G]. specialize (G (conj Q L)).
  unfold step, commit, handleSubmit. rewrite G. cbn [fst snd requests flat_map].
  do 2 eexists. split; [reflexivity|]. cbn [state emitted in_flight].
  cbn [messages setLoading setInput setMessages].
  assert (H : forall d, Request.conversation_history
                (queryService.queryDocuments (JS.trim (input (state w)))
                   (Some (map conversationTurn (messages (state w)))) d)
              = map conversationTurn (messages (state w))
              /\ Request.query
                (queryService.queryDocuments (JS.trim (input (state w)))
                   (Some (map conversationTurn (messages (state w)))) d)
              = JS.trim (input (state w))).
  { intros d. unfold queryService.queryDocuments.
    destruct (JS.truthy (JS.param d JS.null)); split; reflexivity. }
  destruct (H (JS.or (JS.String (selectedDocument (state w))) JS.undefined))
    as [Hh Hq].
  rewrite Hh, Hq, removelast_last, !map_map, length_app, length_map.
  cbn [app]. repeat split; try reflexivity. simpl. lia.
Qed.

Lemma history_is_prior_log_witness :
  exists w' body,
    step (commit mounted [] (setInput (JS.lit " hello ") initial, []))
         (Submit 1000 1000) = Some w'
    /\ emitted w' = [get_documents; post_query body]
    /\ Request.query body = JS.lit "hello"
    /\ Request.conversation_history body = [].
Proof.
  destruct (history_is_prior_log
              (commit mounted [] (setInput (JS.lit " hello ") initial, []))
              1000 1000)
    as (w' & body & S & E & _ & _ & Q & H & _);
    [vm_compute; discriminate | reflexivity |].
  exists w', body. repeat split; assumption.
Defined.

(** The history sent with submission number [k + 1] is the projection
    of the [2k] messages of the [k] exchanges before it. *)
Lemma history_of_next_submission (xs : list Exchange) (x : Exchange) :
  Forall (fun x => JS.trim (question x) <> []) xs ->
  JS.trim (question x) <> [] ->
  exists w w' body rest,
    run mounted (flat_map exchange xs) = Some w
    /\ run w (exchange x) = Some w'
    /\ emitted w' = emitted w ++ post_query body :: rest
    /\ Request.conversation_history body
       = map conversationTurn (flat_map transcript xs)
    /\ messages (state w') = flat_map transcript xs ++ transcript x.
Proof.
  intros Q Qx.
  destruct (exchanges_run xs mounted eq_refl eq_refl Q) as (w & R & M & L & F).
  destruct (exchange_runs x w L F Qx) as (w' & R' & M' & _ & _ & _ & _ & E).
  simpl in M. do 4 eexists. split; [exact R|]. split; [exact R'|].
  split; [exact E|]. rewrite M', M. split; [|reflexivity].
  unfold queryService.queryDocuments.
  destruct (JS.truthy _); reflexivity.
Qed.

(** C2, as amended.  When the query of an exchange fails, the log gains
    the user's message and exactly one fallback assistant message after
    it: the fixed apology text, no sources, and confidence 0, which the
    badge shows as Low.  The user's message stays at its position, an
    error toast is emitted, and [loading] is false afterwards. *)
Theorem failed_query_fallback (x : Exchange) (w : World) :
  loading (state w) = false ->
  in_flight w = [] ->
  JS.trim (question x) <> [] ->
  outcome x = None ->
  exists w' body,
    run w (exchange x) = Some w'
    /\ messages (state w')
       = messages (state w)
         ++ [userMessage (fst (asked x)) (snd (asked x)) (question x);
             errorMessage (fst (settled x)) (snd (settled x))]
    /\ nth_error (messages (state w')) (List.length (messages (state w)))
       = Some (userMessage (fst (asked x)) (snd (asked x)) (question x))
    /\ Message.type (errorMessage (fst (settled x)) (snd (settled x))) = bot
    /\ Message.content (errorMessage (fst (settled x)) (snd (settled x)))
       = errorText
    /\ Message.sources (errorMessage (fst (settled x)) (snd (settled x)))
       = Some []
    /\ Message.confidence (errorMessage (fst (settled x)) (snd (settled x)))
       = Some 0%float
    /\ confidenceBadge (errorMessage (fst (settled x)) (snd (settled x)))
       = Some (JS.lit "Low")
    /\ emitted w'
       = emitted w
         ++ [post_query body;
             console_error (JS.lit "Error querying documents:");
             toast_error errorToast]
    /\ loading (state w') = false
    /\ in_flight w' = [].
Proof.
  intros L F Q O.
  destruct (exchange_runs x w L F Q) as (w' & R & M & L' & F' & _ & _ & E).
  unfold transcript in M. rewrite O in M, E.
  exists w'. eexists. split; [exact R|]. split; [exact M|].
  split.
  { rewrite M, nth_error_app2, Nat.sub_diag by lia. reflexivity. }
  repeat split; try reflexivity; try assumption.
  exact E.
Qed.

Lemma failed_query_fallback_witness :
  exists w',
    run mounted
      (exchange {| question := JS.lit "What is the revenue?";
                   asked := (1000, 1000)%Z;
                   outcome := None;
                   settled := (1250, 1250)%Z |}) = Some w'
    /\ List.length (messages (state w')) = 2
    /\ loading (state w') = false.
Proof.
  destruct (failed_query_fallback
              {| question := JS.lit "What is the revenue?";
                 asked := (1000, 1000)%Z;
                 outcome := None;
                 settled := (1250, 1250)%Z |} mounted)
    as (w' & body & R & M & _ & _ & _ & _ & _ & _ & _ & L & _);
    [reflexivity | reflexivity | vm_compute; discriminate | reflexivity |].
  exists w'. rewrite M. repeat split; assumption.
Defined.

(** C2, as stated, fails: the fallback message of a failed
    "What is the revenue?" carries confidence 0, not an absent one, and
    its badge reads Low. *)
Lemma fallback_confidence_is_zero :
  exists w' m,
    run mounted
      (exchange {| question := JS.lit "What is the revenue?";
                   asked := (1000, 1000)%Z;
                   outcome := None;
                   settled := (1250, 1250)%Z |}) = Some w'
    /\ nth_error (messages (state w')) 1 = Some m
    /\ Message.confidence m = Some 0%float
    /\ Message.confidence m <> None
    /\ confidenceBadge m = Some (JS.lit "Low").
Proof.
  do 2 eexists. split; [vm_compute; reflexivity|].
  split; [reflexivity|].
  split; [reflexivity|]. split; [discriminate|]. vm_compute. reflexivity.
Qed.

(** *** The shape of the log *)

Lemma transcript_length (xs : list Exchange) :
  List.length (flat_map transcript xs) = 2 * List.length xs.
Proof. induction xs as [|x xs IH]; simpl; lia. Qed.

Lemma transcript_types (xs : list Exchange) :
  map Message.type (flat_map transcript xs)
  = flat_map (fun _ => [user; bot]) xs.
Proof.
  induction xs as [|x xs IH]; simpl; [reflexivity|].
  rewrite IH. now destruct (outcome x).
Qed.

Lemma transcript_at (xs : list Exchange) (k : nat) (x : Exchange) :
  nth_error xs k = Some x ->
  nth_error (flat_map transcript xs) (2 * k)
  = Some (userMessage (fst (asked x)) (snd (asked x)) (question x))
  /\ nth_error (flat_map transcript xs) (2 * k + 1) = nth_error (transcript x) 1.
Proof.
  revert k. induction xs as [|y xs IH]; intros [|k] H; simpl in H; try discriminate.
  - inversion H; subst. split; reflexivity.
  - replace (2 * S k) with (S (S (2 * k))) by lia.
    apply IH in H. exact H.
Qed.

Lemma rejected_submit_is_noop (w : World) (now date : Z) :
  JS.trim (input (state w)) = [] \/ loading (state w) = true ->
  step w (Submit now date) = Some w.
Proof.
  intros G. unfold step, commit, handleSubmit.
  assert (E : negb (JS.truthy (JS.String (JS.trim (input (state w)))))
              || loading (state w) = true).
  { destruct G as [G|G]; rewrite G; [reflexivity | apply orb_true_r]. }
  rewrite E. destruct w; simpl. now rewrite !app_nil_r.
Qed.

(** *** One query at a time *)

Lemma step_idle_or_waiting (w w' : World) (ev : Event) :
  idle_or_waiting w -> step w ev = Some w' -> idle_or_waiting w'.
Proof.
  destruct w as [s fl em ls]. unfold idle_or_waiting.
  cbn [state in_flight]. intros I S.
  destruct ev; cbn [step state in_flight listing] in S;
    repeat match type of S with
           | match ?c with _ => _ end = _ => destruct c eqn:?; try discriminate
           end;
    inversion S; subst; clear S; cbn [commit listed state in_flight fst snd];
    try (rewrite app_nil_r; exact I).
  - (* Submit *)
    unfold handleSubmit.
    destruct (negb _ || loading s) eqn:G; cbn [fst snd requests flat_map].
    + rewrite app_nil_r. exact I.
    + apply orb_false_iff in G. destruct G as [_ L].
      destruct I as [[L' _]|[_ F]]; [congruence|]. subst fl.
      left. split; [reflexivity|]. eexists. reflexivity.
  - (* QueryFulfilled *)
    destruct I as [[_ [b F]]|[_ F]]; [|discriminate].
    inversion F; subst. right. split; reflexivity.
  - (* QueryRejected *)
    destruct I as [[_ [b F]]|[_ F]]; [|discriminate].
    inversion F; subst. right. split; reflexivity.
Qed.

Lemma run_idle_or_waiting (evs : list Event) (w w' : World) :
  idle_or_waiting w -> run w evs = Some w' -> idle_or_waiting w'.
Proof.
  revert w. induction evs as [|ev evs IH]; intros w I R; simpl in R.
  - now inversion R; subst.
  - destruct (step w ev) as [w1|] eqn:S; [|discriminate].
    apply (IH w1); auto. eapply step_idle_or_waiting; eauto.
Qed.

(** In every world the component reaches, a query is in flight exactly
    when [loading] is set, and then it is the only one. *)
Lemma in_flight_iff_loading (evs : list Event) (w : World) :
  run mounted evs = Some w ->
  (in_flight w <> [] <-> loading (state w) = true)
  /\ List.length (in_flight w) <= 1.
Proof.
  intros R.
  assert (I : idle_or_waiting w).
  { apply (run_idle_or_waiting evs mounted); auto. right. split; reflexivity. }
  destruct I as [[L [b F]]|[L F]]; rewrite L, F; simpl;
    split; try lia; split; congruence.
Qed.

(** C7.  After [N] successful exchanges, run from the mounted
    component, the log is the [N] transcripts in submission order: [2N]
    messages, a user message at every even position and the assistant's
    reply right after it.  A submit whose input is empty after trimming,
    or that comes while [loading] is set, which is the case whenever a
    query is in flight, changes nothing: no message, no request. *)
Theorem log_after_successful_exchanges (xs : list Exchange) :
  Forall (fun x => JS.trim (question x) <> []) xs ->
  Forall (fun x => outcome x <> None) xs ->
  (exists w,
      run mounted (flat_map exchange xs) = Some w
      /\ messages (state w) = flat_map transcript xs
      /\ List.length (messages (state w)) = 2 * List.length xs
      /\ map Message.type (messages (state w))
         = flat_map (fun _ => [user; bot]) xs
      /\ (forall k x,
            nth_error xs k = Some x ->
            exists response,
              outcome x = Some response
              /\ nth_error (messages (state w)) (2 * k)
                 = Some (userMessage (fst (asked x)) (snd (asked x)) (question x))
              /\ nth_error (messages (state w)) (2 * k + 1)
                 = Some (botMessage (fst (settled x)) (snd (settled x)) response))
      /\ loading (state w) = false)
  /\ (forall w now date,
        JS.trim (input (state w)) = [] \/ loading (state w) = true ->
        step w (Submit now date) = Some w)
  /\ (forall evs w now date,
        run mounted evs = Some w ->
        in_flight w <> [] ->
        step w (Submit now date) = Some w).
Proof.
  intros Q O.
  split; [|split; [exact rejected_submit_is_noop|]];
    [|intros evs w now date R F; apply rejected_submit_is_noop; right;
      now apply (in_flight_iff_loading evs w R)].
  destruct (exchanges_run xs mounted eq_refl eq_refl Q) as (w & R & M & L & _).
  simpl in M. exists w. rewrite M.
  split; [exact R|]. split; [reflexivity|].
  split; [apply transcript_length|]. split; [apply transcript_types|].
  split; [|exact L].
  intros k x H.
  assert (Ox : outcome x <> None).
  { rewrite Forall_forall in O. apply O. eapply nth_error_In; eauto. }
  destruct (outcome x) as [response|] eqn:E; [|congruence].
  exists response. destruct (transcript_at xs k x H) as [H0 H1].
  rewrite H0, H1. unfold transcript. rewrite E. auto.
Qed.

Lemma log_after_successful_exchanges_witness :
  exists w,
    run mounted
      (flat_map exchange
         [ {| question := JS.lit "What is the revenue?";
              asked := (1000, 1000)%Z;
              outcome := Some {| Response.answer := JS.lit "42";
                                 Response.sources := None;
                                 Response.confidence := Some 0.9%float |};
              settled := (1250, 1250)%Z |} ]) = Some w
    /\ List.length (messages (state w)) = 2.
Proof.
  destruct (log_after_successful_exchanges
              [ {| question := JS.lit "What is the revenue?";
                   asked := (1000, 1000)%Z;
                   outcome := Some {| Response.answer := JS.lit "42";
                                      Response.sources := None;
                                      Response.confidence := Some 0.9%float |};
                   settled := (1250, 1250)%Z |} ])
    as [(w & R & _ & L & _) _].
  - repeat constructor. vm_compute. discriminate.
  - repeat constructor. discriminate.
  - exists w. split; assumption.
Defined.

(** *** Message ids *)

Lemma sorted_ids_above (floor : Z) (xs : list Exchange) :
  paced floor xs ->
  StronglySorted Z.lt (map Message.id (flat_map transcript xs))
  /\ Forall (fun i => (floor < i)%Z) (map Message.id (flat_map transcript xs)).
Proof.
  revert floor. induction xs as [|x xs IH]; intros floor P.
  - split; constructor.
  - destruct P as [[P1 P2] P3]. destruct (IH _ P3) as [S A].
    assert (I2 : Message.id (match outcome x with
                             | Some response =>
                                 botMessage (fst (settled x)) (snd (settled x)) response
                             | None => errorMessage (fst (settled x)) (snd (settled x))
                             end) = (fst (settled x) + 1)%Z)
      by (destruct (outcome x); reflexivity).
    cbn [flat_map transcript app map]. rewrite I2.
    cbn [userMessage Message.id].
    split.
    + constructor; [constructor; [exact S|]|].
      * exact A.
      * constructor; [lia|].
        eapply Forall_impl; [|exact A]. cbn beta. intros; lia.
    + constructor; [lia|]. constructor; [lia|].
      eapply Forall_impl; [|exact A]. cbn beta. intros; lia.
Qed.

Lemma sorted_NoDup (l : list Z) : StronglySorted Z.lt l -> NoDup l.
Proof.
  induction 1 as [|a l S IH A]; constructor; auto.
  intros H. rewrite Forall_forall in A. specialize (A _ H). lia.
Qed.

(** Every step leaves the messages already in the log where they are. *)
Lemma log_is_append_only (w w' : World) (ev : Event) :
  step w ev = Some w' ->
  exists added, messages (state w') = messages (state w) ++ added.
Proof.
  destruct ev; simpl; intros H;
    repeat match type of H with
           | match ?c with _ => _ end = _ => destruct c eqn:?; try discriminate
           end;
    inversion H; subst; clear H; cbn [state commit fst];
    try (exists []; rewrite app_nil_r; reflexivity).
  - unfold handleSubmit. destruct (negb _ || _); cbn.
    + exists []. now rewrite app_nil_r.
    + eexists. reflexivity.
  - eexists. reflexivity.
  - eexists. reflexivity.
Qed.

(** C9, as amended.  The log only grows at its end, and the ids in it
    are strictly increasing, hence distinct, provided the clock that
    [Date.now()] reads does not run backwards during an exchange and
    every submit reads it above the id of the reply before: more than
    one millisecond after that reply's reading. *)
Theorem ids_increase_when_paced (floor : Z) (xs : list Exchange) :
  Forall (fun x => JS.trim (question x) <> []) xs ->
  paced floor xs ->
  (exists w,
      run mounted (flat_map exchange xs) = Some w
      /\ StronglySorted Z.lt (map Message.id (messages (state w)))
      /\ NoDup (map Message.id (messages (state w))))
  /\ (forall w w' ev,
        step w ev = Some w' ->
        exists added, messages (state w') = messages (state w) ++ added).
Proof.
  intros Q P. split; [|exact log_is_append_only].
  destruct (exchanges_run xs mounted eq_refl eq_refl Q) as (w & R & M & _).
  simpl in M. exists w. rewrite M.
  destruct (sorted_ids_above floor xs P) as [S _].
  split; [exact R|]. split; [exact S | exact (sorted_NoDup _ S)].
Qed.

Lemma ids_increase_when_paced_witness :
  exists w,
    run mounted
      (flat_map exchange
         [ {| question := JS.lit "What is the revenue?";
              asked := (1000, 1000)%Z;
              outcome := None;
              settled := (1250, 1250)%Z |};
           {| question := JS.lit "And the costs?";
              asked := (5000, 5000)%Z;
              outcome := Some {| Response.answer := JS.lit "Lower.";
                                 Response.sources := Some [];
                                 Response.confidence := None |};
              settled := (5300, 5301)%Z |} ]) = Some w
    /\ NoDup (map Message.id (messages (state w))).
Proof.
  destruct (ids_increase_when_paced 0
              [ {| question := JS.lit "What is the revenue?";
                   asked := (1000, 1000)%Z;
                   outcome := None;
                   settled := (1250, 1250)%Z |};
                {| question := JS.lit "And the costs?";
                   asked := (5000, 5000)%Z;
                   outcome := Some {| Response.answer := JS.lit "Lower.";
                                      Response.sources := Some [];
                                      Response.confidence := None |};
                   settled := (5300, 5301)%Z |} ])
    as [(w & R & _ & D) _].
  - repeat constructor; vm_compute; discriminate.
  - simpl. lia.
  - exists w. split; assumption.
Defined.

(** C9, as stated, fails: a reply that settles in the millisecond of its
    submit gets the id 1001, and so does the next question when it is
    submitted one millisecond later; and when the wall clock is set back
    between two exchanges, the later messages get the smaller ids. *)
Lemma ids_can_collide :
  (exists w,
      run mounted
        (flat_map exchange
           [ {| question := JS.lit "a";
                asked := (1000, 1000)%Z;
                outcome := Some {| Response.answer := JS.lit "b";
                                   Response.sources := None;
                                   Response.confidence := None |};
                settled := (1000, 1000)%Z |};
             {| question := JS.lit "c";
                asked := (1001, 1001)%Z;
                outcome := Some {| Response.answer := JS.lit "d";
                                   Response.sources := None;
                                   Response.confidence := None |};
                settled := (1002, 1002)%Z |} ]) = Some w
      /\ map Message.id (messages (state w)) = [1000; 1001; 1001; 1003]%Z
      /\ ~ NoDup (map Message.id (messages (state w)))
      /\ ~ StronglySorted Z.lt (map Message.id (messages (state w))))
  /\ (exists w,
      run mounted
        (flat_map exchange
           [ {| question := JS.lit "a";
                asked := (60000, 60000)%Z;
                outcome := Some {| Response.answer := JS.lit "b";
                                   Response.sources := None;
                                   Response.confidence := None |};
                settled := (61000, 61000)%Z |};
             {| question := JS.lit "c";
                asked := (30000, 30000)%Z;
                outcome := Some {| Response.answer := JS.lit "d";
                                   Response.sources := None;
                                   Response.confidence := None |};
                settled := (31000, 31000)%Z |} ]) = Some w
      /\ map Message.id (messages (state w)) = [60000; 61001; 30000; 31001]%Z
      /\ ~ StronglySorted Z.lt (map Message.id (messages (state w)))).
Proof.
  assert (D : ~ NoDup [1000; 1001; 1001; 1003]%Z).
  { intros H. inversion H as [|? ? _ H1]; subst.
    inversion H1 as [|? ? N _]; subst. apply N. now left. }
  split.
  - eexists. split; [vm_compute; reflexivity|].
    split; [reflexivity|]. split; [exact D|].
    intros S. apply D. exact (sorted_NoDup _ S).
  - eexists. split; [vm_compute; reflexivity|].
    split; [reflexivity|].
    intros S. inversion S as [|? ? _ A]; subst.
    inversion A as [|? ? _ A1]; subst.
    inversion A1 as [|? ? H _]; subst. lia.
Qed.

(** *** The document scope *)





End ChatSession.

(* ===================================================================== *)
(** ** The summary coordinator                                            *)
(* ===================================================================== *)

Section SummaryCoordinator.

Import DocumentSummaryModal.

(** C3, at the failing input.  The modal is opened for [docA] and
    closed while the request is in flight: the reset makes the record
    absent.  When the request then completes, its result is stored all
    the same: the record is [ready] (or [failed]) although the modal is
    closed, and opening the modal for [docB] shows [docA]'s summary
    without asking for [docB]'s. *)
Theorem late_summary_survives_close (docA docB : Chat.Document.t)
    (payload : Summary.t) :
  exists w0 w w' v,
    run mounted [Open docA; Close] = Some w0
    /\ record (state w0) = absent
    /\ in_flight w0 = [Chat.Document.document_id docA]
    /\ run w0 [Fulfilled 0 (Some payload)] = Some w
    /\ isOpen (props w) = false
    /\ record (state w) = ready payload
    /\ run w [Open docB] = Some w'
    /\ document (props w') = Some docB
    /\ record (state w') = ready payload
    /\ calls w' = 1
    /\ run w0 [Rejected 0] = Some v
    /\ record (state v) = failed errorText.
Proof.
  do 4 eexists. cbn. repeat split; reflexivity.
Qed.

(** *** Triggers while loading *)

Lemma clickable_not_loading (b : Button) (p : Props) (s : State) :
  clickable b p s = true -> loading s = false /\ document p <> None.
Proof.
  unfold clickable.
  destruct (isOpen p), (document p), b, (loading s), (error s), (summaryData s);
    simpl; intros H; try discriminate; split; congruence.
Qed.

Lemma click_while_loading (w : World) (b : Button) :
  loading (state w) = true -> step w (Click b) = Some w.
Proof.
  intros L. simpl.
  destruct (clickable b (props w) (state w)) eqn:C; [|reflexivity].
  apply clickable_not_loading in C. destruct C. congruence.
Qed.

Lemma autoGenerate_while_loading (p : Props) (s : State) :
  loading s = true -> autoGenerate p s = (s, []).
Proof.
  intros L. unfold autoGenerate. rewrite L.
  now destruct (isOpen p), (document p), (summaryData s).
Qed.

Lemma clicks_while_loading (bs : list Button) (w : World) :
  loading (state w) = true -> run w (map Click bs) = Some w.
Proof.
  intros L. induction bs as [|b bs IH]; [reflexivity|].
  cbn [map run]. now rewrite click_while_loading.
Qed.

(** *** One request at a time, while the modal is not dismissed *)

Lemma step_settled_or_single (w w' : World) (ev : Event) :
  settled_or_single w ->
  step w ev = Some w' ->
  undisturbed w [ev] = true ->
  settled_or_single w'.
Proof.
  destruct w as [p s fl em]. unfold settled_or_single.
  cbn [state in_flight]. intros I S U.
  destruct ev; cbn [step props state in_flight] in S.
  - (* Open *)
    inversion S; subst; clear S. cbn [commit state in_flight fst snd].
    destruct I as [[L [d F]]|[L F]]; subst fl.
    + rewrite autoGenerate_while_loading by exact L.
      left. split; [exact L|]. now exists d.
    + unfold autoGenerate, generateSummary. cbn [isOpen document]. rewrite L.
      destruct (summaryData s).
      * right. split; [exact L | reflexivity].
      * left. split; [reflexivity|]. eexists. reflexivity.
  - (* Close *)
    destruct (isOpen p); [|discriminate].
    inversion S; subst; clear S.
    cbn [undisturbed in_flight] in U. destruct fl; [|discriminate].
    right. split; reflexivity.
  - (* Click *)
    destruct (clickable b p s) eqn:C; [|inversion S; subst; exact I].
    apply clickable_not_loading in C. destruct C as [L D].
    inversion S; subst; clear S. cbn [commit state in_flight fst snd].
    destruct I as [[L' _]|[_ F]]; [congruence|]. subst fl.
    unfold generateSummary.
    destruct (document p) as [doc|]; [|congruence].
    left. split; [reflexivity|]. eexists. reflexivity.
  - (* Fulfilled *)
    destruct (nth_error fl index) eqn:N; [|discriminate].
    inversion S; subst; clear S. cbn [commit state in_flight fst snd].
    destruct I as [[_ [d F]]|[_ F]]; subst fl.
    + destruct index as [|[|?]]; try discriminate.
      right. split; reflexivity.
    + now destruct index.
  - (* Rejected *)
    destruct (nth_error fl index) eqn:N; [|discriminate].
    inversion S; subst; clear S. cbn [commit state in_flight fst snd].
    destruct I as [[_ [d F]]|[_ F]]; subst fl.
    + destruct index as [|[|?]]; try discriminate.
      right. split; reflexivity.
    + now destruct index.
Qed.

Lemma undisturbed_cons (w w1 : World) (ev : Event) (evs : list Event) :
  step w ev = Some w1 ->
  undisturbed w (ev :: evs) = true ->
  undisturbed w [ev] = true /\ undisturbed w1 evs = true.
Proof.
  intros S. cbn [undisturbed]. rewrite S.
  destruct ev, (in_flight w); intros U; try discriminate; auto.
Qed.

Lemma run_settled_or_single (evs : list Event) (w w' : World) :
  settled_or_single w ->
  run w evs = Some w' ->
  undisturbed w evs = true ->
  settled_or_single w'.
Proof.
  revert w. induction evs as [|ev evs IH]; intros w I R U.
  - now inversion R; subst.
  - cbn [run] in R. destruct (step w ev) as [w1|] eqn:S; [|discriminate].
    destruct (undisturbed_cons w w1 ev evs S U) as [U1 U2].
    apply (IH w1); auto. eapply step_settled_or_single; eauto.
Qed.

(** C4, as amended.  While [loading] is set every trigger of
    [generateSummary] is idle: a click on Try Again, Generate or
    Regenerate changes nothing, and the effect that runs when the modal
    opens sends nothing; so opening the modal and clicking any number of
    times makes exactly one network call.  In every run in which the
    modal is not dismissed while a request is in flight, at most one
    request is in flight, and exactly when [loading] is set. *)
Theorem one_request_while_loading (evs : list Event) (w : World) :
  run mounted evs = Some w ->
  undisturbed mounted evs = true ->
  (List.length (in_flight w) <= 1
   /\ (loading (state w) = true <-> in_flight w <> []))
  /\ (forall v b, loading (state v) = true -> step v (Click b) = Some v)
  /\ (forall p s, loading s = true -> autoGenerate p s = (s, []))
  /\ (forall doc bs,
        exists v,
          run mounted (Open doc :: map Click bs) = Some v
          /\ calls v = 1
          /\ in_flight v = [Chat.Document.document_id doc]).
Proof.
  intros R U.
  split; [|split; [exact click_while_loading|
           split; [exact autoGenerate_while_loading|]]].
  - assert (I : settled_or_single w).
    { apply (run_settled_or_single evs mounted w); auto.
      right. split; reflexivity. }
    destruct I as [[L [d F]]|[L F]]; rewrite L, F; simpl;
      split; try lia; split; congruence.
  - intros doc bs. eexists. cbn [run step mounted props isOpen].
    cbn [autoGenerate isOpen document state initial summaryData loading].
    rewrite clicks_while_loading by reflexivity.
    split; [reflexivity|]. split; reflexivity.
Qed.

Lemma one_request_while_loading_witness :
  exists w,
    run mounted
      [ Open {| Chat.Document.document_id := JS.lit "doc-123";
                Chat.Document.filename := JS.lit "report.pdf" |};
        Click Regenerate;
        Fulfilled 0 None;
        Click Generate ] = Some w
    /\ List.length (in_flight w) <= 1.
Proof.
  destruct (run mounted
              [ Open {| Chat.Document.document_id := JS.lit "doc-123";
                        Chat.Document.filename := JS.lit "report.pdf" |};
                Click Regenerate;
                Fulfilled 0 None;
                Click Generate ]) as [w|] eqn:R;
    [|vm_compute in R; discriminate R].
  exists w. split; [reflexivity|].
  exact (proj1 (proj1 (one_request_while_loading _ w R
                         ltac:(vm_compute; reflexivity)))).
Defined.

(** C4, as stated, fails: dismissing the modal clears [loading] but not
    the request, so opening the modal again for the same document sends
    a second request while the first is still in flight. *)
Lemma reopen_sends_second_request :
  exists w,
    run mounted
      [ Open {| Chat.Document.document_id := JS.lit "doc-123";
                Chat.Document.filename := JS.lit "report.pdf" |};
        Close;
        Open {| Chat.Document.document_id := JS.lit "doc-123";
                Chat.Document.filename := JS.lit "report.pdf" |} ] = Some w
    /\ in_flight w = [JS.lit "doc-123"; JS.lit "doc-123"]
    /\ calls w = 2
    /\ ~ List.length (in_flight w) <= 1.
Proof.
  eexists. split; [vm_compute; reflexivity|].
  split; [reflexivity|]. split; [reflexivity|]. simpl. lia.
Qed.

End SummaryCoordinator.

(* ===================================================================== *)
(** ** Strings: equality, membership, trimming                            *)
(* ===================================================================== *)

Section Strings.

Lemma str_eqb_eq (a b : JS.str) : JSLib.str_eqb a b = true <-> a = b.
Proof.
  revert b. induction a as [|x a IH]; intros [|y b]; simpl;
    try (split; congruence).
  rewrite andb_true_iff, N.eqb_eq, IH. split.
  - intros [-> ->]. reflexivity.
  - intros H. inversion H. auto.
Qed.

Lemma str_eqb_refl (a : JS.str) : JSLib.str_eqb a a = true.
Proof. now apply str_eqb_eq. Qed.

Lemma str_eqb_neq (a b : JS.str) : JSLib.str_eqb a b = false <-> a <> b.
Proof.
  rewrite <- str_eqb_eq. destruct (JSLib.str_eqb a b); split; congruence.
Qed.

Lemma array_includes_In (l : list JS.str) (x : JS.str) :
  JSLib.array_includes l x = true <-> In x l.
Proof.
  unfold JSLib.array_includes. rewrite existsb_exists. split.
  - intros (y & H & E). apply str_eqb_eq in E. now subst.
  - intros H. exists x. split; [exact H | apply str_eqb_refl].
Qed.

Lemma array_includes_not_In (l : list JS.str) (x : JS.str) :
  JSLib.array_includes l x = false <-> ~ In x l.
Proof.
  rewrite <- array_includes_In.
  destruct (JSLib.array_includes l x); split; congruence.
Qed.

Lemma includes_empty (hay : JS.str) : JSLib.includes hay [] = true.
Proof. now destruct hay. Qed.

Let white (c : JS.char) : Prop := JS.is_white c = true.

Lemma trimStart_split (s : JS.str) :
  exists pre,
    s = pre ++ JS.trimStart s
    /\ Forall white pre
    /\ (forall c rest, JS.trimStart s = c :: rest -> JS.is_white c = false).
Proof.
  induction s as [|c s (pre & E & W & H)]; simpl.
  - exists []. repeat split; [constructor | discriminate].
  - destruct (JS.is_white c) eqn:C.
    + exists (c :: pre). simpl. rewrite <- E. repeat split; auto.
    + exists []. repeat split; [constructor|].
      intros c' rest Eq. inversion Eq; subst. exact C.
Qed.

(** [trim] cuts a run of white space off each end and nothing else. *)
Lemma trim_split (s : JS.str) :
  exists pre post,
    s = pre ++ JS.trim s ++ post
    /\ Forall white pre /\ Forall white post
    /\ (forall c rest, JS.trim s = c :: rest -> JS.is_white c = false)
    /\ (forall c rest, JS.trim s = rest ++ [c] -> JS.is_white c = false).
Proof.
  destruct (trimStart_split s) as (pre & E & W & H).
  destruct (trimStart_split (rev (JS.trimStart s))) as (post & E' & W' & H').
  unfold JS.trim, JS.trimEnd.
  set (t := JS.trimStart s) in *. set (u := JS.trimStart (rev t)) in *.
  assert (T : t = rev u ++ rev post).
  { rewrite <- rev_app_distr, <- E'. symmetry. apply rev_involutive. }
  exists pre, (rev post). split; [rewrite <- T; exact E|].
  split; [exact W|]. split; [apply Forall_rev; exact W'|]. split.
  - intros c rest R. apply (H c (rest ++ rev post)). rewrite T, R. reflexivity.
  - intros c rest R. apply (H' c (rev rest)).
    rewrite <- (rev_involutive u), R, rev_app_distr. reflexivity.
Qed.

Lemma trimStart_white (s : JS.str) :
  JS.trimStart s = [] <-> Forall white s.
Proof.
  induction s as [|c s IH]; simpl.
  - split; [constructor | reflexivity].
  - destruct (JS.is_white c) eqn:C.
    + rewrite IH. split; [now constructor|]. intros F. now inversion F.
    + split; [discriminate|]. intros F. inversion F; subst.
      unfold white in *. congruence.
Qed.

Lemma trim_empty_iff_white (s : JS.str) :
  JS.trim s = [] <-> Forall white s.
Proof.
  split.
  - intros T. destruct (trim_split s) as (pre & post & E & W & W' & _).
    rewrite T in E. rewrite E. apply Forall_app. auto.
  - intros F. apply trimStart_white in F.
    unfold JS.trim, JS.trimEnd. now rewrite F.
Qed.

End Strings.

(* ===================================================================== *)
(** ** More about the chat session                                        *)
(* ===================================================================== *)

Section ChatMore.

Import Chat.

(** X1.  The question sent, which is also the text of the user message,
    is the input without the white space at its two ends: it neither
    begins nor ends with a white-space character and the rest of the
    input around it is white space only.  An input of white space only
    is never sent, and no request has an empty [query]. *)
Theorem question_is_trimmed_input (now date : Z) (s : State) :
  (exists pre post,
      input s = pre ++ JS.trim (input s) ++ post
      /\ Forall (fun c => JS.is_white c = true) pre
      /\ Forall (fun c => JS.is_white c = true) post)
  /\ (forall c rest, JS.trim (input s) = c :: rest -> JS.is_white c = false)
  /\ (forall c rest, JS.trim (input s) = rest ++ [c] -> JS.is_white c = false)
  /\ Message.content (userMessage now date (input s)) = JS.trim (input s)
  /\ (Forall (fun c => JS.is_white c = true) (input s) ->
      handleSubmit now date s = (s, []))
  /\ (forall body,
        In (post_query body) (snd (handleSubmit now date s)) ->
        Request.query body = JS.trim (input s) /\ Request.query body <> []).
Proof.
  destruct (trim_split (input s)) as (pre & post & E & W & W' & H & H').
  split; [exists pre, post; auto|]. split; [exact H|]. split; [exact H'|].
  split; [reflexivity|]. split.
  - intros F. apply trim_empty_iff_white in F.
    unfold handleSubmit. now rewrite F.
  - intros body I. unfold handleSubmit in I.
    destruct (negb _ || loading s) eqn:G; simpl in I; [contradiction|].
    destruct I as [I|[]]. inversion I; subst.
    apply handleSubmit_guard in G. destruct G as [Q _].
    unfold queryService.queryDocuments.
    destruct (JS.truthy _); simpl; auto.
Qed.

Lemma question_is_trimmed_input_witness :
  handleSubmit 1000 1000 (setInput (JS.lit "   ") initial)
  = (setInput (JS.lit "   ") initial, []).
Proof.
  apply (proj1 (proj2 (proj2 (proj2 (proj2
           (question_is_trimmed_input 1000 1000
              (setInput (JS.lit "   ") initial))))))).
  repeat constructor.
Defined.

(** X2.  Each exchange adds exactly two turns to the history of the
    next request: the question as asked (trimmed) in the role user,
    then, in the role assistant, the answer, or the apology text when
    the query had failed. *)
Theorem history_grows_by_two_turns (xs : list Exchange) (x y : Exchange) :
  Forall (fun x => JS.trim (question x) <> []) xs ->
  JS.trim (question x) <> [] ->
  JS.trim (question y) <> [] ->
  exists w1 w2 w3 body1 rest1 body2 rest2,
    run mounted (flat_map exchange xs) = Some w1
    /\ run w1 (exchange x) = Some w2
    /\ run w2 (exchange y) = Some w3
    /\ emitted w2 = emitted w1 ++ post_query body1 :: rest1
    /\ emitted w3 = emitted w2 ++ post_query body2 :: rest2
    /\ Request.conversation_history body2
       = Request.conversation_history body1
         ++ [ {| Turn.role := role_user;
                 Turn.content := JS.trim (question x) |};
              {| Turn.role := role_assistant;
                 Turn.content :=
                   match outcome x with
                   | Some response => Response.answer response
                   | None => errorText
                   end |} ].
Proof.
  intros Q Qx Qy.
  destruct (exchanges_run xs mounted eq_refl eq_refl Q) as (w1 & R1 & M1 & L1 & F1).
  destruct (exchange_runs x w1 L1 F1 Qx) as (w2 & R2 & M2 & L2 & F2 & _ & _ & E2).
  destruct (exchange_runs y w2 L2 F2 Qy) as (w3 & R3 & _ & _ & _ & _ & _ & E3).
  do 7 eexists. split; [exact R1|]. split; [exact R2|]. split; [exact R3|].
  split; [exact E2|]. split; [exact E3|].
  assert (H : forall q h d,
             Request.conversation_history
               (queryService.queryDocuments q (Some h) d) = h).
  { intros q h d. unfold queryService.queryDocuments.
    destruct (JS.truthy _); reflexivity. }
  rewrite !H, M2, map_app. f_equal.
  unfold transcript. destruct (outcome x); reflexivity.
Qed.

Lemma history_grows_by_two_turns_witness :
  exists w,
    run mounted
      (flat_map exchange
         [ {| question := JS.lit "What is the revenue?";
              asked := (1000, 1000)%Z; outcome := None;
              settled := (1250, 1250)%Z |};
           {| question := JS.lit "And the costs?";
              asked := (5000, 5000)%Z; outcome := None;
              settled := (5300, 5300)%Z |} ]) = Some w.
Proof.
  destruct (history_grows_by_two_turns []
              {| question := JS.lit "What is the revenue?";
                 asked := (1000, 1000)%Z; outcome := None;
                 settled := (1250, 1250)%Z |}
              {| question := JS.lit "And the costs?";
                 asked := (5000, 5000)%Z; outcome := None;
                 settled := (5300, 5300)%Z |})
    as (w1 & w2 & w3 & b1 & r1 & b2 & r2 & R1 & R2 & R3 & _);
    [constructor | vm_compute; discriminate | vm_compute; discriminate |].
  exists w3. simpl in R1. inversion R1; subst.
  cbn [flat_map]. rewrite run_app, R2. rewrite app_nil_r. exact R3.
Defined.

End ChatMore.

Section ChatViewFacts.

Import Chat.

(** X3.  The colour of the confidence badge always goes with its text:
    green with High, yellow with Medium, red with Low, for every
    confidence, [NaN] and a missing one included. *)
Theorem badge_colour_matches_text (confidence : option float) :
  (getConfidenceText confidence = JS.lit "High"
   <-> ChatView.getConfidenceColor confidence = JS.lit "text-green-600 bg-green-50")
  /\ (getConfidenceText confidence = JS.lit "Medium"
      <-> ChatView.getConfidenceColor confidence = JS.lit "text-yellow-600 bg-yellow-50")
  /\ (getConfidenceText confidence = JS.lit "Low"
      <-> ChatView.getConfidenceColor confidence = JS.lit "text-red-600 bg-red-50").
Proof.
  unfold getConfidenceText, ChatView.getConfidenceColor.
  destruct (JS.ge (JS.ToNumber confidence) 0.8);
    [|destruct (JS.ge (JS.ToNumber confidence) 0.6)];
    repeat split; intros H; try reflexivity; vm_compute in H; discriminate H.
Qed.

Lemma find_by_id (docs : list Document.t) (index : nat) (doc : Document.t) :
  NoDup (map Document.document_id docs) ->
  nth_error docs index = Some doc ->
  find (fun d => JSLib.str_eqb (Document.document_id d) (Document.document_id doc))
       docs = Some doc.
Proof.
  revert index. induction docs as [|d docs IH]; intros [|index] N H;
    simpl in H; try discriminate.
  - inversion H; subst. simpl. now rewrite str_eqb_refl.
  - simpl. inversion N as [|? ? Nd N']; subst.
    destruct (JSLib.str_eqb _ _) eqn:E.
    + apply str_eqb_eq in E. exfalso. apply Nd. rewrite E.
      apply in_map. eapply nth_error_In. eassumption.
    + eapply IH; eauto.
Qed.

Lemma find_none (docs : list Document.t) (id : JS.str) :
  ~ In id (map Document.document_id docs) ->
  find (fun d => JSLib.str_eqb (Document.document_id d) id) docs = None.
Proof.
  induction docs as [|d docs IH]; simpl; intros H; [reflexivity|].
  destruct (JSLib.str_eqb _ _) eqn:E.
  - apply str_eqb_eq in E. tauto.
  - apply IH. tauto.
Qed.

(** X4.  After an entry of the dropdown is picked, in a list whose ids
    are distinct, the dropdown is closed and the button shows the
    filename of the entry picked when the id and the filename are not
    empty, and the Summary button opens the modal for that very
    document.  A scope that is not an id of the list shows
    "Select document" and makes the Summary button do nothing. *)
Theorem scope_label_after_pick (w w' : World) (index : nat) (doc : Document.t) :
  NoDup (map Document.document_id (documents (state w))) ->
  nth_error (documents (state w)) index = Some doc ->
  Document.document_id doc <> [] ->
  Document.filename doc <> [] ->
  step w (Pick index) = Some w' ->
  (showDocumentDropdown (state w') = false
   /\ ChatView.scopeLabel (state w') = Document.filename doc
   /\ ChatView.summaryButton (state w') = Some doc)
  /\ (forall s,
        selectedDocument s <> [] ->
        ~ In (selectedDocument s) (map Document.document_id (documents s)) ->
        ChatView.scopeLabel s = JS.lit "Select document"
        /\ ChatView.summaryButton s = None)
  /\ (forall s,
        selectedDocument s = [] ->
        ChatView.scopeLabel s = JS.lit "All documents"
        /\ ChatView.summaryButton s = None).
Proof.
  intros N H I F S. split; [|split].
  - simpl in S. destruct (showDocumentDropdown (state w)); [|discriminate].
    rewrite H in S. inversion S; subst; clear S.
    unfold ChatView.scopeLabel, ChatView.summaryButton, ChatView.findSelected.
    cbn [state commit fst pickDocument setShowDocumentDropdown
         setSelectedDocument selectedDocument documents showDocumentDropdown].
    rewrite (find_by_id _ index doc N H).
    apply truthy_String in I. apply truthy_String in F. rewrite I, F. auto.
  - intros s Sel NI.
    unfold ChatView.scopeLabel, ChatView.summaryButton, ChatView.findSelected.
    rewrite (find_none _ _ NI).
    apply truthy_String in Sel. rewrite Sel. auto.
  - intros s Sel.
    unfold ChatView.scopeLabel, ChatView.summaryButton. rewrite Sel. auto.
Qed.

Lemma scope_label_after_pick_witness :
  exists w',
    step (commit mounted []
            (setShowDocumentDropdown true
               (setDocuments
                  [ {| Document.document_id := JS.lit "doc-123";
                       Document.filename := JS.lit "report.pdf" |} ] initial),
             []))
         (Pick 0) = Some w'
    /\ ChatView.scopeLabel (state w') = JS.lit "report.pdf".
Proof.
  eexists. split; [reflexivity|].
  eapply (proj1 (scope_label_after_pick
            (commit mounted []
               (setShowDocumentDropdown true
                  (setDocuments
                     [ {| Document.document_id := JS.lit "doc-123";
                          Document.filename := JS.lit "report.pdf" |} ] initial),
                []))
            _ 0
            {| Document.document_id := JS.lit "doc-123";
               Document.filename := JS.lit "report.pdf" |}
            ltac:(repeat constructor; simpl; tauto)
            eq_refl
            ltac:(vm_compute; discriminate)
            ltac:(vm_compute; discriminate)
            eq_refl)).
Defined.

(** X5.  The document the Summary button of the chat hands to the modal
    always has the selected id, and the modal, opened with it from its
    initial state, sends exactly one summarize request, for the selected
    document. *)
Theorem summary_button_requests_selected (s : State) (doc : Document.t) :
  ChatView.summaryButton s = Some doc ->
  Document.document_id doc = selectedDocument s
  /\ In doc (documents s)
  /\ exists v,
       DocumentSummaryModal.step DocumentSummaryModal.mounted
         (DocumentSummaryModal.Open doc) = Some v
       /\ DocumentSummaryModal.in_flight v = [selectedDocument s]
       /\ DocumentSummaryModal.calls v = 1
       /\ DocumentSummaryModal.document (DocumentSummaryModal.props v) = Some doc.
Proof.
  unfold ChatView.summaryButton, ChatView.findSelected.
  destruct (JS.truthy _); [|discriminate]. intros H.
  apply find_some in H. destruct H as [I E]. apply str_eqb_eq in E.
  split; [exact E|]. split; [exact I|].
  eexists. split; [reflexivity|]. rewrite <- E. repeat split.
Qed.

Lemma summary_button_requests_selected_witness :
  Document.document_id
    {| Document.document_id := JS.lit "doc-123";
       Document.filename := JS.lit "report.pdf" |} = JS.lit "doc-123".
Proof.
  exact (proj1 (summary_button_requests_selected
           (setSelectedDocument (JS.lit "doc-123")
              (setDocuments
                 [ {| Document.document_id := JS.lit "doc-123";
                      Document.filename := JS.lit "report.pdf" |} ] initial))
           {| Document.document_id := JS.lit "doc-123";
              Document.filename := JS.lit "report.pdf" |}
           eq_refl)).
Defined.

End ChatViewFacts.

(* ===================================================================== *)
(** ** More about the summary modal                                       *)
(* ===================================================================== *)

Section SummaryMore.

Import DocumentSummaryModal.

Lemma step_orderly (w w' : World) (ev : Event) :
  SummaryRuns.orderly w ->
  step w ev = Some w' ->
  undisturbed w [ev] = true ->
  SummaryRuns.orderly w'.
Proof.
  intros (I & C) S U.
  split; [eapply step_settled_or_single; eauto|].
  destruct w as [[dc io] s fl em].
  cbn [props state in_flight isOpen document] in *.
  destruct ev; cbn [step props state in_flight isOpen document] in S.
  - (* Open *)
    inversion S; subst; clear S. cbn. discriminate.
  - (* Close *)
    destruct io; [|discriminate].
    inversion S; subst; clear S.
    cbn [undisturbed in_flight] in U. destruct fl; [|discriminate].
    cbn. intros _; split; reflexivity.
  - (* Click *)
    destruct (clickable b _ s) eqn:K; [|inversion S; subst; assumption].
    unfold clickable in K. cbn [isOpen document] in K.
    destruct io; [|discriminate].
    inversion S; subst; clear S. cbn. discriminate.
  - (* Fulfilled *)
    destruct (nth_error fl index) eqn:N; [|discriminate].
    inversion S; subst; clear S.
    destruct io; [cbn; discriminate|].
    destruct (C eq_refl) as [_ ->]. now destruct index.
  - (* Rejected *)
    destruct (nth_error fl index) eqn:N; [|discriminate].
    inversion S; subst; clear S.
    destruct io; [cbn; discriminate|].
    destruct (C eq_refl) as [_ ->]. now destruct index.
Qed.

Lemma run_orderly (evs : list Event) (w w' : World) :
  SummaryRuns.orderly w ->
  run w evs = Some w' ->
  undisturbed w evs = true ->
  SummaryRuns.orderly w'.
Proof.
  revert w. induction evs as [|ev evs IH]; intros w I R U.
  - now inversion R; subst.
  - cbn [run] in R. destruct (step w ev) as [w1|] eqn:S; [|discriminate].
    destruct (undisturbed_cons w w1 ev evs S U) as [U1 U2].
    apply (IH w1); auto. eapply step_orderly; eauto.
Qed.

Lemma mounted_orderly : SummaryRuns.orderly mounted.
Proof.
  split; [right; split; reflexivity|].
  intros _; split; reflexivity.
Qed.

Lemma calls_commit (w : World) (p : Props) (fl : list JS.str)
    (r : State * list Effect) :
  calls (commit w p fl r) = calls w + List.length (requests (snd r)).
Proof.
  unfold calls, commit, requests. cbn [emitted].
  now rewrite flat_map_app, length_app.
Qed.

(** X6.  In a run that never dismisses the modal while a request is in
    flight, every opening of the modal sends exactly one summarize
    request, for the document opened: a summary is not kept from one
    opening to the next. *)
Theorem every_opening_requests_once (evs : list Event) (w : World)
    (doc : Chat.Document.t) :
  run mounted evs = Some w ->
  undisturbed mounted evs = true ->
  isOpen (props w) = false ->
  exists v,
    step w (Open doc) = Some v
    /\ calls v = S (calls w)
    /\ in_flight v = [Chat.Document.document_id doc]
    /\ record (state v) = pending.
Proof.
  intros R U O.
  destruct (run_orderly evs mounted w mounted_orderly R U) as (_ & C).
  destruct (C O) as [S F].
  eexists. cbn [step]. split; [reflexivity|].
  rewrite calls_commit, S, F. cbn. split; [lia|]. split; reflexivity.
Qed.

Lemma every_opening_requests_once_witness :
  exists v,
    run mounted
      [ Open {| Chat.Document.document_id := JS.lit "doc-1";
                Chat.Document.filename := JS.lit "a.pdf" |};
        Fulfilled 0 None;
        Close;
        Open {| Chat.Document.document_id := JS.lit "doc-2";
                Chat.Document.filename := JS.lit "b.pdf" |} ] = Some v
    /\ in_flight v = [JS.lit "doc-2"].
Proof.
  destruct (every_opening_requests_once
              [ Open {| Chat.Document.document_id := JS.lit "doc-1";
                        Chat.Document.filename := JS.lit "a.pdf" |};
                Fulfilled 0 None;
                Close ]
              _
              {| Chat.Document.document_id := JS.lit "doc-2";
                 Chat.Document.filename := JS.lit "b.pdf" |}
              eq_refl eq_refl eq_refl) as (v & S & _ & F & _).
  exists v. split; [|exact F].
  cbn [run]. cbn [run] in S. exact S.
Defined.

(** *** What is in flight, and for which document *)

Lemma steady_cons (w w1 : World) (ev : Event) (evs : list Event) :
  step w ev = Some w1 ->
  steady w (ev :: evs) = true ->
  steady w [ev] = true /\ steady w1 evs = true.
Proof.
  intros S. cbn [steady]. rewrite S.
  destruct ev, (in_flight w); intros U; try discriminate; auto.
Qed.

Lemma steady_undisturbed (evs : list Event) (w : World) :
  steady w evs = true -> undisturbed w evs = true.
Proof.
  revert w. induction evs as [|ev evs IH]; intros w U; [reflexivity|].
  cbn [steady undisturbed] in *.
  destruct ev, (in_flight w); try discriminate U;
    match type of U with
    | context [step w ?e] => destruct (step w e); auto
    end.
Qed.

Lemma step_for_displayed (w w' : World) (ev : Event) :
  settled_or_single w ->
  SummaryRuns.for_displayed w ->
  step w ev = Some w' ->
  steady w [ev] = true ->
  SummaryRuns.for_displayed w'.
Proof.
  unfold SummaryRuns.for_displayed. intros I D S U.
  destruct w as [[dc io] s fl em].
  cbn [props state in_flight isOpen document] in *.
  destruct ev; cbn [step props state in_flight isOpen document] in S.
  - (* Open *)
    cbn [steady in_flight] in U. destruct fl; [|discriminate].
    inversion S; subst; clear S. cbn [commit props in_flight fst snd app].
    unfold autoGenerate, generateSummary. cbn [isOpen document].
    destruct (summaryData s), (loading s); cbn; try constructor.
    + split; [reflexivity|]. now exists doc.
    + constructor.
  - (* Close *)
    destruct io; [|discriminate].
    cbn [steady in_flight] in U. destruct fl; [|discriminate].
    inversion S; subst; clear S. cbn. constructor.
  - (* Click *)
    destruct (clickable b _ s) eqn:K; [|inversion S; subst; assumption].
    pose proof K as K'. apply clickable_not_loading in K'. destruct K' as [L _].
    unfold clickable in K. cbn [isOpen document] in K.
    destruct io; [|discriminate].
    destruct dc as [doc|]; [|discriminate].
    inversion S; subst; clear S.
    destruct I as [[L' _]|[_ F]]; [cbn in L'; congruence|].
    cbn in F. subst fl. cbn.
    constructor; [|constructor]. split; [reflexivity|]. now exists doc.
  - (* Fulfilled *)
    destruct (nth_error fl index) eqn:N; [|discriminate].
    inversion S; subst; clear S.
    destruct I as [[_ [d F]]|[_ F]]; cbn in F; subst fl;
      [|now destruct index].
    destruct index as [|[|?]]; try discriminate. cbn. constructor.
  - (* Rejected *)
    destruct (nth_error fl index) eqn:N; [|discriminate].
    inversion S; subst; clear S.
    destruct I as [[_ [d F]]|[_ F]]; cbn in F; subst fl;
      [|now destruct index].
    destruct index as [|[|?]]; try discriminate. cbn. constructor.
Qed.

Lemma run_for_displayed (evs : list Event) (w w' : World) :
  settled_or_single w ->
  SummaryRuns.for_displayed w ->
  run w evs = Some w' ->
  steady w evs = true ->
  SummaryRuns.for_displayed w'.
Proof.
  revert w. induction evs as [|ev evs IH]; intros w I D R U.
  - now inversion R; subst.
  - cbn [run] in R. destruct (step w ev) as [w1|] eqn:S; [|discriminate].
    destruct (steady_cons w w1 ev evs S U) as [U1 U2].
    apply (IH w1); auto.
    + eapply step_settled_or_single; eauto.
      exact (steady_undisturbed [ev] w U1).
    + eapply step_for_displayed; eauto.
Qed.

(** X7.  In a run in which the modal is neither dismissed nor handed a
    document while a summarize request is in flight, whatever is in
    flight was requested for the document the open modal displays. *)
Theorem in_flight_is_for_displayed (evs : list Event) (w : World) (d : JS.str) :
  run mounted evs = Some w ->
  steady mounted evs = true ->
  In d (in_flight w) ->
  isOpen (props w) = true
  /\ exists doc,
       document (props w) = Some doc
       /\ Chat.Document.document_id doc = d.
Proof.
  intros R U I.
  assert (D : SummaryRuns.for_displayed w).
  { apply (run_for_displayed evs mounted w); auto.
    - right. split; reflexivity.
    - constructor. }
  unfold SummaryRuns.for_displayed in D.
  rewrite Forall_forall in D. exact (D d I).
Qed.

Lemma in_flight_is_for_displayed_witness :
  exists w,
    run mounted
      [ Open {| Chat.Document.document_id := JS.lit "doc-1";
                Chat.Document.filename := JS.lit "a.pdf" |};
        Rejected 0;
        Open {| Chat.Document.document_id := JS.lit "doc-2";
                Chat.Document.filename := JS.lit "b.pdf" |} ] = Some w
    /\ isOpen (props w) = true
    /\ exists doc,
         document (props w) = Some doc
         /\ Chat.Document.document_id doc = JS.lit "doc-2".
Proof.
  eexists. split; [reflexivity|].
  exact (in_flight_is_for_displayed
           [ Open {| Chat.Document.document_id := JS.lit "doc-1";
                     Chat.Document.filename := JS.lit "a.pdf" |};
             Rejected 0;
             Open {| Chat.Document.document_id := JS.lit "doc-2";
                     Chat.Document.filename := JS.lit "b.pdf" |} ]
           _ (JS.lit "doc-2") eq_refl eq_refl
           (or_introl eq_refl)).
Defined.

(** X26.  Handing the modal another document while it loads, or while
    it holds a summary, sends no request: the state is left as it is
    under the new document.  When a request made before then succeeds,
    its summary is stored and shown under the new document, for which
    nothing was requested; such a run starts with opening the modal for
    [docA] and switching it to [doc] before the answer is there. *)
Theorem document_switch_requests_nothing (w : World) (doc : Chat.Document.t) :
  loading (state w) = true \/ summaryData (state w) <> None ->
  (exists v,
      step w (Open doc) = Some v
      /\ props v = {| document := Some doc; isOpen := true |}
      /\ state v = state w
      /\ in_flight v = in_flight w
      /\ calls v = calls w
      /\ (forall index payload,
            index < List.length (in_flight w) ->
            exists u,
              step v (Fulfilled index (Some payload)) = Some u
              /\ props u = {| document := Some doc; isOpen := true |}
              /\ summaryData (state u) = Some payload
              /\ loading (state u) = false
              /\ (error (state w) = None -> record (state u) = ready payload)
              /\ calls u = calls w))
  /\ (forall docA payload,
        exists u,
          run mounted [Open docA; Open doc; Fulfilled 0 (Some payload)] = Some u
          /\ props u = {| document := Some doc; isOpen := true |}
          /\ record (state u) = ready payload
          /\ requests (emitted u) = [Chat.Document.document_id docA]).
Proof.
  intros H. split.
  - assert (E : autoGenerate {| document := Some doc; isOpen := true |} (state w)
                = (state w, [])).
    { unfold autoGenerate. cbn [isOpen document].
      destruct H as [L|D]; [rewrite L; now destruct (summaryData (state w))|].
      destruct (summaryData (state w)); [reflexivity | congruence]. }
    eexists. cbn [step]. split; [reflexivity|].
    rewrite calls_commit, E.
    cbn [fst snd resetOnClose isOpen commit props state in_flight requests
         flat_map List.length].
    rewrite app_nil_r.
    split; [reflexivity|]. split; [reflexivity|]. split; [reflexivity|].
    split; [lia|].
    intros index payload I.
    destruct (nth_error (in_flight w) index) eqn:N;
      [|apply nth_error_None in N; lia].
    eexists. cbn [step in_flight commit fst snd requests flat_map].
    split; [reflexivity|].
    rewrite !calls_commit.
    split; [reflexivity|]. split; [reflexivity|]. split; [reflexivity|].
    split; [|cbn; lia].
    intros Er. unfold record. cbn. now rewrite Er.
  - intros docA payload. eexists. cbn. repeat split; reflexivity.
Qed.

Lemma document_switch_requests_nothing_witness :
  exists v,
    step (commit mounted
            {| document := Some {| Chat.Document.document_id := JS.lit "doc-1";
                                   Chat.Document.filename := JS.lit "a.pdf" |};
               isOpen := true |}
            []
            (generateSummary
               {| document := Some {| Chat.Document.document_id := JS.lit "doc-1";
                                      Chat.Document.filename := JS.lit "a.pdf" |};
                  isOpen := true |}
               initial))
         (Open {| Chat.Document.document_id := JS.lit "doc-2";
                  Chat.Document.filename := JS.lit "b.pdf" |}) = Some v
    /\ in_flight v = [JS.lit "doc-1"]
    /\ document (props v)
       = Some {| Chat.Document.document_id := JS.lit "doc-2";
                 Chat.Document.filename := JS.lit "b.pdf" |}.
Proof.
  destruct (proj1 (document_switch_requests_nothing
                     (commit mounted
                        {| document :=
                             Some {| Chat.Document.document_id := JS.lit "doc-1";
                                     Chat.Document.filename := JS.lit "a.pdf" |};
                           isOpen := true |}
                        []
                        (generateSummary
                           {| document :=
                                Some {| Chat.Document.document_id := JS.lit "doc-1";
                                        Chat.Document.filename := JS.lit "a.pdf" |};
                              isOpen := true |}
                           initial))
                     {| Chat.Document.document_id := JS.lit "doc-2";
                        Chat.Document.filename := JS.lit "b.pdf" |}
                     (or_introl eq_refl)))
    as (v & S & P & _ & F & _).
  exists v. split; [exact S|]. split; [exact F|]. now rewrite P.
Defined.

(** X8.  When the request of an open modal fails, the error replaces
    the view but the summary fetched before, if any, stays in the
    state; Try Again is then the button offered in the body, and a click
    on it clears the error and sends one new request for the document
    on display. *)
Theorem failed_summary_can_be_retried (w : World) (doc : Chat.Document.t)
    (d : JS.str) :
  isOpen (props w) = true ->
  document (props w) = Some doc ->
  in_flight w = [d] ->
  exists v u,
    step w (Rejected 0) = Some v
    /\ record (state v) = failed errorText
    /\ summaryData (state v) = summaryData (state w)
    /\ clickable TryAgain (props v) (state v) = true
    /\ clickable Generate (props v) (state v) = false
    /\ step v (Click TryAgain) = Some u
    /\ in_flight u = [Chat.Document.document_id doc]
    /\ calls u = S (calls w)
    /\ record (state u) = pending
    /\ error (state u) = None
    /\ summaryData (state u) = summaryData (state w).
Proof.
  intros O D F. destruct w as [[dc io] [ld sd er] fl em].
  cbn [props state in_flight isOpen document] in O, D, F. subst io dc fl.
  do 2 eexists.
  split; [reflexivity|].
  split; [reflexivity|]. split; [reflexivity|]. split; [reflexivity|].
  split; [reflexivity|]. split; [reflexivity|]. split; [reflexivity|].
  split; [rewrite !calls_commit; cbn; lia|].
  repeat split.
Qed.

Lemma failed_summary_can_be_retried_witness :
  exists v,
    run mounted
      [ Open {| Chat.Document.document_id := JS.lit "doc-1";
                Chat.Document.filename := JS.lit "a.pdf" |};
        Rejected 0 ] = Some v
    /\ record (state v) = failed errorText.
Proof.
  destruct (failed_summary_can_be_retried
              {| props := {| document :=
                               Some {| Chat.Document.document_id := JS.lit "doc-1";
                                       Chat.Document.filename := JS.lit "a.pdf" |};
                             isOpen := true |};
                 state := setError None (setLoading true initial);
                 in_flight := [JS.lit "doc-1"];
                 emitted := [post_summarize (JS.lit "doc-1")] |}
              {| Chat.Document.document_id := JS.lit "doc-1";
                 Chat.Document.filename := JS.lit "a.pdf" |}
              (JS.lit "doc-1") eq_refl eq_refl eq_refl)
    as (v & u & S & R & _).
  exists v. split; [exact S | exact R].
Defined.

End SummaryMore.

(* ===================================================================== *)
(** ** The interceptors                                                   *)
(* ===================================================================== *)

Section Interceptors.

Import Api.

(** X9.  With a non-empty token in storage every request leaves with
    [Authorization: Bearer <that token>], whatever header the call set
    itself: [verifyToken(t)] then carries the stored token, not [t].
    Without one the request leaves as the call built it.  Method, URL,
    body and content type are never touched. *)
Theorem bearer_is_the_stored_token (b : Browser) (config : Config) :
  method (requestInterceptor b config) = method config
  /\ url (requestInterceptor b config) = url config
  /\ data (requestInterceptor b config) = data config
  /\ Content_Type (headers (requestInterceptor b config))
     = Content_Type (headers config)
  /\ (forall c t,
        token b = Some (c :: t) ->
        Authorization (headers (requestInterceptor b config))
        = Some (JS.lit "Bearer " ++ c :: t)
        /\ forall arg,
             Authorization (headers (requestInterceptor b (verifyToken arg)))
             = Some (JS.lit "Bearer " ++ c :: t))
  /\ (token b = None \/ token b = Some [] ->
      requestInterceptor b config = config
      /\ forall arg,
           Authorization (headers (requestInterceptor b (verifyToken arg)))
           = Some (JS.lit "Bearer " ++ arg)).
Proof.
  unfold requestInterceptor.
  destruct (token b) as [[|c t]|] eqn:T; cbn;
    (split; [reflexivity|]); (split; [reflexivity|]);
    (split; [reflexivity|]); (split; [reflexivity|]); split.
  - intros c' t' E. discriminate E.
  - intros _. split; reflexivity.
  - intros c' t' E. inversion E; subst. split; reflexivity.
  - intros [E|E]; discriminate E.
  - intros c' t' E. discriminate E.
  - intros _. split; reflexivity.
Qed.

Lemma bearer_is_the_stored_token_witness :
  Authorization
    (headers (requestInterceptor
                {| token := Some (JS.lit "stored"); href := JS.lit "/chat" |}
                (verifyToken (JS.lit "other"))))
  = Some (JS.lit "Bearer stored").
Proof.
  exact (proj2 (proj1 (proj2 (proj2 (proj2 (proj2
           (bearer_is_the_stored_token
              {| token := Some (JS.lit "stored"); href := JS.lit "/chat" |}
              getDocuments)))))
           _ _ eq_refl) (JS.lit "other")).
Defined.

(** X10.  A rejected call is always rejected further with the same
    error.  When its status is 401 the stored token is removed and the
    page is sent to "/login", and from then on no call that sets no
    [Authorization] of its own carries one; with any other error, or no
    response at all, token and location stay as they are. *)
Theorem expired_session_logs_out (b : Browser) (error : Error) :
  snd (responseErrorInterceptor b error) = error
  /\ (response error = Some 401%Z ->
      token (fst (responseErrorInterceptor b error)) = None
      /\ href (fst (responseErrorInterceptor b error)) = JS.lit "/login"
      /\ forall config,
           plain config ->
           Authorization
             (headers (requestInterceptor
                         (fst (responseErrorInterceptor b error)) config))
           = None)
  /\ (response error <> Some 401%Z ->
      fst (responseErrorInterceptor b error) = b).
Proof.
  unfold responseErrorInterceptor. cbn [fst snd].
  split; [reflexivity|]. split.
  - intros ->. repeat split. intros config P. exact P.
  - intros N. destruct (response error) as [z|]; [|reflexivity].
    destruct z as [|p|p]; try reflexivity.
    repeat (destruct p as [p|p|]; try reflexivity).
    now elim N.
Qed.

Lemma expired_session_logs_out_witness :
  token (fst (responseErrorInterceptor
                {| token := Some (JS.lit "stored"); href := JS.lit "/chat" |}
                {| response := Some 401%Z |})) = None
  /\ fst (responseErrorInterceptor
            {| token := Some (JS.lit "stored"); href := JS.lit "/chat" |}
            {| response := None |})
     = {| token := Some (JS.lit "stored"); href := JS.lit "/chat" |}.
Proof.
  split.
  - exact (proj1 (proj1 (proj2 (expired_session_logs_out
             {| token := Some (JS.lit "stored"); href := JS.lit "/chat" |}
             {| response := Some 401%Z |})) eq_refl)).
  - apply (proj2 (proj2 (expired_session_logs_out
             {| token := Some (JS.lit "stored"); href := JS.lit "/chat" |}
             {| response := None |}))).
    discriminate.
Defined.

End Interceptors.

(* ===================================================================== *)
(** ** The document list                                                  *)
(* ===================================================================== *)

Section DocumentList.

Import Documents.

Lemma filter_keeps_all {A} (f : A -> bool) (l : list A) :
  (forall x, In x l -> f x = true) -> filter f l = l.
Proof.
  induction l as [|a l IH]; simpl; intros H; [reflexivity|].
  rewrite (H a (or_introl eq_refl)), IH; auto.
Qed.

Lemma In_without (id x : JS.str) (l : list JS.str) :
  In x (filter (fun y => negb (JSLib.str_eqb y id)) l) <-> In x l /\ x <> id.
Proof.
  rewrite filter_In, negb_true_iff, str_eqb_neq. reflexivity.
Qed.

(** X11.  Ticking a document's box flips whether its id is selected
    and leaves every other id as it was, without ever putting an id in
    twice.  Ticking twice gives the same selection back: the same list
    when the id was not selected, the same ids when it was. *)
Theorem toggle_flips_one (documentId : JS.str) (prev : list JS.str) :
  (In documentId (toggle documentId prev) <-> ~ In documentId prev)
  /\ (forall x, x <> documentId ->
        (In x (toggle documentId prev) <-> In x prev))
  /\ (NoDup prev -> NoDup (toggle documentId prev))
  /\ (~ In documentId prev ->
      toggle documentId (toggle documentId prev) = prev)
  /\ (forall x, In x (toggle documentId (toggle documentId prev)) <-> In x prev).
Proof.
  assert (A : forall l, ~ In documentId l -> toggle documentId l = l ++ [documentId]).
  { intros l H. unfold toggle.
    now rewrite (proj2 (array_includes_not_In l documentId) H). }
  assert (B : forall l, In documentId l ->
                toggle documentId l
                = filter (fun y => negb (JSLib.str_eqb y documentId)) l).
  { intros l H. unfold toggle.
    now rewrite (proj2 (array_includes_In l documentId) H). }
  assert (C : forall l, ~ In documentId l ->
                toggle documentId (l ++ [documentId]) = l).
  { intros l H. rewrite B by (apply in_or_app; right; now left).
    rewrite filter_app. simpl. rewrite str_eqb_refl. simpl.
    rewrite app_nil_r. apply filter_keeps_all.
    intros x I. apply negb_true_iff, str_eqb_neq. congruence. }
  destruct (in_dec (list_eq_dec N.eq_dec) documentId prev) as [I|I].
  - rewrite (B prev I).
    assert (N : ~ In documentId
                  (filter (fun y => negb (JSLib.str_eqb y documentId)) prev)).
    { rewrite In_without. tauto. }
    split; [tauto|]. split; [intros x H; rewrite In_without; tauto|].
    split; [apply NoDup_filter|]. split; [tauto|].
    intros x. rewrite (A _ N), in_app_iff, In_without. simpl.
    destruct (list_eq_dec N.eq_dec x documentId) as [->|D];
      intuition congruence.
  - rewrite (A prev I), (C prev I).
    split; [rewrite in_app_iff; simpl; tauto|].
    split; [intros x H; rewrite in_app_iff; simpl; intuition congruence|].
    split.
    { intros N. apply NoDup_app; [exact N | repeat constructor; tauto |].
      intros x H [E|[]]. subst. tauto. }
    split; [reflexivity | reflexivity].
Qed.

Lemma toggle_flips_one_witness :
  toggle (JS.lit "doc-2") (toggle (JS.lit "doc-2") [JS.lit "doc-1"])
  = [JS.lit "doc-1"]
  /\ NoDup (toggle (JS.lit "doc-2") [JS.lit "doc-1"]).
Proof.
  split.
  - apply (proj1 (proj2 (proj2 (proj2
             (toggle_flips_one (JS.lit "doc-2") [JS.lit "doc-1"]))))).
    intros [H|[]]. vm_compute in H. discriminate H.
  - apply (proj1 (proj2 (proj2
             (toggle_flips_one (JS.lit "doc-2") [JS.lit "doc-1"])))).
    repeat constructor. tauto.
Defined.

Section WithCase.

Variable toLowerCase : JS.str -> JS.str.

Lemma handleSelectAll_keeps_view (s : State) :
  filteredDocuments toLowerCase (handleSelectAll toLowerCase s)
  = filteredDocuments toLowerCase s.
Proof.
  unfold handleSelectAll. destruct (Nat.eqb _ _); reflexivity.
Qed.

(** X12.  Select All compares two counts only.  When the number of
    selected ids differs from the number of documents shown, it selects
    exactly the documents shown, in their order, and a second click
    then clears the selection.  When the two numbers are equal it
    clears the selection, whichever ids were selected. *)
Theorem select_all_compares_counts (s : State) :
  (List.length (selectedDocuments s)
   <> List.length (filteredDocuments toLowerCase s) ->
   selectedDocuments (handleSelectAll toLowerCase s)
   = map Doc.document_id (filteredDocuments toLowerCase s)
   /\ allChecked toLowerCase (handleSelectAll toLowerCase s)
      = Nat.ltb 0 (List.length (filteredDocuments toLowerCase s))
   /\ selectedDocuments
        (handleSelectAll toLowerCase (handleSelectAll toLowerCase s)) = [])
  /\ (List.length (selectedDocuments s)
      = List.length (filteredDocuments toLowerCase s) ->
      selectedDocuments (handleSelectAll toLowerCase s) = []
      /\ allChecked toLowerCase (handleSelectAll toLowerCase s) = false)
  /\ documents (handleSelectAll toLowerCase s) = documents s.
Proof.
  split; [|split].
  - intros N. apply Nat.eqb_neq in N.
    assert (E : selectedDocuments (handleSelectAll toLowerCase s)
                = map Doc.document_id (filteredDocuments toLowerCase s)).
    { unfold handleSelectAll. now rewrite N. }
    split; [exact E|]. split.
    + unfold allChecked. rewrite handleSelectAll_keeps_view, E, length_map.
      now rewrite Nat.eqb_refl.
    + unfold handleSelectAll at 1.
      rewrite handleSelectAll_keeps_view, E, length_map, Nat.eqb_refl.
      reflexivity.
  - intros E.
    assert (E' : selectedDocuments (handleSelectAll toLowerCase s) = []).
    { unfold handleSelectAll. apply Nat.eqb_eq in E. now rewrite E. }
    split; [exact E'|].
    unfold allChecked. rewrite handleSelectAll_keeps_view, E'.
    destruct (filteredDocuments toLowerCase s); reflexivity.
  - unfold handleSelectAll. destruct (Nat.eqb _ _); reflexivity.
Qed.

(** X13.  With an empty search term and the type filter on "all" every
    document is shown, provided lower-casing the empty string gives the
    empty string.  Whatever the term, choosing a type only removes
    documents from what "all" shows, and never changes their order or
    the selection. *)
Theorem empty_search_shows_all (s : State) :
  toLowerCase [] = [] ->
  (searchTerm s = [] -> filterType s = JS.lit "all" ->
   filteredDocuments toLowerCase s = documents s)
  /\ (forall type,
        filteredDocuments toLowerCase (setFilterType type s)
        = filter (fun doc =>
                    JSLib.str_eqb type (JS.lit "all")
                    || JSLib.str_eqb (Doc.file_type doc) type)
            (filteredDocuments toLowerCase (setFilterType (JS.lit "all") s)))
  /\ (forall type term,
        selectedDocuments (setSearchTerm term (setFilterType type s))
        = selectedDocuments s).
Proof.
  intros L. split; [|split].
  - intros T F. unfold filteredDocuments. apply filter_keeps_all.
    intros doc _. unfold matches. rewrite T, F, L, includes_empty.
    reflexivity.
  - intros type. unfold filteredDocuments, matches.
    cbn [documents searchTerm filterType setFilterType].
    induction (documents s) as [|doc docs IH]; [reflexivity|].
    cbn [filter]. rewrite IH.
    destruct (JSLib.includes _ _); cbn [andb orb filter]; [|reflexivity].
    rewrite str_eqb_refl. cbn [orb filter].
    destruct (JSLib.str_eqb type (JS.lit "all") || _); reflexivity.
  - reflexivity.
Qed.

End WithCase.

Lemma select_all_compares_counts_witness :
  selectedDocuments
    (handleSelectAll (fun x => x)
       (setSelectedDocuments (fun _ => [JS.lit "hidden"])
          (setSearchTerm (JS.lit "b")
             (setDocuments
                [ {| Doc.document_id := JS.lit "doc-1"; Doc.filename := JS.lit "a";
                     Doc.file_type := JS.lit ".pdf" |};
                  {| Doc.document_id := JS.lit "doc-2"; Doc.filename := JS.lit "b";
                     Doc.file_type := JS.lit ".pdf" |} ] initial)))) = [].
Proof.
  apply (proj1 (proj2 (select_all_compares_counts (fun x => x)
           (setSelectedDocuments (fun _ => [JS.lit "hidden"])
              (setSearchTerm (JS.lit "b")
                 (setDocuments
                    [ {| Doc.document_id := JS.lit "doc-1"; Doc.filename := JS.lit "a";
                         Doc.file_type := JS.lit ".pdf" |};
                      {| Doc.document_id := JS.lit "doc-2"; Doc.filename := JS.lit "b";
                         Doc.file_type := JS.lit ".pdf" |} ] initial)))))).
  reflexivity.
Defined.

Lemma empty_search_shows_all_witness :
  filteredDocuments (fun x => x)
    (setLoading false
       (setDocuments
          [ {| Doc.document_id := JS.lit "doc-1"; Doc.filename := JS.lit "a";
               Doc.file_type := JS.lit ".pdf" |} ] initial))
  = [ {| Doc.document_id := JS.lit "doc-1"; Doc.filename := JS.lit "a";
         Doc.file_type := JS.lit ".pdf" |} ].
Proof.
  apply (proj1 (empty_search_shows_all (fun x => x)
           (setLoading false
              (setDocuments
                 [ {| Doc.document_id := JS.lit "doc-1"; Doc.filename := JS.lit "a";
                      Doc.file_type := JS.lit ".pdf" |} ] initial))
           eq_refl)); reflexivity.
Defined.

End DocumentList.

Section DocumentActions.

Import Documents.

Lemma unique_spec (l seen : list JS.str) :
  NoDup (unique seen l)
  /\ forall x, In x (unique seen l) <-> In x l /\ ~ In x seen.
Proof.
  revert seen. induction l as [|a l IH]; intros seen; simpl.
  - split; [constructor | tauto].
  - destruct (JSLib.array_includes seen a) eqn:E.
    + apply array_includes_In in E. destruct (IH seen) as [N H].
      split; [exact N|]. intros x. rewrite H.
      split; [tauto|]. intros [[->|I] S]; tauto.
    + apply array_includes_not_In in E. destruct (IH (a :: seen)) as [N H].
      split.
      * constructor; [|exact N]. rewrite H. simpl. tauto.
      * intros x. simpl. rewrite H. simpl.
        destruct (list_eq_dec N.eq_dec a x) as [->|D]; [tauto|]. tauto.
Qed.

(** X14.  The options of the type filter are the file types of the
    documents, each exactly once, and the first option is the type of
    the first document. *)
Theorem file_types_without_repeats (s : State) :
  NoDup (fileTypes s)
  /\ (forall type,
        In type (fileTypes s)
        <-> exists doc, In doc (documents s) /\ Doc.file_type doc = type)
  /\ (forall doc rest,
        documents s = doc :: rest -> hd_error (fileTypes s) = Some (Doc.file_type doc)).
Proof.
  unfold fileTypes. destruct (unique_spec (map Doc.file_type (documents s)) [])
    as [N H].
  split; [exact N|]. split.
  - intros type. rewrite H, in_map_iff. simpl. split.
    + intros [(doc & E & I) _]. now exists doc.
    + intros (doc & I & E). split; [now exists doc | tauto].
  - intros doc rest E. rewrite E. reflexivity.
Qed.

Lemma file_types_without_repeats_witness :
  hd_error
    (fileTypes
       (setDocuments
          [ {| Doc.document_id := JS.lit "doc-1"; Doc.filename := JS.lit "a";
               Doc.file_type := JS.lit ".pdf" |};
            {| Doc.document_id := JS.lit "doc-2"; Doc.filename := JS.lit "b";
               Doc.file_type := JS.lit ".pdf" |} ] initial))
  = Some (JS.lit ".pdf").
Proof.
  exact (proj2 (proj2 (file_types_without_repeats
           (setDocuments
              [ {| Doc.document_id := JS.lit "doc-1"; Doc.filename := JS.lit "a";
                   Doc.file_type := JS.lit ".pdf" |};
                {| Doc.document_id := JS.lit "doc-2"; Doc.filename := JS.lit "b";
                   Doc.file_type := JS.lit ".pdf" |} ] initial)))
           _ _ eq_refl).
Defined.

(** X15.  Bulk delete asks for the deletion of every selected id, in
    the order of the selection, whatever the search term and type filter
    currently show; with nothing selected, or the confirmation declined,
    it asks for nothing.  Only when all deletions succeed is the
    selection cleared and the list fetched again; when one fails the
    state is left as it was and the list is not fetched. *)
Theorem bulk_delete_requests_selection (confirmed : bool) (s : State) :
  fst (handleBulkDelete confirmed s) = s
  /\ snd (handleBulkDelete confirmed s)
     = (if confirmed then map delete_document (selectedDocuments s) else [])
  /\ (forall term type,
        snd (handleBulkDelete confirmed (setSearchTerm term (setFilterType type s)))
        = snd (handleBulkDelete confirmed s))
  /\ (forall selected,
        selectedDocuments (fst (handleBulkDelete_fulfilled selected s)) = []
        /\ loading (fst (handleBulkDelete_fulfilled selected s)) = true
        /\ snd (handleBulkDelete_fulfilled selected s)
           = [toast_success
                (JSLib.of_nat (List.length selected)
                   ++ JS.lit " document(s) deleted successfully");
              get_documents])
  /\ fst (handleBulkDelete_rejected s) = s
  /\ ~ In get_documents (snd (handleBulkDelete_rejected s)).
Proof.
  assert (E : snd (handleBulkDelete confirmed s)
              = if confirmed then map delete_document (selectedDocuments s)
                else []).
  { unfold handleBulkDelete.
    destruct (selectedDocuments s), confirmed; reflexivity. }
  split; [unfold handleBulkDelete;
          destruct (selectedDocuments s), confirmed; reflexivity|].
  split; [exact E|]. split.
  - intros term type. rewrite E. unfold handleBulkDelete.
    cbn [selectedDocuments setSearchTerm setFilterType].
    destruct (selectedDocuments s), confirmed; reflexivity.
  - split; [intros selected; repeat split|].
    split; [reflexivity|].
    simpl. intros [H|[H|[]]]; discriminate H.
Qed.

(** X16.  Deleting a document with its own button does not unselect
    it: after the deletion and the fetch that follows, whatever list
    comes back, its id is still selected, and the next bulk delete asks
    to delete it again. *)
Theorem deleted_document_stays_selected (s : State) (documentId : JS.str)
    (response_documents : option (list Doc.t)) :
  In documentId (selectedDocuments s) ->
  let after :=
    fst (fetchDocuments_fulfilled response_documents
           (fst (handleDeleteDocument_fulfilled
                   (fst (handleDeleteDocument true documentId s))))) in
  snd (handleDeleteDocument true documentId s) = [delete_document documentId]
  /\ selectedDocuments after = selectedDocuments s
  /\ documents after
     = match response_documents with Some d => d | None => [] end
  /\ In (delete_document documentId) (snd (handleBulkDelete true after)).
Proof.
  intros I after. split; [reflexivity|]. split; [reflexivity|].
  split; [reflexivity|].
  destruct (bulk_delete_requests_selection true after) as (_ & E & _).
  rewrite E. apply in_map. exact I.
Qed.

Lemma deleted_document_stays_selected_witness :
  In (delete_document (JS.lit "doc-1"))
     (snd (handleBulkDelete true
             (fst (fetchDocuments_fulfilled (Some [])
                (fst (handleDeleteDocument_fulfilled
                   (fst (handleDeleteDocument true (JS.lit "doc-1")
                           (setSelectedDocuments (fun _ => [JS.lit "doc-1"])
                              initial))))))))).
Proof.
  apply (deleted_document_stays_selected
           (setSelectedDocuments (fun _ => [JS.lit "doc-1"]) initial)
           (JS.lit "doc-1") (Some [])).
  now left.
Defined.

Lemma count_split (results : list bool) :
  List.length (filter (fun r => r) results)
  + List.length (filter (fun r => negb r) results)
  = List.length results.
Proof.
  induction results as [|[] l IH]; simpl; lia.
Qed.

Lemma some_passes {A} (f : A -> bool) (l : list A) :
  Nat.ltb 0 (List.length (filter f l)) = true <-> exists x, In x l /\ f x = true.
Proof.
  rewrite Nat.ltb_lt. split.
  - destruct (filter f l) as [|x r] eqn:E; simpl; [lia|].
    intros _. exists x. apply filter_In. rewrite E. now left.
  - intros (x & I & F).
    assert (H : In x (filter f l)) by (apply filter_In; auto).
    destruct (filter f l); [contradiction | simpl; lia].
Qed.

Lemma some_succeeded (results : list bool) :
  Nat.ltb 0 (List.length (filter (fun r => r) results)) = true
  <-> In true results.
Proof.
  rewrite some_passes. split.
  - intros ([] & I & F); [exact I | discriminate].
  - intros I. now exists true.
Qed.

(** X17.  Dropping no file does nothing at all.  Otherwise every file
    is uploaded and, once all uploads have settled, the counts in the
    two toasts add up to the number of files; the list is fetched again
    exactly when at least one upload succeeded, the failure toast is
    shown exactly when at least one failed, and in the end the dialog
    is closed and [uploading] is false whatever the outcomes. *)
Theorem upload_outcomes_add_up (acceptedFiles : list JS.str)
    (results : list bool) (s s' : State) :
  List.length results = List.length acceptedFiles ->
  onDrop [] s = (s, [])
  /\ (acceptedFiles <> [] ->
      uploading (fst (onDrop acceptedFiles s)) = true
      /\ snd (onDrop acceptedFiles s) = map upload_document acceptedFiles)
  /\ List.length (filter (fun r => r) results)
     + List.length (filter (fun r => negb r) results)
     = List.length acceptedFiles
  /\ (In get_documents (snd (onDrop_settled results s)) <-> In true results)
  /\ (~ In true results -> onDrop_settled results s = (s, []))
  /\ (snd (onDrop_finish results s')
      = if existsb negb results
        then [toast_error
                (JSLib.of_nat (List.length (filter (fun r => negb r) results))
                   ++ JS.lit " document(s) failed to upload")]
        else [])
  /\ uploading (fst (onDrop_finish results s')) = false
  /\ showUploadModal (fst (onDrop_finish results s')) = false.
Proof.
  intros L. split; [reflexivity|]. split.
  { intros N. destruct acceptedFiles; [congruence|]. split; reflexivity. }
  split; [rewrite count_split; exact L|].
  split; [|split; [|split; [|split; reflexivity]]].
  - unfold onDrop_settled.
    destruct (Nat.ltb 0 _) eqn:E.
    + split; [intros _; now apply some_succeeded | intros _; simpl; auto].
    + split; [intros []|]. intros I. apply some_succeeded in I. congruence.
  - intros N. unfold onDrop_settled.
    destruct (Nat.ltb 0 _) eqn:E; [|reflexivity].
    apply some_succeeded in E. contradiction.
  - unfold onDrop_finish. cbn [snd].
    destruct (Nat.ltb 0 _) eqn:E.
    + apply some_passes in E. destruct E as (x & I & F).
      assert (X : existsb negb results = true)
        by (apply existsb_exists; now exists x).
      now rewrite X.
    + destruct (existsb negb results) eqn:X; [|reflexivity].
      apply existsb_exists in X. destruct X as (x & I & F).
      assert (Y : Nat.ltb 0 (List.length (filter (fun r => negb r) results)) = true)
        by (apply some_passes; now exists x).
      congruence.
Qed.

Lemma upload_outcomes_add_up_witness :
  List.length (filter (fun r => r) [true; false; true])
  + List.length (filter (fun r => negb r) [true; false; true]) = 3.
Proof.
  exact (proj1 (proj2 (proj2
           (upload_outcomes_add_up
              [JS.lit "a.pdf"; JS.lit "b.pdf"; JS.lit "c.pdf"]
              [true; false; true] initial initial eq_refl)))).
Defined.

End DocumentActions.

(* ===================================================================== *)
(** ** The administration page                                            *)
(* ===================================================================== *)

Section FloatSums.

Import AdminDashboard.

Lemma Prim2SF_zero : Prim2SF 0%float = S754_zero false.
Proof. reflexivity. Qed.

Lemma same_refl (a : float) : same_but_zero_sign a a.
Proof. now left. Qed.

Lemma same_trans (a b c : float) :
  same_but_zero_sign a b -> same_but_zero_sign b c -> same_but_zero_sign a c.
Proof.
  intros [->|(sa & sb & A & B)] [->|(sb' & sc & B' & C)].
  - now left.
  - right. eauto.
  - right. eauto.
  - right. eauto.
Qed.

(** Adding the literal [0] changes at most the sign of a zero. *)
Lemma add_zero_same (a : float) : same_but_zero_sign (a + 0)%float a.
Proof.
  destruct (Prim2SF a) as [s|s| |s m e] eqn:A.
  - right. exists false, s. split; [|exact A].
    rewrite add_spec, A, Prim2SF_zero. now destruct s.
  - left. apply Prim2SF_inj. rewrite add_spec, A, Prim2SF_zero. reflexivity.
  - left. apply Prim2SF_inj. rewrite add_spec, A, Prim2SF_zero. reflexivity.
  - left. apply Prim2SF_inj. rewrite add_spec, A, Prim2SF_zero. reflexivity.
Qed.

Lemma truthy_number_shape (v : float) :
  JSLib.truthy_number v = true ->
  (exists s, Prim2SF v = S754_infinity s)
  \/ (exists s m e, Prim2SF v = S754_finite s m e).
Proof.
  unfold JSLib.truthy_number, PrimFloat.is_zero, PrimFloat.is_nan.
  rewrite !FloatAxioms.eqb_spec. change (Prim2SF PrimFloat.zero) with (S754_zero false).
  destruct (Prim2SF v) as [s|s| |s m e]; intros H.
  - destruct s; discriminate H.
  - left. eauto.
  - discriminate H.
  - right. eauto.
Qed.

(** Adding a number that counts washes the sign of a zero out. *)
Lemma add_truthy_same (a b v : float) :
  same_but_zero_sign a b ->
  JSLib.truthy_number v = true ->
  (a + v)%float = (b + v)%float.
Proof.
  intros [->|(sa & sb & A & B)] T; [reflexivity|].
  apply Prim2SF_inj. rewrite !add_spec, A, B.
  destruct (truthy_number_shape v T) as [(s & V)|(s & m & e & V)];
    rewrite V; reflexivity.
Qed.

Lemma div_same (a b : float) :
  same_but_zero_sign a b ->
  same_but_zero_sign (a / (1024 * 1024))%float (b / (1024 * 1024))%float.
Proof.
  intros [->|(sa & sb & A & B)]; [now left|].
  right. exists (xorb sa false), (xorb sb false).
  rewrite !div_spec, A, B. split; reflexivity.
Qed.

Lemma toFixed_same (NumberToString : float -> JS.str) (a b : float) (f : nat) :
  same_but_zero_sign a b ->
  JS.toFixed NumberToString a f = JS.toFixed NumberToString b f.
Proof.
  intros [->|(sa & sb & A & B)]; [reflexivity|].
  unfold JS.toFixed. now rewrite A, B.
Qed.

Lemma or_zero_sized (doc : Doc.t) :
  (sized doc = true ->
   JSLib.truthy_number (JSLib.or_zero (Doc.file_size doc)) = true)
  /\ (sized doc = false -> JSLib.or_zero (Doc.file_size doc) = 0%float).
Proof.
  unfold sized, JSLib.or_zero.
  destruct (Doc.file_size doc) as [v|]; [|split; [discriminate | reflexivity]].
  destruct (JSLib.truthy_number v) eqn:T; split; congruence.
Qed.

Lemma sum_same (docs : list Doc.t) (a b : float) :
  same_but_zero_sign a b ->
  same_but_zero_sign
    (fold_left (fun sum doc => (sum + JSLib.or_zero (Doc.file_size doc))%float)
       docs a)
    (fold_left (fun sum doc => (sum + JSLib.or_zero (Doc.file_size doc))%float)
       (filter sized docs) b).
Proof.
  revert a b. induction docs as [|doc docs IH]; intros a b S; [exact S|].
  cbn [fold_left filter]. destruct (or_zero_sized doc) as [Y N].
  destruct (sized doc) eqn:Z.
  - cbn [fold_left]. apply IH.
    rewrite (add_truthy_same a b _ S (Y eq_refl)). apply same_refl.
  - apply IH. rewrite (N eq_refl).
    eapply same_trans; [apply add_zero_same | exact S].
Qed.

End FloatSums.

Section Admin.

Import AdminDashboard.

Variable NumberToString : float -> JS.str.

(** X18.  The storage figure does not depend on the documents whose
    [file_size] is missing, zero or [NaN]: it is the figure of the list
    without them. *)
Theorem storage_ignores_unsized (docs : list Doc.t) :
  calculateStorageUsed NumberToString docs
  = calculateStorageUsed NumberToString (filter sized docs).
Proof.
  unfold calculateStorageUsed, totalBytes. f_equal.
  apply toFixed_same, div_same, sum_same, same_refl.
Qed.

(** X19.  The storage figure and a formatted time are a number with
    exactly two digits after the point, followed by " MB" and "s", as
    long as the value is finite and below 10^21.  The number printed is
    the value rounded to the nearest hundredth (of two equally near, the
    larger in magnitude): a minus sign when it is below zero, an integer
    part without leading zeros, the point and two digits, and the digits
    denote the one number of hundredths nearest to the magnitude.  With
    no document the storage figure is "0.00 MB". *)
Theorem two_decimals (docs : list Doc.t) (seconds : float) :
  JS.fixed_range (totalBytes docs / (1024 * 1024))%float = true ->
  JS.fixed_range seconds = true ->
  (exists ip fp,
      calculateStorageUsed NumberToString docs
      = ((if (totalBytes docs / (1024 * 1024) <? 0)%float
          then JS.lit "-" else [])
         ++ ip ++ [46%N] ++ fp) ++ JS.lit " MB"
      /\ ip <> [] /\ List.length fp = 2
      /\ Forall (fun c => JS.is_digit c = true) (ip ++ fp)
      /\ (ip = [48%N] \/ hd 48%N ip <> 48%N)
      /\ JS.nearest_decimal 2 (totalBytes docs / (1024 * 1024))%float
           (JS.decimal_value (ip ++ fp))
      /\ (forall n,
            JS.nearest_decimal 2 (totalBytes docs / (1024 * 1024))%float n ->
            n = JS.decimal_value (ip ++ fp)))
  /\ (exists ip fp,
      AnalyticsPage.formatTime NumberToString seconds
      = ((if (seconds <? 0)%float then JS.lit "-" else [])
         ++ ip ++ [46%N] ++ fp) ++ JS.lit "s"
      /\ ip <> [] /\ List.length fp = 2
      /\ Forall (fun c => JS.is_digit c = true) (ip ++ fp)
      /\ (ip = [48%N] \/ hd 48%N ip <> 48%N)
      /\ JS.nearest_decimal 2 seconds (JS.decimal_value (ip ++ fp))
      /\ (forall n,
            JS.nearest_decimal 2 seconds n ->
            n = JS.decimal_value (ip ++ fp)))
  /\ calculateStorageUsed NumberToString [] = JS.lit "0.00 MB".
Proof.
  intros R1 R2. split; [|split; [|vm_compute; reflexivity]].
  - destruct (toFixed_shape NumberToString _ 2 ltac:(discriminate) R1)
      as (ip & fp & E & N0 & L & D1 & D2 & Z & V).
    exists ip, fp. unfold calculateStorageUsed. rewrite E.
    repeat split; auto. apply Forall_app; auto.
    intros n H. exact (nearest_decimal_unique 2 _ _ _ H V).
  - destruct (toFixed_shape NumberToString _ 2 ltac:(discriminate) R2)
      as (ip & fp & E & N0 & L & D1 & D2 & Z & V).
    exists ip, fp. unfold AnalyticsPage.formatTime. rewrite E.
    repeat split; auto. apply Forall_app; auto.
    intros n H. exact (nearest_decimal_unique 2 _ _ _ H V).
Qed.

(** *** The storage figure and the closures *)

Lemma Forall_drop_nth {A} (P : A -> Prop) (n : nat) (l : list A) :
  Forall P l -> Forall P (drop_nth n l).
Proof.
  revert n. induction l as [|a l IH]; intros [|n] H; simpl; auto;
    inversion H; subst; auto.
Qed.

Lemma Forall_nth_error {A} (P : A -> Prop) (n : nat) (l : list A) (a : A) :
  Forall P l -> nth_error l n = Some a -> P a.
Proof.
  intros H E. rewrite Forall_forall in H. apply H.
  eapply nth_error_In. eassumption.
Qed.

Lemma empty_storage : calculateStorageUsed NumberToString [] = JS.lit "0.00 MB".
Proof. vm_compute. reflexivity. Qed.

Lemma step_storage_blind (w w' : World) (ev : Event) :
  storage_blind w ->
  is_click ev = false ->
  step NumberToString w ev = Some w' ->
  storage_blind w'.
Proof.
  intros [P S] C H. destruct ev as [index date reply| |]; try discriminate C.
  cbn [step] in H.
  destruct (nth_error (pending w) index) as [p|] eqn:N; [|discriminate].
  pose proof (Forall_nth_error _ _ _ _ P N) as Pp.
  pose proof (Forall_drop_nth _ index _ P) as Pr.
  unfold storage_blind.
  destruct p as [| | |docs|us docs uid|docs did]; cbn in Pp; try contradiction;
    destruct reply; cbn [settle] in H; try discriminate;
    inversion H; subst; clear H; cbn [commit state pending fst snd];
    try (split; [apply Forall_app; split; [exact Pr | repeat constructor]
                | exact S]).
  (* loadSystemStats is fulfilled *)
  split; [rewrite app_nil_r; exact Pr|].
  unfold loadSystemStats_fulfilled.
  destruct response_analytics; cbn; [|exact S].
  right. apply empty_storage.
Qed.

Lemma run_storage_blind (evs : list Event) (w w' : World) :
  storage_blind w ->
  forallb (fun ev => negb (is_click ev)) evs = true ->
  run NumberToString w evs = Some w' ->
  storage_blind w'.
Proof.
  revert w. induction evs as [|ev evs IH]; intros w I C R; simpl in R.
  - now inversion R; subst.
  - simpl in C. apply andb_true_iff in C. destruct C as [C1 C2].
    apply negb_true_iff in C1.
    destruct (step NumberToString w ev) as [w1|] eqn:S; [|discriminate].
    apply (IH w1); auto. eapply step_storage_blind; eauto.
Qed.

(** X20.  Until a delete button is used, the storage figure on the
    page is the initial "0 MB" or "0.00 MB", whatever documents the
    server has sent: the [loadSystemStats] of the mount computes it
    from the document list of the first render, which is empty. *)
Theorem storage_figure_ignores_loaded_documents (evs : list Event) (w : World) :
  run NumberToString mounted evs = Some w ->
  forallb (fun ev => negb (is_click ev)) evs = true ->
  storageUsed (systemStats (state w)) = JS.lit "0 MB"
  \/ storageUsed (systemStats (state w)) = JS.lit "0.00 MB".
Proof.
  intros R C.
  assert (I : storage_blind mounted).
  { split; [repeat constructor | now left]. }
  exact (proj2 (run_storage_blind evs mounted w I C R)).
Qed.

End Admin.

Lemma two_decimals_witness :
  exists ip fp,
    AdminDashboard.calculateStorageUsed (fun _ => [])
      [ {| AdminDashboard.Doc.document_id := JS.lit "doc-1";
           AdminDashboard.Doc.filename := JS.lit "a.pdf";
           AdminDashboard.Doc.file_size := Some 1572864%float |} ]
    = ((if (AdminDashboard.totalBytes
              [ {| AdminDashboard.Doc.document_id := JS.lit "doc-1";
                   AdminDashboard.Doc.filename := JS.lit "a.pdf";
                   AdminDashboard.Doc.file_size := Some 1572864%float |} ]
            / (1024 * 1024) <? 0)%float
        then JS.lit "-" else [])
       ++ ip ++ [46%N] ++ fp) ++ JS.lit " MB"
    /\ ip <> [] /\ List.length fp = 2
    /\ Forall (fun c => JS.is_digit c = true) (ip ++ fp)
    /\ (ip = [48%N] \/ hd 48%N ip <> 48%N)
    /\ JS.nearest_decimal 2
         (AdminDashboard.totalBytes
            [ {| AdminDashboard.Doc.document_id := JS.lit "doc-1";
                 AdminDashboard.Doc.filename := JS.lit "a.pdf";
                 AdminDashboard.Doc.file_size := Some 1572864%float |} ]
          / (1024 * 1024))%float
         (JS.decimal_value (ip ++ fp))
    /\ (forall n,
          JS.nearest_decimal 2
            (AdminDashboard.totalBytes
               [ {| AdminDashboard.Doc.document_id := JS.lit "doc-1";
                    AdminDashboard.Doc.filename := JS.lit "a.pdf";
                    AdminDashboard.Doc.file_size := Some 1572864%float |} ]
             / (1024 * 1024))%float n ->
          n = JS.decimal_value (ip ++ fp)).
Proof.
  exact (proj1 (two_decimals (fun _ => [])
              [ {| AdminDashboard.Doc.document_id := JS.lit "doc-1";
                   AdminDashboard.Doc.filename := JS.lit "a.pdf";
                   AdminDashboard.Doc.file_size := Some 1572864%float |} ]
              0.125%float eq_refl eq_refl)).
Defined.

Lemma storage_figure_ignores_loaded_documents_witness :
  exists w,
    AdminDashboard.run (fun _ => []) AdminDashboard.mounted
      [ AdminDashboard.Settle 0 0 (AdminDashboard.users_reply (Some []));
        AdminDashboard.Settle 1 0
          (AdminDashboard.documents_reply
             (Some [ {| AdminDashboard.Doc.document_id := JS.lit "doc-1";
                        AdminDashboard.Doc.filename := JS.lit "a.pdf";
                        AdminDashboard.Doc.file_size := Some 1572864%float |} ]));
        AdminDashboard.Settle 0 7
          (AdminDashboard.analytics_reply
             (Some {| AdminDashboard.Analytics.total_users := None;
                      AdminDashboard.Analytics.total_documents := Some 1%float;
                      AdminDashboard.Analytics.total_queries := None;
                      AdminDashboard.Analytics.average_response_time := None |})) ]
    = Some w
    /\ (AdminDashboard.storageUsed
          (AdminDashboard.systemStats (AdminDashboard.state w)) = JS.lit "0 MB"
        \/ AdminDashboard.storageUsed
             (AdminDashboard.systemStats (AdminDashboard.state w))
           = JS.lit "0.00 MB").
Proof.
  destruct (AdminDashboard.run (fun _ => []) AdminDashboard.mounted
      [ AdminDashboard.Settle 0 0 (AdminDashboard.users_reply (Some []));
        AdminDashboard.Settle 1 0
          (AdminDashboard.documents_reply
             (Some [ {| AdminDashboard.Doc.document_id := JS.lit "doc-1";
                        AdminDashboard.Doc.filename := JS.lit "a.pdf";
                        AdminDashboard.Doc.file_size := Some 1572864%float |} ]));
        AdminDashboard.Settle 0 7
          (AdminDashboard.analytics_reply
             (Some {| AdminDashboard.Analytics.total_users := None;
                      AdminDashboard.Analytics.total_documents := Some 1%float;
                      AdminDashboard.Analytics.total_queries := None;
                      AdminDashboard.Analytics.average_response_time := None |})) ])
    as [w|] eqn:R; [|vm_compute in R; discriminate R].
  exists w. split; [reflexivity|].
  exact (storage_figure_ignores_loaded_documents (fun _ => []) _ w R eq_refl).
Defined.

Section AdminDeletes.

Import AdminDashboard.

Variable NumberToString : float -> JS.str.

(** X21.  Deleting a document on the administration page removes from
    the list every row with its id and keeps the others in order, but
    the storage figure computed right after is that of the list before
    the deletion, the deleted document included: the [loadSystemStats]
    called by the handler belongs to the render of the click. *)
Theorem storage_after_delete_is_stale (w : World) (row : nat) (doc : Doc.t)
    (date1 date2 : Z) (a : Analytics.t) :
  loading (state w) = false ->
  pending w = [] ->
  nth_error (documents (state w)) row = Some doc ->
  exists w1 w2 w3,
    step NumberToString w (ClickDeleteDocument true row) = Some w1
    /\ emitted w1 = emitted w ++ [delete_document (Doc.document_id doc)]
    /\ step NumberToString w1 (Settle 0 date1 deleted) = Some w2
    /\ documents (state w2)
       = filter (fun d => negb (JSLib.str_eqb (Doc.document_id d)
                                  (Doc.document_id doc)))
           (documents (state w))
    /\ ~ In doc (documents (state w2))
    /\ step NumberToString w2 (Settle 0 date2 (analytics_reply (Some a))) = Some w3
    /\ documents (state w3) = documents (state w2)
    /\ storageUsed (systemStats (state w3))
       = calculateStorageUsed NumberToString (documents (state w)).
Proof.
  intros L P N. destruct w as [s pd em]. cbn [state pending emitted] in *.
  subst pd. do 3 eexists.
  split; [cbn [step state]; rewrite L, N; reflexivity|].
  split; [reflexivity|]. split; [reflexivity|]. split; [reflexivity|].
  split.
  { cbn. rewrite filter_In, negb_true_iff, str_eqb_neq. tauto. }
  split; [reflexivity|]. split; reflexivity.
Qed.

Section Accounts.

Variable admins : Z -> Prop.

Lemma step_spares_admins (w w' : World) (ev : Event) :
  spares_admins admins w ->
  well_marked admins [ev] ->
  step NumberToString w ev = Some w' ->
  spares_admins admins w'.
Proof.
  intros (U & P & E) M H. inversion M as [|? ? Mev _]; subst. clear M.
  destruct ev as [index date reply|confirmed row|confirmed row];
    cbn [step] in H.
  - destruct (nth_error (pending w) index) as [p|] eqn:N; [|discriminate].
    pose proof (Forall_nth_error _ _ _ _ P N) as Pp.
    pose proof (Forall_drop_nth _ index _ P) as Pr.
    unfold spares_admins.
    destruct p as [| | |docs|us docs uid|docs did];
      destruct reply as [|ru|rd|ra|]; cbn [settle] in H; try discriminate;
      inversion H; subst; clear H;
      try (unfold loadSystemStats_fulfilled; destruct ra);
      cbn [commit state pending emitted fst snd users
           loadAdminData_users loadAdminData_documents loadAdminData_analytics
           loadAdminData_rejected loadSystemStats_rejected
           handleDeleteUser_fulfilled handleDeleteUser_rejected
           handleDeleteDocument_fulfilled handleDeleteDocument_rejected
           loadSystemStats setUsers setDocuments setAnalytics setLoading
           setSystemStats];
      (split;
       [ first
           [ exact U
           | destruct ru; [exact Mev | constructor]
           | apply Forall_forall; intros u I; apply filter_In in I;
             rewrite Forall_forall in Pp; apply Pp; tauto ]
       | split;
         [ apply Forall_app; split; [exact Pr | repeat constructor]
         | apply Forall_app; split; [exact E | repeat constructor] ] ]).
  - destruct (loading (state w)); [discriminate|].
    destruct (nth_error (users (state w)) row) as [user|] eqn:N; [|discriminate].
    destruct (JSLib.str_eqb (User.role user) (JS.lit "admin")) eqn:R;
      [discriminate|].
    inversion H; subst; clear H. apply str_eqb_neq in R.
    pose proof (Forall_nth_error _ _ _ _ U N) as Mu.
    unfold spares_admins. cbn [commit state pending emitted fst snd].
    split; [exact U|]. split.
    + apply Forall_app. split; [exact P|].
      destruct confirmed; repeat constructor. exact U.
    + apply Forall_app. split; [exact E|].
      destruct confirmed; repeat constructor. intros A. apply R, Mu, A.
  - destruct (loading (state w)); [discriminate|].
    destruct (nth_error (documents (state w)) row) as [doc|]; [|discriminate].
    inversion H; subst; clear H.
    unfold spares_admins. cbn [commit state pending emitted fst snd].
    split; [exact U|]. split.
    + apply Forall_app. split; [exact P|].
      destruct confirmed; repeat constructor.
    + apply Forall_app. split; [exact E|].
      destruct confirmed; repeat constructor.
Qed.

(** X22.  As long as every list of users the server sends marks the
    administrators with the role "admin", the page never asks for the
    deletion of an administrator's account: the delete button is
    rendered for the other rows only. *)
Theorem admins_are_never_deleted (evs : list Event) (w : World) (userId : Z) :
  well_marked admins evs ->
  run NumberToString mounted evs = Some w ->
  In (delete_user userId) (emitted w) ->
  ~ admins userId.
Proof.
  intros M R I.
  assert (S : spares_admins admins w).
  { assert (S0 : spares_admins admins mounted)
      by (repeat split; repeat constructor).
    revert M R S0. generalize mounted. clear I.
    induction evs as [|ev evs IH]; intros w0 M R S0; simpl in R.
    - now inversion R; subst.
    - inversion M as [|? ? M1 M2]; subst.
      destruct (step NumberToString w0 ev) as [w1|] eqn:St; [|discriminate].
      apply (IH w1 M2 R).
      eapply step_spares_admins; eauto. now constructor. }
  destruct S as (_ & _ & E). rewrite Forall_forall in E.
  exact (E _ I).
Qed.

End Accounts.

End AdminDeletes.

Lemma storage_after_delete_is_stale_witness :
  exists w1,
    AdminDashboard.step (fun _ => [])
      {| AdminDashboard.state := AdminDashboard.setLoading false
                    (AdminDashboard.setDocuments
                       [ {| AdminDashboard.Doc.document_id := JS.lit "doc-1";
                            AdminDashboard.Doc.filename := JS.lit "a.pdf";
                            AdminDashboard.Doc.file_size := Some 1572864%float |} ] AdminDashboard.initial);
         AdminDashboard.pending := []; AdminDashboard.emitted := [] |}
      (AdminDashboard.ClickDeleteDocument true 0) = Some w1
    /\ AdminDashboard.emitted w1 = [AdminDashboard.delete_document (JS.lit "doc-1")].
Proof.
  destruct (storage_after_delete_is_stale (fun _ => [])
              {| AdminDashboard.state := AdminDashboard.setLoading false
                            (AdminDashboard.setDocuments
                               [ {| AdminDashboard.Doc.document_id := JS.lit "doc-1";
                                    AdminDashboard.Doc.filename := JS.lit "a.pdf";
                                    AdminDashboard.Doc.file_size := Some 1572864%float |} ] AdminDashboard.initial);
                 AdminDashboard.pending := []; AdminDashboard.emitted := [] |}
              0
              {| AdminDashboard.Doc.document_id := JS.lit "doc-1";
                 AdminDashboard.Doc.filename := JS.lit "a.pdf";
                 AdminDashboard.Doc.file_size := Some 1572864%float |}
              0 0
              {| AdminDashboard.Analytics.total_users := None; AdminDashboard.Analytics.total_documents := None;
                 AdminDashboard.Analytics.total_queries := None;
                 AdminDashboard.Analytics.average_response_time := None |}
              eq_refl eq_refl eq_refl)
    as (w1 & w2 & w3 & S1 & E1 & _).
  exists w1. split; [exact S1 | exact E1].
Defined.

Lemma admins_are_never_deleted_witness :
  ~ (fun userId => userId = 1%Z) 2%Z.
Proof.
  apply (admins_are_never_deleted (fun _ => []) (fun userId => userId = 1%Z)
           [ AdminDashboard.Settle 0 0
               (AdminDashboard.users_reply
                  (Some [ {| AdminDashboard.User.id := 1;
                             AdminDashboard.User.username := JS.lit "root";
                             AdminDashboard.User.role := JS.lit "admin" |};
                          {| AdminDashboard.User.id := 2;
                             AdminDashboard.User.username := JS.lit "ann";
                             AdminDashboard.User.role := JS.lit "user" |} ]));
             AdminDashboard.Settle 1 0 (AdminDashboard.documents_reply None);
             AdminDashboard.Settle 1 0 (AdminDashboard.analytics_reply None);
             AdminDashboard.ClickDeleteUser true 1 ]
           {| AdminDashboard.state :=
                AdminDashboard.setLoading false
                  (AdminDashboard.setUsers
                     [ {| AdminDashboard.User.id := 1;
                          AdminDashboard.User.username := JS.lit "root";
                          AdminDashboard.User.role := JS.lit "admin" |};
                       {| AdminDashboard.User.id := 2;
                          AdminDashboard.User.username := JS.lit "ann";
                          AdminDashboard.User.role := JS.lit "user" |} ]
                     AdminDashboard.initial);
              AdminDashboard.pending :=
                [ AdminDashboard.await_stats [];
                  AdminDashboard.await_delete_user
                    [ {| AdminDashboard.User.id := 1;
                         AdminDashboard.User.username := JS.lit "root";
                         AdminDashboard.User.role := JS.lit "admin" |};
                      {| AdminDashboard.User.id := 2;
                         AdminDashboard.User.username := JS.lit "ann";
                         AdminDashboard.User.role := JS.lit "user" |} ]
                    [] 2 ];
              AdminDashboard.emitted :=
                [ AdminDashboard.get_users; AdminDashboard.get_analytics;
                  AdminDashboard.get_all_documents; AdminDashboard.get_analytics;
                  AdminDashboard.delete_user 2 ] |}
           2%Z).
  - apply Forall_cons; [|repeat (apply Forall_cons; [exact I|]); apply Forall_nil].
    apply Forall_cons; [intros _; reflexivity|].
    apply Forall_cons; [intros H; discriminate H | apply Forall_nil].
  - vm_compute. reflexivity.
  - cbn. tauto.
Defined.

(* ===================================================================== *)
(** ** The routes                                                         *)
(* ===================================================================== *)

(** X23.  Whatever route is visited, a visitor who is not authenticated
    ends on the login page and one who is authenticated never does: the
    login route and the root send the latter to the dashboard, every
    other route shows its own page.  No route takes more than two
    redirects, and the navigation bar is there exactly for the
    authenticated. *)
Theorem routes_guard_the_pages (path : App.Path) :
  (exists n, App.land 3 false path = Some (App.Login, n) /\ n <= 2)
  /\ (exists page n,
        App.land 3 true path = Some (page, n) /\ n <= 1
        /\ page <> App.Login
        /\ (page = App.Dashboard
            \/ App.element true path = App.show page))
  /\ (forall isAuthenticated,
        App.AppContent isAuthenticated true path = App.spinner
        /\ exists e,
             App.AppContent isAuthenticated false path
             = App.routed isAuthenticated e).
Proof.
  split; [|split].
  - destruct path; eexists; (split; [reflexivity | lia]).
  - destruct path; do 2 eexists;
      (split; [reflexivity|]); (split; [lia|]);
      (split; [discriminate|]); auto.
  - intros a. split; [reflexivity|]. eexists. reflexivity.
Qed.

(* ===================================================================== *)
(** ** The chat log in arbitrary runs                                     *)
(* ===================================================================== *)

Section ChatRuns.

Import Chat.

Lemma pairs_snoc (n : nat) :
  List.concat (repeat [user; bot] n) ++ [user; bot]
  = List.concat (repeat [user; bot] (S n)).
Proof.
  induction n as [|n IH]; [reflexivity|].
  cbn [repeat List.concat] in *. rewrite <- app_assoc, IH. reflexivity.
Qed.

Lemma step_log_orderly (w w' : World) (ev : Event) :
  ChatLog.orderly w -> step w ev = Some w' -> ChatLog.orderly w'.
Proof.
  intros (I & F & n & P) S.
  split; [eapply step_idle_or_waiting; eauto|].
  destruct w as [s fl em]. unfold ChatLog.paired, idle_or_waiting in *.
  cbn [state in_flight] in *.
  destruct ev; cbn [step state in_flight] in S;
    repeat match type of S with
           | match ?c with _ => _ end = _ => destruct c eqn:?; try discriminate
           end;
    inversion S; subst; clear S; cbn [commit state fst];
    try (split; [exact F | exists n; exact P]).
  - (* Submit *)
    unfold handleSubmit. destruct (negb _ || loading s) eqn:G.
    + split; [exact F | exists n; exact P].
    + apply handleSubmit_guard in G. destruct G as [Q L].
      cbn [fst messages loading setLoading setInput setMessages].
      split.
      * apply Forall_app. split; [exact F|]. constructor; [|constructor].
        unfold ChatLog.well_formed. cbn. auto.
      * exists n. rewrite map_app, P, L. cbn. now rewrite app_nil_r.
  - (* QueryFulfilled *)
    destruct I as [[L _]|[_ E]]; [|discriminate E].
    cbn [handleSubmit_fulfilled fst messages loading setLoading setMessages].
    split.
    + apply Forall_app. split; [exact F|]. constructor; [|constructor].
      unfold ChatLog.well_formed. cbn. eauto.
    + exists (S n). rewrite map_app, P, L, <- pairs_snoc, <- app_assoc.
      cbn. now rewrite app_nil_r.
  - (* QueryRejected *)
    destruct I as [[L _]|[_ E]]; [|discriminate E].
    cbn [handleSubmit_rejected fst messages loading setLoading setMessages].
    split.
    + apply Forall_app. split; [exact F|]. constructor; [|constructor].
      unfold ChatLog.well_formed. cbn. eauto.
    + exists (S n). rewrite map_app, P, L, <- pairs_snoc, <- app_assoc.
      cbn. now rewrite app_nil_r.
Qed.

Lemma run_log_orderly (evs : list Event) (w : World) :
  run mounted evs = Some w -> ChatLog.orderly w.
Proof.
  assert (I : ChatLog.orderly mounted).
  { split; [right; split; reflexivity|]. split; [constructor|].
    exists 0. reflexivity. }
  revert I. generalize mounted. induction evs as [|ev evs IH]; intros w0 I R.
  - now inversion R; subst.
  - cbn [run] in R. destruct (step w0 ev) as [w1|] eqn:S; [|discriminate].
    apply (IH w1); auto. eapply step_log_orderly; eauto.
Qed.

(** X24.  Whatever happens on the page, in whatever order, the log is
    a row of question/reply pairs, followed by one open question exactly
    while [loading] is set: each question gets one reply, success or
    apology, before the next question is taken. *)
Theorem every_question_gets_one_reply (evs : list Event) (w : World) :
  run mounted evs = Some w ->
  exists n,
    map Message.type (messages (state w))
    = List.concat (repeat [user; bot] n)
        ++ (if loading (state w) then [user] else [])
    /\ List.length (messages (state w))
       = 2 * n + (if loading (state w) then 1 else 0).
Proof.
  intros R. destruct (run_log_orderly evs w R) as (_ & _ & n & P).
  exists n. split; [exact P|].
  rewrite <- (length_map Message.type), P, length_app.
  assert (L : forall k, List.length (List.concat (repeat [user; bot] k)) = 2 * k).
  { induction k as [|k IH]; [reflexivity|]. cbn [repeat List.concat].
    rewrite length_app, IH. simpl. lia. }
  rewrite L. destruct (loading (state w)); reflexivity.
Qed.

Lemma every_question_gets_one_reply_witness :
  exists w n,
    run mounted
      [ Change (JS.lit "hello"); Submit 1000 1000; DocumentsRejected;
        Submit 1001 1001; QueryRejected 1200 1200 ] = Some w
    /\ List.length (messages (state w))
       = 2 * n + (if loading (state w) then 1 else 0).
Proof.
  destruct (run mounted
              [ Change (JS.lit "hello"); Submit 1000 1000; DocumentsRejected;
                Submit 1001 1001; QueryRejected 1200 1200 ]) as [w|] eqn:R;
    [|vm_compute in R; discriminate R].
  destruct (every_question_gets_one_reply _ w R) as (n & _ & L).
  exists w, n. split; [reflexivity | exact L].
Defined.

Section Rendered.

Variable NumberToString : float -> JS.str.

(** X25.  In every log the page can reach, a user message has a
    non-empty text and shows neither a sources block nor a confidence
    badge, and an assistant message always has a sources array: its
    block is shown exactly when the array is not empty and then has one
    line per source. *)
Theorem log_messages_are_well_formed (evs : list Event) (w : World)
    (m : Message.t) :
  run mounted evs = Some w ->
  In m (messages (state w)) ->
  match Message.type m with
  | user =>
      Message.content m <> []
      /\ ChatView.sourcesBlock NumberToString m = None
      /\ confidenceBadge m = None
  | bot =>
      exists l,
        Message.sources m = Some l
        /\ (l = [] -> ChatView.sourcesBlock NumberToString m = None)
        /\ (l <> [] ->
            ChatView.sourcesBlock NumberToString m
            = Some (map (formatSource NumberToString) l))
  end.
Proof.
  intros R I. destruct (run_log_orderly evs w R) as (_ & F & _).
  rewrite Forall_forall in F. specialize (F m I).
  unfold ChatLog.well_formed in F.
  unfold ChatView.sourcesBlock, confidenceBadge.
  destruct (Message.type m).
  - destruct F as (C & S & K). repeat split; auto.
  - destruct F as (l & S). exists l. rewrite S.
    split; [reflexivity|]. split.
    + intros ->. reflexivity.
    + intros N. destruct l; [congruence | reflexivity].
Qed.

End Rendered.

Lemma log_messages_are_well_formed_witness :
  Message.content (userMessage 1000 1000 (JS.lit "hello")) <> []
  /\ ChatView.sourcesBlock (fun _ => []) (userMessage 1000 1000 (JS.lit "hello"))
     = None
  /\ confidenceBadge (userMessage 1000 1000 (JS.lit "hello")) = None.
Proof.
  exact (log_messages_are_well_formed (fun _ => [])
           [Change (JS.lit "hello"); Submit 1000 1000]
           _ (userMessage 1000 1000 (JS.lit "hello"))
           eq_refl (or_introl eq_refl)).
Defined.

End ChatRuns.
